(** * Satellite ground-track prediction: time grid, collection, altitude filter

    A shallow embedding of [show_all.py], [show_satellites_trajectories.py]
    and [config.py], and the properties of the prediction pipeline proved
    on it.

    Conventions of the embedding:
    - Python [int] is [Z]; numpy [float64] is the primitive binary64 [float].
    - A naive [datetime] is the number of microseconds since
      0001-01-01T00:00:00; its (year, month, day) triple is carried as the
      proleptic Gregorian ordinal [toordinal], on which [datetime] and
      Skyfield's [julian_day] agree.
    - A Skyfield [Time] built by [ts.utc] from integer components is the
      instant it denotes on the uniform scale, in whole seconds: the UTC
      second, counted from 0001-01-01T00:00:00, plus the leap-second offset
      that the timescale's table gives for the date.
    - Arithmetic on a numpy array is that of [int64]; a Python [int] that
      meets an array is converted first, and [OverflowError] is raised when
      it does not fit.
    - A raised exception is the [Raise] branch of [result]; code that prints
      or calls a collaborator runs in the monad [M], which keeps the log of
      events also when an exception is raised.
    - The dictionaries keyed by satellite name are [gmap string _]. *)

From Stdlib Require Import ZArith Lia Ascii String Floats.PrimFloat Uint63.
From Stdlib Require Floats.SpecFloat Floats.FloatOps Floats.FloatAxioms.
From stdpp Require Import gmap strings list pretty.

Open Scope Z_scope.

#[local] Set Warnings "-clear-no-such-hyp".

(** ** Exceptions *)

Inductive exn : Type :=
  | OverflowError
  | ZeroDivisionError
  | IndexError
  | LibraryError (msg : string).

Inductive result (A : Type) : Type :=
  | Ok (a : A)
  | Raise (e : exn).
Arguments Ok {A} a.
Arguments Raise {A} e.

#[global] Instance result_ret : MRet result := λ A a, Ok a.
#[global] Instance result_bind : MBind result := λ A B f r,
  match r with
  | Ok a => f a
  | Raise e => Raise e
  end.

Definition is_Ok {A} (r : result A) : Prop := ∃ a, r = Ok a.

(** ** The [datetime] module *)

Module datetime.

Definition US_PER_SECOND : Z := 1000000.
Definition US_PER_MINUTE : Z := 60 * US_PER_SECOND.
Definition US_PER_HOUR : Z := 60 * US_PER_MINUTE.
Definition US_PER_DAY : Z := 24 * US_PER_HOUR.

(** [date.max.toordinal()], the ordinal of 9999-12-31. *)
Definition MAXORDINAL : Z := 3652059.
(** The bound on [timedelta.days]. *)
Definition MAX_DELTA_DAYS : Z := 999999999.

(** Microseconds since 0001-01-01T00:00:00. *)
Definition t : Type := Z.

Definition in_range (us : Z) : bool :=
  bool_decide (0 ≤ us < MAXORDINAL * US_PER_DAY).

(** The values a [datetime] object can hold. *)
Definition valid (dt : t) : Prop := 0 ≤ dt < MAXORDINAL * US_PER_DAY.

(** Calendar arithmetic of the [datetime] constructor ([_ymd2ord]). *)
Definition is_leap (year : Z) : bool :=
  bool_decide (year `mod` 4 = 0) &&
  (negb (bool_decide (year `mod` 100 = 0)) || bool_decide (year `mod` 400 = 0)).

Definition days_before_year (year : Z) : Z :=
  let y := year - 1 in y * 365 + y `div` 4 - y `div` 100 + y `div` 400.

Definition DAYS_BEFORE_MONTH : list Z :=
  [0; 31; 59; 90; 120; 151; 181; 212; 243; 273; 304; 334].

Definition days_before_month (year month : Z) : Z :=
  default 0 (DAYS_BEFORE_MONTH !! Z.to_nat (month - 1)) +
  (if bool_decide (2 < month) && is_leap year then 1 else 0).

Definition ymd2ord (year month day : Z) : Z :=
  days_before_year year + days_before_month year month + day.

(** [datetime(year, month, day, hour, minute, second, microsecond)]. *)
Definition make (year month day hour minute second microsecond : Z) : t :=
  (ymd2ord year month day - 1) * US_PER_DAY + hour * US_PER_HOUR +
  minute * US_PER_MINUTE + second * US_PER_SECOND + microsecond.

(** The attributes read by the callers. *)
Definition toordinal (dt : t) : Z := dt `div` US_PER_DAY + 1.
Definition hour (dt : t) : Z := (dt `div` US_PER_HOUR) `mod` 24.
Definition minute (dt : t) : Z := (dt `div` US_PER_MINUTE) `mod` 60.
Definition second (dt : t) : Z := (dt `div` US_PER_SECOND) `mod` 60.
Definition microsecond (dt : t) : Z := dt `mod` US_PER_SECOND.

(** A [timedelta], in microseconds; the constructor raises
    [OverflowError] when the normalised day count leaves
    [-999999999 .. 999999999]. *)
Definition timedelta_of_us (us : Z) : result Z :=
  if bool_decide (- MAX_DELTA_DAYS ≤ us `div` US_PER_DAY ≤ MAX_DELTA_DAYS)
  then Ok us else Raise OverflowError.

(** [timedelta(days=d)] *)
Definition timedelta_days (d : Z) : result Z := timedelta_of_us (d * US_PER_DAY).
(** [timedelta(minutes=m)] *)
Definition timedelta_minutes (m : Z) : result Z := timedelta_of_us (m * US_PER_MINUTE).

(** [dt + td]: [OverflowError] when the sum is not a date of years
    1..9999. *)
Definition add (dt : t) (td : Z) : result t :=
  if in_range (dt + td) then Ok (dt + td) else Raise OverflowError.

End datetime.

(** ** Skyfield's timescale *)

Module skyfield.

(** A [Time] element: an instant of the uniform scale in whole seconds.
    The UTC second [s], counted from 0001-01-01T00:00:00, of a date whose
    leap-second offset is [o] is the instant [s + o]. *)
Definition time : Type := Z.

(** The instant of one tuple of calendar components. [ts.utc] looks up the
    leap-second offset in effect on the date (year, month, day) and adds
    hour, minute and second to the start of that date as elapsed seconds:
    a minute (or second) outside 0..59 runs on into the following hours
    and days under the offset of the date given, also across a leap
    second. The date is given by its ordinal; [leap_seconds] is the table
    of the timescale, by ordinal. *)
Definition utc1 (leap_seconds : Z → Z) (ordinal hour minute second : Z) : time :=
  (((ordinal - 1) * 24 + hour) * 60 + minute) * 60 + second + leap_seconds ordinal.

End skyfield.

(** ** numpy *)

(** [np.arange(n)]: [0, 1, ..., n-1], empty when [n <= 0]. *)
Definition arange (n : Z) : list Z := seqZ 0 n.

(** [arr[mask]] for a boolean [mask] of the length of [arr]: the elements
    at the positions where the mask holds. *)
Fixpoint compress {A} (mask : list bool) (arr : list A) : list A :=
  match mask, arr with
  | m :: mask', x :: arr' =>
      if m then x :: compress mask' arr' else compress mask' arr'
  | _, _ => []
  end.

(** A Python [int] that is multiplied with (or added to) an [int64] array
    is converted to [int64] first (numpy 2); a value outside
    [-2^63 .. 2^63 - 1] raises [OverflowError]. *)
Definition np_int64 (n : Z) : result Z :=
  if bool_decide (- 2 ^ 63 ≤ n < 2 ^ 63) then Ok n else Raise OverflowError.

(** [np.any(mask)] and [np.sum(mask)]. *)
Definition np_any (mask : list bool) : bool := existsb id mask.
Definition np_sum (mask : list bool) : Z := Z.of_nat (length (filter (λ b, b = true) mask)).

(** [int(a / b)] on Python integers: the correctly rounded binary64
    quotient, truncated toward zero; [ZeroDivisionError] when [b = 0].
    For [|a| < 2^53] the rounding cannot reach the next integer, so the
    value is the truncated exact quotient; every caller below has
    [|a| <= 999999999 * 1440] when it gets here (lemma
    [timedelta_days_dividend_exact]). *)
Definition int_truediv (a b : Z) : result Z :=
  if bool_decide (b = 0) then Raise ZeroDivisionError else Ok (a `quot` b).

(** ** Data of the pipeline *)

(** [config.py]: the settings the pipeline reads. *)
Record Config : Type := {
  SATELLITE_IDS : list Z;
  PREDICTION_DAYS : Z;
  TIME_STEP_MINUTES : Z;
  MAX_ALTITUDE_KM : float;
}.

Definition config : Config := {|
  SATELLITE_IDS := [59625; 60453; 59626; 60452; 40115];
  PREDICTION_DAYS := 10;
  TIME_STEP_MINUTES := 10;
  MAX_ALTITUDE_KM := 800%float;
|}.

(** An [EarthSatellite] object. *)
Record Satellite : Type := EarthSatellite {
  line1 : string;
  line2 : string;
  name : string;
}.

(** One element of [sat.at(times).subpoint()]: [latitude.degrees],
    [longitude.degrees], [elevation.km] and [elevation.m]. *)
Record Subpoint : Type := {
  latitude_degrees : float;
  longitude_degrees : float;
  elevation_km : float;
  elevation_in_m : float;
}.

(** The value stored under a satellite's name: five parallel arrays. *)
Record Entry : Type := {
  latitude : list float;
  longitude : list float;
  elevation_m : list float;
  altitude_km : list float;
  times : list datetime.t;
}.

(** What the program prints. *)
Inductive message : Type :=
  | MsgTleLines (sat_id : Z) (l0 l1 : string)
  | MsgIncompleteTle (sat_id : Z)
  | MsgNoTle (sat_id : Z)
  | MsgFetchError (sat_id : Z) (e : exn)
  | MsgGenerating (start_time : datetime.t) (days : Z)
  | MsgFetching
  | MsgFetched (name : string) (sat_id : Z)
  | MsgSkipping (sat_id : Z)
  | MsgNoSatellites
  | MsgComputingFiltered
  | MsgCollectingAll
  | MsgPointsBelow (name : string) (n : Z)
  | MsgNoPointsBelow (name : string)
  | MsgTotalPoints (name : string) (n : Z)
  | MsgNoPositionsBelow
  | MsgPlottingFiltered
  | MsgFilteredSaved
  | MsgNoFilteredData
  | MsgPlottingAll
  | MsgAllSaved.

(** What the program does to the outside: printing, and the calls of its
    three collaborators (element-set source, propagator, renderer). *)
Inductive event : Type :=
  | Print (m : message)
  | Fetch (sat_id : Z)
  | Propagate (sat : Satellite)
  | Render (filtered : bool) (data : gmap string Entry).

Definition is_collaborator_call (e : event) : bool :=
  match e with
  | Print _ => false
  | _ => true
  end.

(** The outside of the program. *)
Record World : Type := {
  (** [datetime.utcnow()] *)
  utcnow : datetime.t;
  (** [requests.get(url)], [raise_for_status()] and [json()] for a NORAD id:
      an exception, or the value under ['tle'] of the decoded answer
      ([None] when the key is missing). *)
  http_json : Z → result (option string);
  (** [str.splitlines] *)
  splitlines : string → list string;
  (** [load.timescale()]: the leap-second table of the timescale, the
      offset in effect on the date of a given ordinal. *)
  leap_seconds : Z → Z;
  (** [EarthSatellite(line1, line2, name, ts)]: the constructor parses the
      two lines and may raise (a line with a NUL character is a
      [ValueError]); when it returns, the object is the record
      [EarthSatellite line1 line2 name]. *)
  EarthSatellite_init : string → string → string → result unit;
  (** [sat.at(t).subpoint()]: SGP4 and the geodetic conversion, a pure
      function of the element set and the instant; the vectorised call
      applies it to every instant of the array. For an element set that
      SGP4 cannot evaluate the library does not raise: the positions are
      not numbers. [Raise] stands for an exception of the library on other
      grounds (such as [MemoryError] for the arrays). *)
  propagate : Satellite → result (skyfield.time → Subpoint);
  (** [ts.utc] of empty component lists, and of an empty minute array
      (the library's behaviour there is left open). *)
  utc_of_no_lists : result (list skyfield.time);
  utc_of_no_minutes : result (list skyfield.time);
  (** [plot_filtered_orbits] and [plot_all_orbits]: drawing the map,
      writing the image file and showing it; each may raise. *)
  plot_filtered_orbits : gmap string Entry → result unit;
  plot_all_orbits : gmap string Entry → result unit;
}.

(** ** The monad of logged, fallible computations *)

Definition M (A : Type) : Type := list event → list event * result A.

#[global] Instance M_ret : MRet M := λ A a log, (log, Ok a).
#[global] Instance M_bind : MBind M := λ A B f m log,
  match m log with
  | (log', Ok a) => f a log'
  | (log', Raise e) => (log', Raise e)
  end.

Definition emit (e : event) : M unit := λ log, (log ++ [e], Ok tt).
Definition print (m : message) : M unit := emit (Print m).
Definition lift {A} (r : result A) : M A := λ log, (log, r).

(** [try: body  except Exception as e: handler e] *)
Definition try_except {A} (body : M A) (handler : exn → M A) : M A := λ log,
  match body log with
  | (log', Ok a) => (log', Ok a)
  | (log', Raise e) => handler e log'
  end.

(** [for x in xs: s = body x s] *)
Fixpoint for_each {A S} (xs : list A) (body : A → S → M S) (s : S) : M S :=
  match xs with
  | [] => mret s
  | x :: xs' => s' ← body x s; for_each xs' body s'
  end.

(** [mapM] on [result]: a list comprehension whose element may raise. *)
Fixpoint traverse {A B} (f : A → result B) (xs : list A) : result (list B) :=
  match xs with
  | [] => Ok []
  | x :: xs' => y ← f x; ys ← traverse f xs'; Ok (y :: ys)
  end.

(** Truth value of a [str]. *)
Definition nonempty (s : string) : bool := negb (bool_decide (s = ""%string)).

(** [str(n)] of an [int]. *)
Definition str (n : Z) : string := pretty n.

(** ** Altitude filter *)

(** [[times_datetime[i] for i, m in enumerate(mask) if m]], with [i]
    counted from [start]; an index past the end raises [IndexError]. *)
Fixpoint select_times {A} (start : nat) (mask : list bool) (times_datetime : list A)
  : result (list A) :=
  match mask with
  | [] => Ok []
  | m :: mask' =>
      if m then
        match times_datetime !! start with
        | Some x => rest ← select_times (S start) mask' times_datetime; Ok (x :: rest)
        | None => Raise IndexError
        end
      else select_times (S start) mask' times_datetime
  end.

(** [alt_km <= MAX_ALTITUDE_KM], element by element. *)
Definition altitude_mask (max_altitude_km : float) (alt_km : list float) : list bool :=
  (λ a, PrimFloat.leb a max_altitude_km) <$> alt_km.

(** The filtering branch of [collect_satellite_data] for one satellite: the
    entry stored under its name, or [None] when the mask holds nowhere and
    nothing is stored. *)
Definition filter_entry (max_altitude_km : float) (lat lon elev_m alt_km : list float)
    (times_datetime : list datetime.t) : result (option Entry) :=
  let mask := altitude_mask max_altitude_km alt_km in
  if np_any mask then
    filtered_times ← select_times 0 mask times_datetime;
    Ok (Some {| latitude := compress mask lat;
                longitude := compress mask lon;
                elevation_m := compress mask elev_m;
                altitude_km := compress mask alt_km;
                times := filtered_times |})
  else Ok None.

(** The samples of an entry, position by position. *)
Record Sample : Type := {
  sample_latitude : float;
  sample_longitude : float;
  sample_elevation_m : float;
  sample_altitude_km : float;
  sample_time : datetime.t;
}.

Definition samples (e : Entry) : list Sample :=
  zip_with (λ a b, {| sample_latitude := a.1.1; sample_longitude := a.1.2;
                      sample_elevation_m := a.2; sample_altitude_km := b.1;
                      sample_time := b.2 |})
    (zip (zip (latitude e) (longitude e)) (elevation_m e))
    (zip (altitude_km e) (times e)).

(** The five arrays of an entry have one length. *)
Definition aligned (e : Entry) : Prop :=
  length (latitude e) = length (times e) ∧
  length (longitude e) = length (times e) ∧
  length (elevation_m e) = length (times e) ∧
  length (altitude_km e) = length (times e).

(** ** Skyfield time arrays *)

(** [ts.utc(years, months, days, hours, minutes, seconds)] on lists of equal
    length; the three date lists are one list of ordinals. *)
Definition ts_utc_lists (w : World) (ordinals hours minutes seconds : list Z)
  : result (list skyfield.time) :=
  match ordinals with
  | [] => utc_of_no_lists w
  | _ =>
      Ok (zip_with (λ dh ms, skyfield.utc1 (leap_seconds w) dh.1 dh.2 ms.1 ms.2)
            (zip ordinals hours) (zip minutes seconds))
  end.

(** [ts.utc(year, month, day, hour, minutes)] with scalar date and hour and
    an array of minutes; [second] is left at its default, 0. *)
Definition ts_utc_minutes (w : World) (ordinal hour : Z) (minutes : list Z)
  : result (list skyfield.time) :=
  match minutes with
  | [] => utc_of_no_minutes w
  | _ => Ok ((λ m, skyfield.utc1 (leap_seconds w) ordinal hour m 0) <$> minutes)
  end.

(** ** [show_all.py] *)

Module show_all.

(** [generate_time_steps]: the Skyfield times and the datetimes.
    [load.timescale()] provides [ts], whose leap-second table is
    [leap_seconds w]. [end_time] is not used, but its computation raises
    when the window leaves the calendar. In
    [step_minutes * np.arange(total_steps)] the Python [int] is converted
    to [int64], which raises when it does not fit; the products are those
    of [int64] and none of them wraps around: whenever this line is
    reached, each lies between 0 and [days*24*60] (lemma
    [minutes_array_no_wrap]). *)
Definition generate_time_steps (w : World) (start_time : datetime.t)
    (days step_minutes : Z) : result (list skyfield.time * list datetime.t) :=
  td ← datetime.timedelta_days days;
  end_time ← datetime.add start_time td;
  q ← int_truediv (days * 24 * 60) step_minutes;
  let total_steps := q + 1 in
  step ← np_int64 step_minutes;
  let minutes_array := (λ i, step * i) <$> arange total_steps in
  times_datetime ← traverse (λ m, d ← datetime.timedelta_minutes m;
                                   datetime.add start_time d) minutes_array;
  times ← ts_utc_lists w (datetime.toordinal <$> times_datetime)
                         (datetime.hour <$> times_datetime)
                         (datetime.minute <$> times_datetime)
                         (datetime.second <$> times_datetime);
  Ok (times, times_datetime).


(** [fetch_tle]: the name and the two element lines, or three [None]. *)
Definition fetch_tle (w : World) (sat_id : Z)
  : M (option string * option string * option string) :=
  try_except
    (emit (Fetch sat_id);;
     data ← lift (http_json w sat_id);
     match data with
     | Some tle =>
         if nonempty tle then
           let tle_lines := splitlines w tle in
           match tle_lines with
           | l0 :: l1 :: _ =>
               print (MsgTleLines sat_id l0 l1);;
               mret (Some (str sat_id), Some l0, Some l1)
           | _ =>
               print (MsgIncompleteTle sat_id);;
               mret (None, None, None)
           end
         else
           print (MsgNoTle sat_id);; mret (None, None, None)
     | None =>
         print (MsgNoTle sat_id);; mret (None, None, None)
     end)
    (λ e, print (MsgFetchError sat_id e);; mret (None, None, None)).

(** The body of the loop of [collect_satellite_data], for one satellite. *)
Definition collect_one (cfg : Config) (w : World)
    (times : list skyfield.time) (times_datetime : list datetime.t)
    (filter_altitude : bool) (sat : Satellite) (data : gmap string Entry)
  : M (gmap string Entry) :=
  emit (Propagate sat);;
  at_ ← lift (propagate w sat);
  let subpoint := at_ <$> times in
  let lat := latitude_degrees <$> subpoint in
  let lon := longitude_degrees <$> subpoint in
  let alt_km := elevation_km <$> subpoint in
  if filter_altitude then
    kept ← lift (filter_entry (MAX_ALTITUDE_KM cfg) lat lon
                   (elevation_in_m <$> subpoint) alt_km times_datetime);
    match kept with
    | Some entry =>
        print (MsgPointsBelow (name sat)
                 (np_sum (altitude_mask (MAX_ALTITUDE_KM cfg) alt_km)));;
        mret (<[name sat := entry]> data)
    | None =>
        print (MsgNoPointsBelow (name sat));; mret data
    end
  else
    print (MsgTotalPoints (name sat) (Z.of_nat (length lat)));;
    mret (<[name sat := {| latitude := lat;
                           longitude := lon;
                           elevation_m := elevation_in_m <$> subpoint;
                           altitude_km := alt_km;
                           times := times_datetime |}]> data).

Definition collect_satellite_data (cfg : Config) (w : World)
    (satellites : list Satellite) (times : list skyfield.time)
    (times_datetime : list datetime.t) (filter_altitude : bool)
  : M (gmap string Entry) :=
  for_each satellites (collect_one cfg w times times_datetime filter_altitude) ∅.

(** One round of the admission loop of [main]. The constructor is called
    outside any [try]: its exception leaves the loop and [main]. *)
Definition admit_one (w : World) (sat_id : Z) (satellites : list Satellite)
  : M (list Satellite) :=
  '(name, line1, line2) ← fetch_tle w sat_id;
  match name, line1, line2 with
  | Some name, Some line1, Some line2 =>
      if nonempty line1 && nonempty line2 then
        lift (EarthSatellite_init w line1 line2 name);;
        print (MsgFetched name sat_id);;
        mret (satellites ++ [EarthSatellite line1 line2 name])
      else
        print (MsgSkipping sat_id);; mret satellites
  | _, _, _ =>
      print (MsgSkipping sat_id);; mret satellites
  end.

Definition main (cfg : Config) (w : World) : M unit :=
  let start_time := utcnow w in
  print (MsgGenerating start_time (PREDICTION_DAYS cfg));;
  '(times, times_datetime) ←
    lift (show_all.generate_time_steps w start_time
            (PREDICTION_DAYS cfg) (TIME_STEP_MINUTES cfg));
  print MsgFetching;;
  satellites ← for_each (SATELLITE_IDS cfg) (admit_one w) [];
  match satellites with
  | [] => print MsgNoSatellites
  | _ =>
      print MsgComputingFiltered;;
      filtered_satellite_data ←
        collect_satellite_data cfg w satellites times times_datetime true;
      print MsgCollectingAll;;
      all_satellite_data ←
        collect_satellite_data cfg w satellites times times_datetime false;
      (if bool_decide (filtered_satellite_data = ∅)
       then print MsgNoPositionsBelow else mret tt);;
      (if bool_decide (filtered_satellite_data = ∅)
       then print MsgNoFilteredData
       else print MsgPlottingFiltered;;
            emit (Render true filtered_satellite_data);;
            lift (plot_filtered_orbits w filtered_satellite_data);;
            print MsgFilteredSaved);;
      print MsgPlottingAll;;
      emit (Render false all_satellite_data);;
      lift (plot_all_orbits w all_satellite_data);;
      print MsgAllSaved
  end.

(** Running a computation from the empty log. *)
Definition run {A} (m : M A) : list event * result A := m [].

End show_all.

(** ** [show_satellites_trajectories.py] *)

Module show_satellites_trajectories.

(** [generate_time_steps]: the Skyfield times only. The date and the hour
    of [start_time] are scalars and the minutes an [int64] array, built as
    in [show_all.py]; the seconds are not passed. *)
Definition generate_time_steps (w : World) (start_time : datetime.t)
    (days step_minutes : Z) : result (list skyfield.time) :=
  td ← datetime.timedelta_days days;
  end_time ← datetime.add start_time td;
  q ← int_truediv (days * 24 * 60) step_minutes;
  let total_steps := q + 1 in
  step ← np_int64 step_minutes;
  ts_utc_minutes w (datetime.toordinal start_time) (datetime.hour start_time)
    ((λ i, datetime.minute start_time + step * i) <$> arange total_steps).

End show_satellites_trajectories.


(** ** Reference values and sample inputs *)

(** The number of instants of a window of [days] days cut in steps of
    [step_minutes] minutes: [floor(days*24*60/step_minutes) + 1]. *)
Definition grid_size (days step_minutes : Z) : Z :=
  (days * 24 * 60) `div` step_minutes + 1.

(** The positions, counted from [start], at which a mask holds. *)
Fixpoint where_true (start : nat) (mask : list bool) : list nat :=
  match mask with
  | [] => []
  | m :: mask' =>
      if m then start :: where_true (S start) mask' else where_true (S start) mask'
  end.

(** [dst] holds, in order, the elements of [src] at the positions [idx]. *)
Definition gathered {A} (idx : list nat) (src dst : list A) : Prop :=
  Forall2 (λ i x, src !! i = Some x) idx dst.

(** The entry that the unfiltered branch of [collect_satellite_data] stores
    for a satellite whose propagator is [at_]. *)
Definition full_entry (at_ : skyfield.time → Subpoint) (times : list skyfield.time)
    (times_datetime : list datetime.t) : Entry :=
  {| latitude := latitude_degrees <$> (at_ <$> times);
     longitude := longitude_degrees <$> (at_ <$> times);
     elevation_m := elevation_in_m <$> (at_ <$> times);
     altitude_km := elevation_km <$> (at_ <$> times);
     times := times_datetime |}.

(** A sample is at or below the threshold, as numpy compares. *)
Definition qualifies (max_altitude_km : float) (s : Sample) : Prop :=
  PrimFloat.leb (sample_altitude_km s) max_altitude_km = true.

#[global] Instance qualifies_dec thr s : Decision (qualifies thr s).
Proof. unfold qualifies. apply _. Defined.

(** The entry cut down to the positions where [mask] holds. *)
Definition masked (mask : list bool) (u : Entry) : Entry :=
  {| latitude := compress mask (latitude u);
     longitude := compress mask (longitude u);
     elevation_m := compress mask (elevation_m u);
     altitude_km := compress mask (altitude_km u);
     times := compress mask (times u) |}.

(** The altitude filter applied to an entry. *)
Definition refilter (max_altitude_km : float) (u : Entry) : result (option Entry) :=
  filter_entry max_altitude_km (latitude u) (longitude u) (elevation_m u)
    (altitude_km u) (times u).

(** What one round of the loop of [collect_satellite_data] stores for a
    satellite whose propagator is [at_]: nothing when the filter keeps
    nothing. *)
Definition stored_entry (cfg : Config) (filter_altitude : bool)
    (at_ : skyfield.time → Subpoint) (instants : list skyfield.time)
    (times_datetime : list datetime.t) : option Entry :=
  let u := full_entry at_ instants times_datetime in
  if filter_altitude then
    let mask := altitude_mask (MAX_ALTITUDE_KM cfg) (altitude_km u) in
    if np_any mask then Some (masked mask u) else None
  else Some u.

(** The dictionary after one round that raises nothing. *)
Definition collect_step (cfg : Config) (w : World) (instants : list skyfield.time)
    (times_datetime : list datetime.t) (filter_altitude : bool)
    (data : gmap string Entry) (sat : Satellite) : gmap string Entry :=
  match propagate w sat with
  | Ok at_ =>
      match stored_entry cfg filter_altitude at_ instants times_datetime with
      | Some e => <[name sat := e]> data
      | None => data
      end
  | Raise _ => data
  end.

(** The events of one round. *)
Definition collect_events (cfg : Config) (w : World) (instants : list skyfield.time)
    (times_datetime : list datetime.t) (filter_altitude : bool)
    (sat : Satellite) : list event :=
  Propagate sat ::
  match propagate w sat with
  | Ok at_ =>
      let u := full_entry at_ instants times_datetime in
      let mask := altitude_mask (MAX_ALTITUDE_KM cfg) (altitude_km u) in
      [Print (if filter_altitude then
                if np_any mask then MsgPointsBelow (name sat) (np_sum mask)
                else MsgNoPointsBelow (name sat)
              else MsgTotalPoints (name sat) (Z.of_nat (length instants)))]
  | Raise _ => []
  end.

(** The mask of a satellite whose propagator is [at_]. *)
Definition mask_of (cfg : Config) (instants : list skyfield.time)
    (at_ : skyfield.time → Subpoint) : list bool :=
  altitude_mask (MAX_ALTITUDE_KM cfg) (elevation_km <$> (at_ <$> instants)).

(** The satellite that the admission loop of [main] builds for an id: the
    answer must carry a non-empty ['tle'] of at least two lines, the first
    two of them non-empty. *)
Definition element_set (w : World) (sat_id : Z) : option Satellite :=
  match http_json w sat_id with
  | Ok (Some tle) =>
      if nonempty tle then
        match splitlines w tle with
        | l0 :: l1 :: _ =>
            if nonempty l0 && nonempty l1
            then Some (EarthSatellite l0 l1 (str sat_id)) else None
        | _ => None
        end
      else None
  | _ => None
  end.

(** What the constructor does with the lines of a satellite. *)
Definition init_of (w : World) (sat : Satellite) : result unit :=
  EarthSatellite_init w (line1 sat) (line2 sat) (name sat).

(** The Skyfield time of the calendar second of a datetime. *)
Definition instant_of (w : World) (dt : datetime.t) : skyfield.time :=
  dt `div` datetime.US_PER_SECOND + leap_seconds w (datetime.toordinal dt).


Module examples.

(** 2024-01-01T00:00:00 *)
Definition new_year : datetime.t := datetime.make 2024 1 1 0 0 0 0.

(** Splitting at line feeds, enough of [splitlines] for the sample
    answers. *)
Definition line_feed : ascii := ascii_of_nat 10.

Fixpoint split_newline (acc s : string) : list string :=
  match s with
  | EmptyString => [String.rev acc]
  | String c s' =>
      if bool_decide (c = line_feed) then String.rev acc :: split_newline "" s'
      else split_newline (String c acc) s'
  end.

(** The leap-second table from 2015-07-01 on: 36 s, and 37 s from
    2017-01-01. *)
Definition leap_table (ordinal : Z) : Z :=
  if bool_decide (datetime.ymd2ord 2017 1 1 ≤ ordinal) then 37 else 36.

(** A constructor that accepts every pair of lines without a NUL
    character. *)
Definition has_nul (s : string) : bool :=
  existsb (λ c, bool_decide (c = Ascii.zero)) (list_ascii_of_string s).

Definition init_without_nul (line1 line2 name : string) : result unit :=
  if has_nul line1 || has_nul line2
  then Raise (LibraryError "ValueError") else Ok tt.

(** What the propagator returns for an element set that it cannot
    evaluate: positions that are not numbers. *)
Definition no_position (t : skyfield.time) : Subpoint :=
  {| latitude_degrees := nan; longitude_degrees := nan;
     elevation_km := nan; elevation_in_m := nan |}.

(** Five altitudes, one per instant of a six-hourly grid over the day of
    [new_year]; beyond the table the satellite stays high. *)
Definition altitude_table : list float :=
  [500%float; 900%float; 750%float; 1200%float; 600%float].

Definition table_subpoint (table : list float) (t : skyfield.time) : Subpoint :=
  let i := Z.to_nat ((t - new_year `div` datetime.US_PER_SECOND) `div` 21600) in
  let alt := default 2000%float (table !! i) in
  {| latitude_degrees := PrimFloat.of_uint63 (Uint63.of_Z (Z.of_nat i));
     longitude_degrees := 30%float;
     elevation_km := alt;
     elevation_in_m := (alt * 1000)%float |}.

(** Element sets are served for three of the five configured ids; one
    request fails and one answer has no ['tle']. The satellite 59625
    follows [altitude_table], 59626 stays above every threshold, and the
    element set of 40115 cannot be evaluated: its positions are not
    numbers. Plotting succeeds. *)
Definition world : World := {|
  utcnow := new_year;
  http_json := λ sat_id,
    if bool_decide (sat_id = 60453) then Raise (LibraryError "HTTPError")
    else if bool_decide (sat_id = 60452) then Ok None
    else Ok (Some ("1 line" +:+ String line_feed "2 line")%string);
  splitlines := split_newline "";
  leap_seconds := leap_table;
  EarthSatellite_init := init_without_nul;
  propagate := λ sat,
    if bool_decide (name sat = "59625"%string) then Ok (table_subpoint altitude_table)
    else if bool_decide (name sat = "40115"%string) then Ok no_position
    else Ok (table_subpoint []);
  utc_of_no_lists := Raise IndexError;
  utc_of_no_minutes := Ok [];
  plot_filtered_orbits := λ _, Ok tt;
  plot_all_orbits := λ _, Ok tt;
|}.

(** The same world with a propagator that evaluates every element set. *)
Definition calm_world : World := {|
  utcnow := new_year;
  http_json := http_json world;
  splitlines := splitlines world;
  leap_seconds := leap_table;
  EarthSatellite_init := init_without_nul;
  propagate := λ sat,
    if bool_decide (name sat = "59625"%string) then Ok (table_subpoint altitude_table)
    else Ok (table_subpoint []);
  utc_of_no_lists := Raise IndexError;
  utc_of_no_minutes := Ok [];
  plot_filtered_orbits := λ _, Ok tt;
  plot_all_orbits := λ _, Ok tt;
|}.

(** An entry of five samples with the altitudes of [altitude_table], and
    what is left of it at or below 800 km. *)
Definition track : Entry :=
  {| latitude := [1; 2; 3; 4; 5]%float;
     longitude := [30; 30; 30; 30; 30]%float;
     elevation_m := [500000; 900000; 750000; 1200000; 600000]%float;
     altitude_km := altitude_table;
     times := [0; 1; 2; 3; 4] |}.

Definition low_track : Entry :=
  {| latitude := [1; 3; 5]%float;
     longitude := [30; 30; 30]%float;
     elevation_m := [500000; 750000; 600000]%float;
     altitude_km := [500; 750; 600]%float;
     times := [0; 2; 4] |}.

(** The five instants of the six-hourly grid, in both forms. *)
Definition six_hourly_dt : list datetime.t :=
  (λ i, new_year + 360 * i * datetime.US_PER_MINUTE) <$> arange 5.
Definition six_hourly : list skyfield.time := instant_of world <$> six_hourly_dt.

(** The satellites admitted from [world]. *)
Definition sat_59625 : Satellite := EarthSatellite "1 line" "2 line" "59625".
Definition sat_59626 : Satellite := EarthSatellite "1 line" "2 line" "59626".
Definition sat_40115 : Satellite := EarthSatellite "1 line" "2 line" "40115".

End examples.

(** * The rest of the code *)

(** ** Observations on a log of [show_all.py] *)

Definition fetched (e : event) : option Z :=
  match e with
  | Fetch sat_id => Some sat_id
  | _ => None
  end.

Definition propagated (e : event) : option Satellite :=
  match e with
  | Propagate sat => Some sat
  | _ => None
  end.

Definition rendered (e : event) : option (bool * gmap string Entry) :=
  match e with
  | Render filtered data => Some (filtered, data)
  | _ => None
  end.

(** ** [str.format] with positional arguments *)

Module pyformat.

(** How the fields seen so far were numbered. *)
Inductive numbering : Type :=
  | Unset
  | Auto (next : nat)
  | Manual.

Definition is_digit (c : ascii) : bool :=
  (48 <=? nat_of_ascii c)%nat && (nat_of_ascii c <=? 57)%nat.

Fixpoint all_digits (s : string) : bool :=
  match s with
  | EmptyString => true
  | String c s' => is_digit c && all_digits s'
  end.

Fixpoint index_of (acc : nat) (s : string) : nat :=
  match s with
  | EmptyString => acc
  | String c s' => index_of (10 * acc + (nat_of_ascii c - 48))%nat s'
  end.

(** [args[i]] *)
Definition getitem (args : list string) (i : nat) : result string :=
  match args !! i with
  | Some v => Ok v
  | None => Raise IndexError
  end.

(** The value of the replacement field [{name}] when [format] is called
    with positional arguments only: [{}] takes the next argument, [{3}] the
    argument of that index, and a name is looked up among the keyword
    arguments, of which there are none: [KeyError]. Conversions and format
    specifications are not modelled. *)
Definition field (args : list string) (name : string) (st : numbering)
  : result (string * numbering) :=
  if bool_decide (name = ""%string) then
    match st with
    | Manual => Raise (LibraryError "ValueError")
    | Unset => v ← getitem args 0; Ok (v, Auto 1)
    | Auto n => v ← getitem args n; Ok (v, Auto (S n))
    end
  else if all_digits name then
    match st with
    | Auto _ => Raise (LibraryError "ValueError")
    | _ => v ← getitem args (index_of 0 name); Ok (v, Manual)
    end
  else Raise (LibraryError "KeyError").

Definition open_brace : ascii := ascii_of_nat 123.
Definition close_brace : ascii := ascii_of_nat 125.

(** The template is read from left to right; [inside] holds the reversed
    name of the field being read. A doubled brace is a literal brace. *)
Fixpoint go (args : list string) (s : string) (inside : option string)
    (st : numbering) : result string :=
  match s with
  | EmptyString =>
      match inside with
      | None => Ok EmptyString
      | Some _ => Raise (LibraryError "ValueError")
      end
  | String c s' =>
      match inside with
      | Some acc =>
          if bool_decide (c = close_brace) then
            vs ← field args (String.rev acc) st;
            rest ← go args s' None vs.2;
            Ok (vs.1 +:+ rest)
          else go args s' (Some (String c acc)) st
      | None =>
          if bool_decide (c = open_brace) then
            match s' with
            | String c' s'' =>
                if bool_decide (c' = open_brace)
                then rest ← go args s'' None st; Ok (String open_brace rest)
                else go args s' (Some EmptyString) st
            | EmptyString => Raise (LibraryError "ValueError")
            end
          else if bool_decide (c = close_brace) then
            match s' with
            | String c' s'' =>
                if bool_decide (c' = close_brace)
                then rest ← go args s'' None st; Ok (String close_brace rest)
                else Raise (LibraryError "ValueError")
            | EmptyString => Raise (LibraryError "ValueError")
            end
          else rest ← go args s' None st; Ok (String c rest)
      end
  end.

(** [template.format(a, b, ...)], all arguments positional. *)
Definition format (template : string) (args : list string) : result string :=
  go args template None Unset.

End pyformat.

(** [config.TLE_URL] *)
Definition TLE_URL : string :=
  "https://api.n2yo.com/rest/v1/satellite/tle/{sat_id}&apiKey={api_key}".

(** ** [show_satellites_trajectories.py], after its time grid *)

Module trajectories.

(** The value stored under a satellite's name: four parallel arrays. *)
Record Entry : Type := {
  latitude : list float;
  longitude : list float;
  elevation_m : list float;
  altitude_km : list float;
}.

(** What this program prints. *)
Inductive message : Type :=
  | MsgTleLines (sat_id : Z) (tle_lines : list string)
  | MsgFetchError (sat_id : Z) (e : exn)
  | MsgGenerating (start_time : datetime.t) (days : Z)
  | MsgFetching
  | MsgFetched (name : string) (sat_id : Z)
  | MsgSkipping (sat_id : Z)
  | MsgNoSatellites
  | MsgComputing
  | MsgPlotting
  | MsgSaved.

Inductive event : Type :=
  | Print (m : message)
  | Fetch (sat_id : Z)
  | Propagate (sat : Satellite)
  | Render (data : gmap string Entry).

(** The monad of logged, fallible computations over these events. *)
Definition T (A : Type) : Type := list event → list event * result A.

#[global] Instance T_ret : MRet T := λ A a log, (log, Ok a).
#[global] Instance T_bind : MBind T := λ A B f m log,
  match m log with
  | (log', Ok a) => f a log'
  | (log', Raise e) => (log', Raise e)
  end.

Definition emit (e : event) : T unit := λ log, (log ++ [e], Ok tt).
Definition print (m : message) : T unit := emit (Print m).
Definition lift {A} (r : result A) : T A := λ log, (log, r).

Definition try_except {A} (body : T A) (handler : exn → T A) : T A := λ log,
  match body log with
  | (log', Ok a) => (log', Ok a)
  | (log', Raise e) => handler e log'
  end.

Fixpoint for_each {A S} (xs : list A) (body : A → S → T S) (s : S) : T S :=
  match xs with
  | [] => mret s
  | x :: xs' => s' ← body x s; for_each xs' body s'
  end.

(** [d[key]] on the decoded answer: [KeyError] when the key is missing. *)
Definition getitem_tle (data : option string) : result string :=
  match data with
  | Some tle => Ok tle
  | None => Raise (LibraryError "KeyError")
  end.

(** [l[i]] on a list, for [i >= 0]. *)
Definition getitem {A} (l : list A) (i : nat) : result A :=
  match l !! i with
  | Some x => Ok x
  | None => Raise IndexError
  end.

(** [fetch_tle]: the URL is built by [TLE_URL.format(sat_id, API_KEY)], the
    two arguments positional; there is no test of the answer. A failing
    format, a missing key or a missing line raises inside the [try] and ends
    in the handler. [tle_url] is the template and [api_key] is
    [str(API_KEY)]. *)
Definition fetch_tle (tle_url api_key : string) (w : World) (sat_id : Z)
  : T (option string * option string * option string) :=
  try_except
    (request_url ← lift (pyformat.format tle_url [str sat_id; api_key]);
     emit (Fetch sat_id);;
     data ← lift (http_json w sat_id);
     tle ← lift (getitem_tle data);
     let tle_lines := splitlines w tle in
     print (MsgTleLines sat_id tle_lines);;
     l0 ← lift (getitem tle_lines 0);
     l1 ← lift (getitem tle_lines 1);
     mret (Some (str sat_id), Some l0, Some l1))
    (λ e, print (MsgFetchError sat_id e);; mret (None, None, None)).

(** The body of the loop of [collect_satellite_data]. *)
Definition collect_one (w : World) (times : list skyfield.time)
    (sat : Satellite) (data : gmap string Entry) : T (gmap string Entry) :=
  emit (Propagate sat);;
  at_ ← lift (propagate w sat);
  let subpoint := at_ <$> times in
  mret (<[name sat := {| latitude := latitude_degrees <$> subpoint;
                         longitude := longitude_degrees <$> subpoint;
                         elevation_m := elevation_in_m <$> subpoint;
                         altitude_km := elevation_km <$> subpoint |}]> data).

Definition collect_satellite_data (w : World) (satellites : list Satellite)
    (times : list skyfield.time) : T (gmap string Entry) :=
  for_each satellites (collect_one w times) ∅.

(** One round of the admission loop of [main]. *)
Definition admit_one (tle_url api_key : string) (w : World) (sat_id : Z)
    (satellites : list Satellite) : T (list Satellite) :=
  '(name, line1, line2) ← fetch_tle tle_url api_key w sat_id;
  match name, line1, line2 with
  | Some name, Some line1, Some line2 =>
      if nonempty line1 && nonempty line2 then
        lift (EarthSatellite_init w line1 line2 name);;
        print (MsgFetched name sat_id);;
        mret (satellites ++ [EarthSatellite line1 line2 name])
      else
        print (MsgSkipping sat_id);; mret satellites
  | _, _, _ =>
      print (MsgSkipping sat_id);; mret satellites
  end.

(** [main]; [plot_satellite_paths] is the plotting function of this
    program, which may raise. *)
Definition main (tle_url api_key : string)
    (plot_satellite_paths : gmap string Entry → result unit)
    (cfg : Config) (w : World) : T unit :=
  let start_time := utcnow w in
  print (MsgGenerating start_time (PREDICTION_DAYS cfg));;
  times ← lift (show_satellites_trajectories.generate_time_steps w start_time
                  (PREDICTION_DAYS cfg) (TIME_STEP_MINUTES cfg));
  print MsgFetching;;
  satellites ← for_each (SATELLITE_IDS cfg) (admit_one tle_url api_key w) [];
  match satellites with
  | [] => print MsgNoSatellites
  | _ =>
      print MsgComputing;;
      satellite_data ← collect_satellite_data w satellites times;
      print MsgPlotting;;
      emit (Render satellite_data);;
      lift (plot_satellite_paths satellite_data);;
      print MsgSaved
  end.

Definition run {A} (m : T A) : list event * result A := m [].

Definition fetched (e : event) : option Z :=
  match e with
  | Fetch sat_id => Some sat_id
  | _ => None
  end.

Definition propagated (e : event) : option Satellite :=
  match e with
  | Propagate sat => Some sat
  | _ => None
  end.

End trajectories.

(** The four arrays that both programs store, out of an entry of
    [show_all.py]. *)
Definition without_times (e : Entry) : trajectories.Entry :=
  {| trajectories.latitude := latitude e;
     trajectories.longitude := longitude e;
     trajectories.elevation_m := elevation_m e;
     trajectories.altitude_km := altitude_km e |}.

(** ** Further sample inputs *)

Module more_examples.


(** 9999-12-31T00:00:00, the last day of the calendar. *)
Definition last_day : datetime.t := datetime.make 9999 12 31 0 0 0 0.

(** Two element sets under one name: the first follows
    [examples.altitude_table], the second stays high. *)
Definition twin_low : Satellite := EarthSatellite "low" "2 line" "59625".
Definition twin_high : Satellite := EarthSatellite "high" "2 line" "59625".

Definition twin_world : World := {|
  utcnow := examples.new_year;
  http_json := λ _, Ok None;
  splitlines := examples.split_newline "";
  leap_seconds := examples.leap_table;
  EarthSatellite_init := examples.init_without_nul;
  propagate := λ sat,
    if bool_decide (line1 sat = "low"%string)
    then Ok (examples.table_subpoint examples.altitude_table)
    else Ok (examples.table_subpoint []);
  utc_of_no_lists := Raise IndexError;
  utc_of_no_minutes := Ok [];
  plot_filtered_orbits := λ _, Ok tt;
  plot_all_orbits := λ _, Ok tt;
|}.

(** A propagator that raises for the satellite 40115 (there is no memory
    for its arrays). *)
Definition raising_world : World := {|
  utcnow := examples.new_year;
  http_json := http_json examples.world;
  splitlines := examples.split_newline "";
  leap_seconds := examples.leap_table;
  EarthSatellite_init := examples.init_without_nul;
  propagate := λ sat,
    if bool_decide (name sat = "40115"%string) then Raise (LibraryError "MemoryError")
    else propagate examples.world sat;
  utc_of_no_lists := Raise IndexError;
  utc_of_no_minutes := Ok [];
  plot_filtered_orbits := λ _, Ok tt;
  plot_all_orbits := λ _, Ok tt;
|}.


(** One day in steps of six hours, for two of the configured ids. *)
Definition one_day : Config := {|
  SATELLITE_IDS := [59625; 60453];
  PREDICTION_DAYS := 1;
  TIME_STEP_MINUTES := 360;
  MAX_ALTITUDE_KM := 800%float;
|}.

End more_examples.

(** * Properties *)

(** ** Results and traversals *)

Lemma traverse_Ok {A B} (f : A → result B) (g : A → B) (xs : list A) :
  Forall (λ x, f x = Ok (g x)) xs → traverse f xs = Ok (g <$> xs).
Proof.
  induction 1 as [|x xs Hx _ IH]; simpl; [done|].
  by rewrite Hx, IH.
Qed.

Lemma zip_with_zip_fmap {A B C D E F} (f : B * C → D * E → F)
    (g1 : A → B) (g2 : A → C) (g3 : A → D) (g4 : A → E) (l : list A) :
  zip_with f (zip (g1 <$> l) (g2 <$> l)) (zip (g3 <$> l) (g4 <$> l)) =
  (λ x, f (g1 x, g2 x) (g3 x, g4 x)) <$> l.
Proof. induction l as [|x l IH]; simpl; [done|]. by f_equal. Qed.

(** ** Calendar arithmetic *)

Section calendar.
Import datetime.

Lemma div_minute (dt : Z) : dt `div` US_PER_MINUTE = (dt `div` US_PER_SECOND) `div` 60.
Proof. unfold US_PER_MINUTE. by rewrite Z.div_div. Qed.

Lemma div_hour (dt : Z) : dt `div` US_PER_HOUR = (dt `div` US_PER_MINUTE) `div` 60.
Proof. unfold US_PER_HOUR. by rewrite Z.div_div. Qed.

Lemma div_day (dt : Z) : dt `div` US_PER_DAY = (dt `div` US_PER_HOUR) `div` 24.
Proof. unfold US_PER_DAY. by rewrite Z.div_div. Qed.

(** The components that [show_all] hands to [ts.utc] denote the datetime
    truncated to its whole second, under the offset of its own date. *)
Lemma utc1_components (leap : Z → Z) (dt : datetime.t) :
  skyfield.utc1 leap (toordinal dt) (hour dt) (minute dt) (second dt) =
  dt `div` US_PER_SECOND + leap (toordinal dt).
Proof.
  unfold skyfield.utc1, toordinal, hour, minute, second.
  rewrite div_day, div_hour, div_minute.
  set (s := dt `div` US_PER_SECOND).
  assert (H1 := Z.div_mod s 60).
  assert (H2 := Z.div_mod (s `div` 60) 60).
  assert (H3 := Z.div_mod ((s `div` 60) `div` 60) 24).
  lia.
Qed.

(** With the second left at 0, the components that
    [show_satellites_trajectories] hands to [ts.utc] denote the datetime
    truncated to its whole minute, and [k] minutes of elapsed time after
    it under the offset of the date of [dt]. *)
Lemma utc1_minute_components (leap : Z → Z) (dt : datetime.t) (k : Z) :
  skyfield.utc1 leap (toordinal dt) (hour dt) (minute dt + k) 0 =
  (dt `div` US_PER_MINUTE + k) * 60 + leap (toordinal dt).
Proof.
  unfold skyfield.utc1, toordinal, hour, minute.
  rewrite div_day, div_hour.
  set (m := dt `div` US_PER_MINUTE).
  assert (H1 := Z.div_mod m 60).
  assert (H2 := Z.div_mod (m `div` 60) 24).
  lia.
Qed.

(** Once [timedelta(days=days)] is built, the dividend of the step count
    is below [2^53]: the binary64 quotient truncates to the exact one. *)
Lemma timedelta_days_dividend_exact (days td : Z) :
  timedelta_days days = Ok td → Z.abs (days * 24 * 60) < 2 ^ 53.
Proof.
  unfold timedelta_days, timedelta_of_us. case_bool_decide as H; [|done].
  intros _. rewrite Z.div_mul in H by done.
  unfold MAX_DELTA_DAYS in H. lia.
Qed.

Lemma np_int64_Ok (n : Z) : - 2 ^ 63 ≤ n < 2 ^ 63 → np_int64 n = Ok n.
Proof. intros H. unfold np_int64. by rewrite bool_decide_eq_true_2. Qed.

(** When the products of [minutes_array] are computed, none of them leaves
    the window, whatever the signs of the parameters: they are the exact
    products, and [int64] does not wrap around. *)
Lemma minutes_array_no_wrap (days step_minutes td q k : Z) :
  timedelta_days days = Ok td →
  int_truediv (days * 24 * 60) step_minutes = Ok q →
  k ∈ arange (q + 1) →
  Z.abs (step_minutes * k) ≤ Z.abs (days * 24 * 60) ∧
  - 2 ^ 63 ≤ step_minutes * k < 2 ^ 63.
Proof.
  intros Htd Hq Hk.
  pose proof (timedelta_days_dividend_exact days td Htd) as Hd.
  unfold int_truediv in Hq. case_bool_decide as Hs; [done|].
  injection Hq as <-. unfold arange in Hk. apply elem_of_seqZ in Hk.
  assert (Z.abs (step_minutes * k) ≤ Z.abs (days * 24 * 60)) as Hle.
  { transitivity (Z.abs (step_minutes * ((days * 24 * 60) `quot` step_minutes))).
    - rewrite !Z.abs_mul. apply Z.mul_le_mono_nonneg_l; lia.
    - rewrite Z.abs_mul, <- Z.quot_abs by done.
      rewrite Z.quot_div_nonneg by lia. apply Z.mul_div_le. lia. }
  split; [done|]. lia.
Qed.

Lemma timedelta_days_Ok (days : Z) :
  - MAX_DELTA_DAYS ≤ days ≤ MAX_DELTA_DAYS →
  timedelta_days days = Ok (days * US_PER_DAY).
Proof.
  intros H. unfold timedelta_days, timedelta_of_us.
  rewrite Z.div_mul by done. by rewrite bool_decide_eq_true_2.
Qed.

Lemma add_Ok (dt td : Z) : valid (dt + td) → add dt td = Ok (dt + td).
Proof. intros H. unfold add, in_range. by rewrite bool_decide_eq_true_2. Qed.

(** An offset of whole minutes inside a window of [days] days is a
    [timedelta], and lands on a [datetime] when both ends of the window
    do. *)
Lemma add_minutes_Ok (start days m : Z) :
  valid start → valid (start + days * US_PER_DAY) →
  0 ≤ days → 0 ≤ m ≤ days * 24 * 60 →
  (d ← timedelta_minutes m; add start d) = Ok (start + m * US_PER_MINUTE).
Proof.
  unfold valid. intros Hs He Hd Hm.
  assert (days < MAXORDINAL) as Hlt.
  { unfold US_PER_DAY, US_PER_HOUR, US_PER_MINUTE, US_PER_SECOND in *. lia. }
  unfold timedelta_minutes, timedelta_of_us.
  assert (0 ≤ (m * US_PER_MINUTE) `div` US_PER_DAY ≤ days) as Hq.
  { split.
    - apply Z.div_pos; unfold US_PER_DAY, US_PER_HOUR, US_PER_MINUTE, US_PER_SECOND; lia.
    - apply Z.div_le_upper_bound;
        unfold US_PER_DAY, US_PER_HOUR, US_PER_MINUTE, US_PER_SECOND; lia. }
  rewrite bool_decide_eq_true_2
    by (unfold MAX_DELTA_DAYS, MAXORDINAL in *; lia).
  simpl. apply add_Ok. unfold valid.
  unfold US_PER_DAY, US_PER_HOUR, US_PER_MINUTE, US_PER_SECOND in *. lia.
Qed.

End calendar.

(** ** The time grid *)

Section time_grid.
Import datetime.
Context (w : World).

Lemma grid_size_pos (days step : Z) : 0 ≤ days → 0 < step → 0 < grid_size days step.
Proof.
  intros Hd Hs. unfold grid_size.
  assert (0 ≤ (days * 24 * 60) `div` step) by (apply Z.div_pos; lia). lia.
Qed.

Lemma arange_pos_ne_nil (n : Z) : 0 < n → arange n ≠ [].
Proof. intros Hn. unfold arange. by rewrite seqZ_cons. Qed.

Lemma lookup_arange (n : Z) (i : nat) (k : Z) :
  arange n !! i = Some k ↔ k = Z.of_nat i ∧ Z.of_nat i < n.
Proof. unfold arange. rewrite lookup_seqZ. naive_solver lia. Qed.

(** Every offset of the grid stays inside the window. *)
Lemma grid_offset_bound (days step k : Z) :
  0 ≤ days → 0 < step → 0 ≤ k < grid_size days step →
  0 ≤ step * k ≤ days * 24 * 60.
Proof.
  intros Hd Hs [Hk0 Hk]. unfold grid_size in Hk. split; [lia|].
  transitivity (step * ((days * 24 * 60) `div` step)).
  - apply Z.mul_le_mono_nonneg_l; lia.
  - apply Z.mul_div_le. lia.
Qed.

Lemma ts_utc_lists_datetimes (l : list datetime.t) :
  l ≠ [] →
  ts_utc_lists w (toordinal <$> l) (hour <$> l) (minute <$> l) (second <$> l) =
  Ok (instant_of w <$> l).
Proof.
  intros Hl. unfold ts_utc_lists.
  destruct (toordinal <$> l) eqn:E.
  { by apply fmap_nil_inv in E. }
  rewrite <- E, zip_with_zip_fmap. f_equal.
  apply list_fmap_ext. intros i dt _. simpl. apply utc1_components.
Qed.

(** The grid of [show_all]: both returned sequences, in closed form. *)
Lemma show_all_grid (start days step : Z) :
  valid start → valid (start + days * US_PER_DAY) → 0 ≤ days →
  0 < step → step < 2 ^ 63 →
  show_all.generate_time_steps w start days step =
  Ok ((λ i, instant_of w (start + step * i * US_PER_MINUTE))
        <$> arange (grid_size days step),
      (λ i, start + step * i * US_PER_MINUTE) <$> arange (grid_size days step)).
Proof.
  intros Hs He Hd Hst Hfit. unfold show_all.generate_time_steps.
  assert (days < MAXORDINAL) as Hlt.
  { unfold valid, US_PER_DAY, US_PER_HOUR, US_PER_MINUTE, US_PER_SECOND in *. lia. }
  rewrite timedelta_days_Ok by (unfold MAX_DELTA_DAYS, MAXORDINAL in *; lia).
  simpl. rewrite add_Ok by done. simpl.
  unfold int_truediv. rewrite bool_decide_eq_false_2 by lia. simpl.
  rewrite Z.quot_div_nonneg by lia. fold (grid_size days step).
  rewrite np_int64_Ok by lia. simpl.
  rewrite (traverse_Ok _ (λ m, start + m * US_PER_MINUTE)); last first.
  { apply Forall_fmap, Forall_forall. intros k Hk. simpl.
    apply (add_minutes_Ok start days); [done|done|lia|].
    apply grid_offset_bound; [done|done|].
    unfold arange in Hk. apply elem_of_seqZ in Hk. lia. }
  simpl. rewrite ts_utc_lists_datetimes; last first.
  { intros E. apply fmap_nil_inv, fmap_nil_inv in E.
    by apply (arange_pos_ne_nil (grid_size days step)); [apply grid_size_pos|]. }
  simpl. f_equal. f_equal.
  - rewrite <- !list_fmap_compose. by apply list_fmap_ext.
  - rewrite <- !list_fmap_compose. by apply list_fmap_ext.
Qed.

(** The grid of [show_satellites_trajectories], in closed form: it starts
    at the whole minute of [start_time]. *)
Lemma show_satellites_trajectories_grid (start days step : Z) :
  valid start → valid (start + days * US_PER_DAY) → 0 ≤ days →
  0 < step → step < 2 ^ 63 →
  show_satellites_trajectories.generate_time_steps w start days step =
  Ok ((λ i, (start `div` US_PER_MINUTE) * 60 + step * i * 60
            + leap_seconds w (toordinal start)) <$>
        arange (grid_size days step)).
Proof.
  intros Hs He Hd Hst Hfit. unfold show_satellites_trajectories.generate_time_steps.
  assert (days < MAXORDINAL) as Hlt.
  { unfold valid, US_PER_DAY, US_PER_HOUR, US_PER_MINUTE, US_PER_SECOND in *. lia. }
  rewrite timedelta_days_Ok by (unfold MAX_DELTA_DAYS, MAXORDINAL in *; lia).
  simpl. rewrite add_Ok by done. simpl.
  unfold int_truediv. rewrite bool_decide_eq_false_2 by lia. simpl.
  rewrite Z.quot_div_nonneg by lia. fold (grid_size days step).
  rewrite np_int64_Ok by lia. simpl.
  unfold ts_utc_minutes.
  destruct (_ <$> arange (grid_size days step)) eqn:E.
  { apply fmap_nil_inv in E.
    by apply (arange_pos_ne_nil (grid_size days step)) in E; [|apply grid_size_pos]. }
  rewrite <- E. f_equal. rewrite <- list_fmap_compose.
  apply list_fmap_ext. intros i k _. simpl.
  rewrite utc1_minute_components. lia.
Qed.

End time_grid.

(** C1, on sample inputs: the grids of Skyfield times for the start times
    2024-01-01T00:00:00 and 2024-01-01T00:00:00.250000 are the same, so
    that their first instant is not [start_time] in both. *)
Lemma first_instant_forgets_microseconds :
  ∃ times times_datetime times_datetime',
    show_all.generate_time_steps examples.world
      (datetime.make 2024 1 1 0 0 0 0) 1 60 = Ok (times, times_datetime) ∧
    show_all.generate_time_steps examples.world
      (datetime.make 2024 1 1 0 0 0 250000) 1 60 = Ok (times, times_datetime') ∧
    times_datetime !! 0%nat = Some (datetime.make 2024 1 1 0 0 0 0) ∧
    times_datetime' !! 0%nat = Some (datetime.make 2024 1 1 0 0 0 250000) ∧
    datetime.make 2024 1 1 0 0 0 0 ≠ datetime.make 2024 1 1 0 0 0 250000.
Proof.
  eexists _, _, _. split; [reflexivity|]. split; [by vm_compute|].
  split; [reflexivity|]. split; [reflexivity|]. by vm_compute.
Qed.

(** C1, as the code has it. For a window that fits the calendar, with
    [days > 0] and a positive [step_minutes] that fits [int64],
    [generate_time_steps] of both programs returns
    [floor(days*24*60/step_minutes) + 1] instants. In [show_all] the
    datetimes start at [start_time] and every one is exactly
    [step_minutes] minutes after the one before, hence later, and each
    Skyfield time is the whole second of the datetime of its position; for
    one day in steps of 60 minutes there are 25 datetimes and the last one
    is [start_time] plus one day. In [show_satellites_trajectories] every
    instant is exactly [step_minutes] minutes of elapsed time after the one
    before, hence later. *)
Theorem generate_time_steps_grid (w : World) (start_time days step_minutes : Z) :
  datetime.valid start_time →
  datetime.valid (start_time + days * datetime.US_PER_DAY) →
  0 < days → 0 < step_minutes → step_minutes < 2 ^ 63 →
  ∃ times times_datetime times',
    show_all.generate_time_steps w start_time days step_minutes
      = Ok (times, times_datetime) ∧
    show_satellites_trajectories.generate_time_steps w start_time days step_minutes
      = Ok times' ∧
    length times_datetime = Z.to_nat ((days * 24 * 60) `div` step_minutes + 1) ∧
    length times = length times_datetime ∧
    length times' = length times_datetime ∧
    times_datetime !! 0%nat = Some start_time ∧
    (∀ i t, times_datetime !! i = Some t →
            t = start_time + Z.of_nat i * (step_minutes * datetime.US_PER_MINUTE)) ∧
    (∀ i t t', times_datetime !! i = Some t → times_datetime !! S i = Some t' →
               t' = t + step_minutes * datetime.US_PER_MINUTE ∧ t < t') ∧
    (∀ i j t t', (i < j)%nat → times_datetime !! i = Some t →
                 times_datetime !! j = Some t' → t < t') ∧
    times = instant_of w <$> times_datetime ∧
    (∀ i t t', times' !! i = Some t → times' !! S i = Some t' →
               t' = t + step_minutes * 60 ∧ t < t') ∧
    (days = 1 → step_minutes = 60 →
       length times_datetime = 25%nat ∧
       last times_datetime = Some (start_time + datetime.US_PER_DAY)).
Proof.
  intros Hs He Hd Hst Hfit.
  pose proof (grid_size_pos days step_minutes ltac:(lia) Hst) as Hn.
  eexists _, _, _. split; [apply show_all_grid; [done|done|lia|done|done]|].
  split; [apply show_satellites_trajectories_grid; [done|done|lia|done|done]|].
  fold (grid_size days step_minutes).
  assert (∀ i t, ((λ k, start_time + step_minutes * k * datetime.US_PER_MINUTE) <$>
                    arange (grid_size days step_minutes)) !! i = Some t ↔
                 t = start_time + Z.of_nat i * (step_minutes * datetime.US_PER_MINUTE) ∧
                 Z.of_nat i < grid_size days step_minutes) as Hdt.
  { intros i t. rewrite list_lookup_fmap, fmap_Some. split.
    - intros (k & [-> Hk]%lookup_arange & ->). split; [lia|done].
    - intros [-> Hi]. exists (Z.of_nat i). split; [by apply lookup_arange|lia]. }
  assert (∀ i t, ((λ k, start_time `div` datetime.US_PER_MINUTE * 60
                        + step_minutes * k * 60
                        + leap_seconds w (datetime.toordinal start_time)) <$>
                    arange (grid_size days step_minutes)) !! i = Some t ↔
                 t = start_time `div` datetime.US_PER_MINUTE * 60
                     + leap_seconds w (datetime.toordinal start_time)
                     + Z.of_nat i * (step_minutes * 60) ∧
                 Z.of_nat i < grid_size days step_minutes) as Hsk.
  { intros i t. rewrite list_lookup_fmap, fmap_Some. split.
    - intros (k & [-> Hk]%lookup_arange & ->). split; [lia|done].
    - intros [-> Hi]. exists (Z.of_nat i). split; [by apply lookup_arange|lia]. }
  assert (0 < step_minutes * datetime.US_PER_MINUTE) as Hu
    by (unfold datetime.US_PER_MINUTE, datetime.US_PER_SECOND; lia).
  assert (0 < step_minutes * 60) as Hv by lia.
  revert Hdt Hsk Hu Hv.
  generalize (step_minutes * datetime.US_PER_MINUTE) as u.
  generalize (step_minutes * 60) as v.
  intros v u Hdt Hsk Hu Hv.
  split_and!.
  - unfold arange. by rewrite length_fmap, length_seqZ.
  - by rewrite !length_fmap.
  - by rewrite !length_fmap.
  - apply Hdt. split; lia.
  - intros i t Hi. by apply Hdt in Hi as [-> _].
  - intros i t t' Hi Hi'.
    apply Hdt in Hi as [-> _]. apply Hdt in Hi' as [-> _].
    rewrite Nat2Z.inj_succ, Z.mul_succ_l. lia.
  - intros i j t t' Hij Hi Hj.
    apply Hdt in Hi as [-> _]. apply Hdt in Hj as [-> _].
    assert (Z.of_nat i * u < Z.of_nat j * u); [|lia].
    apply Z.mul_lt_mono_pos_r; lia.
  - by rewrite <- list_fmap_compose.
  - intros i t t' Hi Hi'.
    apply Hsk in Hi as [-> _]. apply Hsk in Hi' as [-> _].
    rewrite Nat2Z.inj_succ, Z.mul_succ_l. lia.
  - intros -> ->. split; reflexivity.
Qed.

Lemma generate_time_steps_grid_witness :
  ∃ times times_datetime times',
    show_all.generate_time_steps examples.world examples.new_year 1 60
      = Ok (times, times_datetime) ∧
    show_satellites_trajectories.generate_time_steps examples.world
      examples.new_year 1 60 = Ok times' ∧
    length times_datetime = 25%nat ∧ length times' = 25%nat ∧
    times_datetime !! 0%nat = Some (datetime.make 2024 1 1 0 0 0 0) ∧
    last times_datetime = Some (datetime.make 2024 1 2 0 0 0 0).
Proof.
  destruct (generate_time_steps_grid examples.world examples.new_year 1 60)
    as (times & times_datetime & times' & Hrun & Hrun' & _ & _ & Hlen' & Hfirst
        & _ & _ & _ & _ & _ & Hday);
    [by vm_compute | by vm_compute | lia | lia | lia |].
  exists times, times_datetime, times'.
  destruct (Hday eq_refl eq_refl) as [Hlen Hlast].
  rewrite Hlen in Hlen'. repeat split; assumption.
Defined.

(** ** Boolean masks *)

Section masks.
Context {A : Type}.
Implicit Types (mask : list bool) (l : list A).

Lemma compress_nil_r mask : compress mask (@nil A) = [].
Proof. by destruct mask. Qed.

Lemma compress_fmap {B} (f : A → B) mask l :
  compress mask (f <$> l) = f <$> compress mask l.
Proof.
  revert l. induction mask as [|m mask IH]; intros [|x l]; simpl; try done.
  destruct m; simpl; by rewrite IH.
Qed.

Lemma compress_zip_with {B C} (f : A → B → C) mask l (k : list B) :
  compress mask (zip_with f l k) = zip_with f (compress mask l) (compress mask k).
Proof.
  revert l k. induction mask as [|m mask IH]; intros [|x l] [|y k]; simpl; try done.
  - by rewrite zip_with_nil_r.
  - destruct m; simpl; by rewrite IH.
Qed.

(** A mask computed from the array itself selects what [filter] keeps. *)
Lemma compress_filter (p : A → bool) l :
  compress (p <$> l) l = filter (λ x, p x = true) l.
Proof.
  induction l as [|x l IH]; simpl; [done|].
  rewrite filter_cons. destruct (decide (p x = true)) as [E|E].
  - rewrite E. f_equal. exact IH.
  - apply not_true_is_false in E. rewrite E. exact IH.
Qed.

Lemma compress_sublist mask l : compress mask l `sublist_of` l.
Proof.
  revert l. induction mask as [|m mask IH]; intros [|x l]; simpl;
    try apply sublist_nil_l.
  destruct m; [by apply sublist_skip|by apply sublist_cons].
Qed.

Lemma length_compress_eq {B} mask l (k : list B) :
  length l = length k → length (compress mask l) = length (compress mask k).
Proof.
  revert l k. induction mask as [|m mask IH]; intros [|x l] [|y k] Hlen;
    simpl in *; try done.
  destruct m; simpl; auto.
Qed.

Lemma np_any_false_compress mask l : np_any mask = false → compress mask l = [].
Proof.
  unfold np_any. revert l.
  induction mask as [|m mask IH]; intros [|x l]; simpl; try done.
  destruct m; simpl; [done|]. apply IH.
Qed.

Lemma np_any_true_compress mask l :
  np_any mask = true → length mask = length l → compress mask l ≠ [].
Proof.
  unfold np_any. revert l.
  induction mask as [|m mask IH]; intros [|x l]; simpl; try done.
  destruct m; simpl; [done|]. intros ? [=]. by apply IH.
Qed.

(** The comprehension over [enumerate(mask)] reads the same elements as
    the boolean index, and raises nothing when the list is long enough. *)
Lemma select_times_compress (start : nat) mask l :
  (start + length mask ≤ length l)%nat →
  select_times start mask l = Ok (compress mask (drop start l)).
Proof.
  revert start. induction mask as [|m mask IH]; intros start Hlen; simpl in *.
  { by destruct (drop start l). }
  destruct (lookup_lt_is_Some_2 l start ltac:(lia)) as [x Hx].
  rewrite (drop_S l x start Hx).
  destruct m; simpl.
  - rewrite Hx, IH by lia. done.
  - by rewrite IH by lia.
Qed.

Lemma gathered_compress (start : nat) mask l :
  (start + length mask ≤ length l)%nat →
  gathered (where_true start mask) l (compress mask (drop start l)).
Proof.
  revert start. induction mask as [|m mask IH]; intros start Hlen; simpl in *.
  { destruct (drop start l); constructor. }
  destruct (lookup_lt_is_Some_2 l start ltac:(lia)) as [x Hx].
  rewrite (drop_S l x start Hx).
  destruct m; simpl.
  - constructor; [done|]. apply IH. lia.
  - apply IH. lia.
Qed.

End masks.

Lemma where_true_bounds (start : nat) (mask : list bool) :
  Forall (λ i, (start ≤ i < start + length mask)%nat) (where_true start mask).
Proof.
  revert start. induction mask as [|m mask IH]; intros start; simpl; [constructor|].
  assert (Forall (λ i, (start ≤ i < start + S (length mask))%nat)
            (where_true (S start) mask)) as Hrest.
  { eapply Forall_impl; [apply IH|]. simpl. lia. }
  destruct m; [constructor; [lia|done]|done].
Qed.

(** The selected positions are listed in increasing order. *)
Lemma where_true_increasing (start : nat) (mask : list bool) (i j : nat) (a b : nat) :
  (i < j)%nat → where_true start mask !! i = Some a →
  where_true start mask !! j = Some b → (a < b)%nat.
Proof.
  revert start i j. induction mask as [|m mask IH]; intros start i j Hij Hi Hj;
    simpl in *; [done|].
  destruct m; [|by eapply IH].
  destruct i as [|i]; destruct j as [|j]; simpl in *; try lia.
  - injection Hi as <-.
    pose proof (where_true_bounds (S start) mask) as Hb.
    rewrite Forall_forall in Hb.
    apply list_elem_of_lookup_2, Hb in Hj. lia.
  - eapply IH; [|done..]. lia.
Qed.

(** ** The altitude filter on one entry *)

Section altitude_filter.
Implicit Types (u e : Entry) (thr : float).

Lemma samples_altitudes (a b c d : list float) (t : list datetime.t) :
  length a = length t → length b = length t →
  length c = length t → length d = length t →
  sample_altitude_km <$> samples (Build_Entry a b c d t) = d.
Proof.
  unfold samples. simpl. revert b c d t.
  induction a as [|x a IH]; intros [|y b] [|z c] [|v d] [|s t]; simpl;
    try done.
  intros [=] [=] [=] [=]. f_equal. by apply IH.
Qed.

Lemma length_samples (a b c d : list float) (t : list datetime.t) :
  length a = length t → length b = length t →
  length c = length t → length d = length t →
  length (samples (Build_Entry a b c d t)) = length t.
Proof.
  unfold samples. simpl. revert b c d t.
  induction a as [|x a IH]; intros [|y b] [|z c] [|v d] [|s t]; simpl;
    try done.
  intros [=] [=] [=] [=]. f_equal. by apply IH.
Qed.

Lemma aligned_altitudes u : aligned u → sample_altitude_km <$> samples u = altitude_km u.
Proof. destruct u. intros (? & ? & ? & ?). by apply samples_altitudes. Qed.

Lemma aligned_length_samples u : aligned u → length (samples u) = length (times u).
Proof. destruct u. intros (? & ? & ? & ?). by apply length_samples. Qed.

Lemma samples_masked mask u : samples (masked mask u) = compress mask (samples u).
Proof.
  unfold samples, masked. simpl.
  by rewrite !compress_zip_with.
Qed.

Lemma aligned_masked mask u : aligned u → aligned (masked mask u).
Proof.
  intros (? & ? & ? & ?). unfold aligned, masked. simpl.
  split_and!; by apply length_compress_eq.
Qed.

Lemma altitude_mask_samples thr u :
  aligned u →
  altitude_mask thr (altitude_km u) =
  (λ s, PrimFloat.leb (sample_altitude_km s) thr) <$> samples u.
Proof.
  intros Hu. unfold altitude_mask.
  by rewrite <- (aligned_altitudes u Hu), <- list_fmap_compose.
Qed.

(** What the mask keeps of the samples is what [filter] keeps. *)
Lemma samples_masked_filter thr u :
  aligned u →
  samples (masked (altitude_mask thr (altitude_km u)) u) =
  filter (qualifies thr) (samples u).
Proof.
  intros Hu. rewrite samples_masked, (altitude_mask_samples thr u Hu).
  apply compress_filter.
Qed.

(** The filtering branch on an aligned entry, in closed form. *)
Lemma refilter_aligned thr u :
  aligned u →
  refilter thr u =
  Ok (if np_any (altitude_mask thr (altitude_km u))
      then Some (masked (altitude_mask thr (altitude_km u)) u) else None).
Proof.
  intros (Hlat & Hlon & Hel & Halt). unfold refilter, filter_entry.
  destruct (np_any _); [|done].
  rewrite select_times_compress; [done|].
  unfold altitude_mask. rewrite length_fmap. simpl. lia.
Qed.

Lemma np_any_filter thr u :
  aligned u →
  np_any (altitude_mask thr (altitude_km u)) = false ↔
  filter (qualifies thr) (samples u) = [].
Proof.
  intros Hu. rewrite <- (samples_masked_filter thr u Hu), samples_masked. split.
  - apply np_any_false_compress.
  - intros Hnil. destruct (np_any _) eqn:E; [|done].
    exfalso. eapply np_any_true_compress; [exact E| |exact Hnil].
    unfold altitude_mask. rewrite length_fmap.
    by rewrite aligned_length_samples, <- (proj2 (proj2 (proj2 Hu))).
Qed.

End altitude_filter.

(** ** One satellite of [collect_satellite_data] *)

Section collect_one.
Context (cfg : Config) (w : World).
Context (instants : list skyfield.time) (times_datetime : list datetime.t).
Implicit Types (sat : Satellite) (data : gmap string Entry) (log : list event).

Lemma aligned_full_entry (at_ : skyfield.time → Subpoint) :
  length times_datetime = length instants →
  aligned (full_entry at_ instants times_datetime).
Proof.
  intros Hlen. unfold aligned, full_entry. simpl.
  by rewrite !length_fmap.
Qed.

(** An element set that the propagator cannot evaluate: the exception
    leaves the loop body. *)
Lemma collect_one_Raise flag sat data log e :
  propagate w sat = Raise e →
  show_all.collect_one cfg w instants times_datetime flag sat data log =
  (log ++ [Propagate sat], Raise e).
Proof.
  intros Hp. unfold show_all.collect_one, mbind, M_bind, emit, lift. simpl.
  by rewrite Hp.
Qed.

Lemma collect_one_all sat data log at_ :
  propagate w sat = Ok at_ →
  show_all.collect_one cfg w instants times_datetime false sat data log =
  (log ++ [Propagate sat;
           Print (MsgTotalPoints (name sat) (Z.of_nat (length instants)))],
   Ok (<[name sat := full_entry at_ instants times_datetime]> data)).
Proof.
  intros Hp. unfold show_all.collect_one, mbind, M_bind, emit, lift, print, emit.
  simpl. rewrite Hp. simpl. rewrite !length_fmap, <- app_assoc. done.
Qed.

Lemma collect_one_filtered sat data log at_ :
  propagate w sat = Ok at_ →
  length times_datetime = length instants →
  let u := full_entry at_ instants times_datetime in
  let mask := altitude_mask (MAX_ALTITUDE_KM cfg) (altitude_km u) in
  show_all.collect_one cfg w instants times_datetime true sat data log =
  if np_any mask
  then (log ++ [Propagate sat; Print (MsgPointsBelow (name sat) (np_sum mask))],
        Ok (<[name sat := masked mask u]> data))
  else (log ++ [Propagate sat; Print (MsgNoPointsBelow (name sat))], Ok data).
Proof.
  intros Hp Hlen u mask.
  pose proof (refilter_aligned (MAX_ALTITUDE_KM cfg) u
                (aligned_full_entry at_ Hlen)) as Hf.
  unfold refilter in Hf. fold mask in Hf.
  unfold show_all.collect_one, mbind, M_bind, emit, lift, print, emit.
  simpl. rewrite Hp. simpl.
  change (filter_entry _ _ _ _ _ _) with
    (filter_entry (MAX_ALTITUDE_KM cfg) (latitude u) (longitude u)
       (elevation_m u) (altitude_km u) (times u)).
  rewrite Hf. destruct (np_any mask); simpl; by rewrite <- app_assoc.
Qed.

Lemma collect_one_Ok flag sat data log at_ :
  propagate w sat = Ok at_ →
  length times_datetime = length instants →
  show_all.collect_one cfg w instants times_datetime flag sat data log =
  (log ++ collect_events cfg w instants times_datetime flag sat,
   Ok (collect_step cfg w instants times_datetime flag data sat)).
Proof.
  intros Hp Hlen. unfold collect_events, collect_step, stored_entry.
  rewrite Hp. destruct flag.
  - rewrite (collect_one_filtered sat data log at_ Hp Hlen).
    by destruct (np_any _).
  - by rewrite (collect_one_all sat data log at_ Hp).
Qed.

(** When the propagator evaluates every element set, the loop runs
    through and folds [collect_step] over the satellites. *)
Lemma collect_satellite_data_fold flag (satellites : list Satellite) data log :
  length times_datetime = length instants →
  Forall (λ sat, is_Ok (propagate w sat)) satellites →
  for_each satellites (show_all.collect_one cfg w instants times_datetime flag)
    data log =
  (log ++ (satellites ≫= collect_events cfg w instants times_datetime flag),
   Ok (foldl (collect_step cfg w instants times_datetime flag) data satellites)).
Proof.
  intros Hlen Hall. revert data log.
  induction Hall as [|sat satellites [at_ Hp] _ IH]; intros data log; simpl.
  { unfold mret, M_ret. by rewrite app_nil_r. }
  unfold mbind, M_bind at 1.
  rewrite (collect_one_Ok flag sat data log at_ Hp Hlen).
  rewrite IH. by rewrite <- app_assoc.
Qed.

(** When the propagator raises for one of them, the loop raises and
    returns no dictionary. *)
Lemma collect_satellite_data_Raise flag (satellites : list Satellite) data log :
  length times_datetime = length instants →
  Exists (λ sat, ¬ is_Ok (propagate w sat)) satellites →
  ∃ log' e,
    for_each satellites (show_all.collect_one cfg w instants times_datetime flag)
      data log = (log', Raise e).
Proof.
  intros Hlen. revert data log.
  induction satellites as [|sat satellites IH]; intros data log Hex.
  { by apply Exists_nil in Hex. }
  simpl. unfold mbind, M_bind at 1.
  destruct (propagate w sat) as [at_|e] eqn:Hp.
  - rewrite (collect_one_Ok flag sat data log at_ Hp Hlen).
    apply IH. apply Exists_cons in Hex as [Hbad|Hex]; [|done].
    exfalso. apply Hbad. rewrite Hp. by eexists.
  - rewrite (collect_one_Raise flag sat data log e Hp).
    by eexists _, _.
Qed.

(** Where an entry of the folded dictionary comes from. *)
Lemma collect_fold_lookup flag (satellites : list Satellite) data n e :
  foldl (collect_step cfg w instants times_datetime flag) data satellites !! n = Some e →
  data !! n = Some e ∨
  ∃ sat at_, sat ∈ satellites ∧ name sat = n ∧ propagate w sat = Ok at_ ∧
             stored_entry cfg flag at_ instants times_datetime = Some e.
Proof.
  revert data. induction satellites as [|sat satellites IH]; intros data; simpl.
  { by left. }
  intros [Hd|(sat' & at_ & Hin & Hn & Hp & Hs)]%IH.
  - unfold collect_step in Hd.
    destruct (propagate w sat) as [at_|] eqn:Hp; [|by left].
    destruct (stored_entry _ _ _ _ _) as [e'|] eqn:Hs; [|by left].
    destruct (decide (name sat = n)) as [Hn|Hn].
    + subst n. rewrite lookup_insert_eq in Hd. injection Hd as ->.
      right. exists sat, at_. split_and!; [left|done..].
    + rewrite lookup_insert_ne in Hd by done. by left.
  - right. exists sat', at_. split_and!; [by right|done..].
Qed.

Lemma collect_fold_keeps flag (satellites : list Satellite) data n :
  is_Some (data !! n) →
  is_Some (foldl (collect_step cfg w instants times_datetime flag) data satellites !! n).
Proof.
  revert data. induction satellites as [|sat satellites IH]; intros data Hd; simpl.
  { done. }
  apply IH. unfold collect_step.
  destruct (propagate w sat); [|done].
  destruct (stored_entry _ _ _ _ _); [|done].
  destruct (decide (name sat = n)) as [->|Hn].
  - rewrite lookup_insert_eq. by eexists.
  - by rewrite lookup_insert_ne.
Qed.

(** Without the filter, every evaluated satellite has an entry. *)
Lemma collect_fold_all_present (satellites : list Satellite) data sat :
  sat ∈ satellites → is_Ok (propagate w sat) →
  is_Some (foldl (collect_step cfg w instants times_datetime false) data satellites
             !! name sat).
Proof.
  revert data. induction satellites as [|sat' satellites IH]; intros data Hin Hok.
  { by apply elem_of_nil in Hin. }
  simpl. apply elem_of_cons in Hin as [<-|Hin]; [|by apply IH].
  apply collect_fold_keeps. unfold collect_step.
  destruct Hok as [at_ ->]. simpl. rewrite lookup_insert_eq. by eexists.
Qed.

End collect_one.

(** Satellites of a list with distinct names are told apart by name. *)
Lemma NoDup_names_inj (satellites : list Satellite) (s1 s2 : Satellite) :
  NoDup (name <$> satellites) → s1 ∈ satellites → s2 ∈ satellites →
  name s1 = name s2 → s1 = s2.
Proof.
  induction satellites as [|s satellites IH]; simpl; intros Hnd H1 H2 Hn.
  { by apply elem_of_nil in H1. }
  apply NoDup_cons in Hnd as [Hs Hnd].
  apply elem_of_cons in H1 as [->|H1]; apply elem_of_cons in H2 as [->|H2];
    try done.
  - exfalso. apply Hs. rewrite Hn. by apply list_elem_of_fmap_2.
  - exfalso. apply Hs. rewrite <- Hn. by apply list_elem_of_fmap_2.
  - by apply IH.
Qed.

(** ** Filtering twice *)

Section idempotence.
Context {A : Type}.
Implicit Types (mask : list bool) (l : list A).

Lemma compress_all_true mask l :
  Forall (λ b, b = true) mask → (length l ≤ length mask)%nat →
  compress mask l = l.
Proof.
  intros Hall. revert l. induction Hall as [|m mask -> _ IH]; intros [|x l] Hlen;
    simpl in *; try done; try lia.
  f_equal. apply IH. lia.
Qed.

Lemma length_compress_le {B} mask l (k : list B) :
  (length mask ≤ length k)%nat →
  (length (compress mask l) ≤ length (compress mask k))%nat.
Proof.
  revert l k. induction mask as [|m mask IH]; intros [|x l] [|y k] Hlen;
    simpl in *; try lia.
  destruct m; simpl; [apply le_n_S|]; apply IH; lia.
Qed.

(** When the comprehension raises nothing, it has read one element for
    every position where the mask holds. *)
Lemma select_times_Ok_length (start : nat) mask l (r : list A) :
  select_times start mask l = Ok r →
  length r = length (compress mask mask).
Proof.
  revert start r. induction mask as [|m mask IH]; intros start r; simpl.
  { by intros [= <-]. }
  destruct m; [|apply IH].
  destruct (l !! start) as [x|]; [|done].
  destruct (select_times (S start) mask l) as [rest|] eqn:E; simpl; [|done].
  intros [= <-]. simpl. f_equal. by eapply IH.
Qed.

End idempotence.

Lemma altitude_mask_kept_true (thr : float) (alt_km : list float) :
  Forall (λ b, b = true)
    (altitude_mask thr (compress (altitude_mask thr alt_km) alt_km)).
Proof.
  unfold altitude_mask. rewrite compress_filter.
  apply Forall_fmap, Forall_forall. intros a Ha.
  by apply list_elem_of_filter in Ha as [Ha _].
Qed.

Lemma length_compress_mask (p : float → bool) (l : list float) :
  length (compress (p <$> l) (p <$> l)) = length (compress (p <$> l) l).
Proof. apply length_compress_eq. by rewrite length_fmap. Qed.

Lemma np_any_all_true (mask : list bool) :
  Forall (λ b, b = true) mask → mask ≠ [] → np_any mask = true.
Proof. intros [|m rest -> _]; done. Qed.

(** C9. The altitude filter is idempotent: filtering an entry that the
    filter has produced, with the same threshold, gives that entry again. *)
Theorem altitude_filter_idempotent (max_altitude_km : float) (u e : Entry) :
  refilter max_altitude_km u = Ok (Some e) →
  refilter max_altitude_km e = Ok (Some e).
Proof.
  unfold refilter, filter_entry.
  set (mask := altitude_mask max_altitude_km (altitude_km u)).
  destruct (np_any mask) eqn:Hany; [|done].
  destruct (select_times 0 mask (times u)) as [kept_times|] eqn:Hsel; [|done].
  simpl. intros [= <-]. simpl.
  set (mask' := altitude_mask max_altitude_km (compress mask (altitude_km u))).
  assert (Forall (λ b, b = true) mask') as Htrue
    by apply altitude_mask_kept_true.
  assert (length mask' = length (compress mask mask)) as Hlen.
  { unfold mask', altitude_mask. rewrite length_fmap.
    symmetry. apply length_compress_mask. }
  assert (length mask ≤ length mask)%nat as Hle by lia.
  assert (mask' ≠ []) as Hne.
  { intros Hnil. rewrite Hnil in Hlen. simpl in Hlen.
    eapply (np_any_true_compress mask mask); [done|done|].
    by apply nil_length_inv. }
  rewrite (np_any_all_true mask' Htrue Hne).
  pose proof (select_times_Ok_length 0 mask (times u) kept_times Hsel) as Hk.
  rewrite select_times_compress by (simpl; lia). simpl.
  rewrite !(compress_all_true mask') by
    (try done; rewrite Hlen; by apply length_compress_le).
  do 2 f_equal. f_equal. simpl.
  apply compress_all_true; [done|lia].
Qed.

Lemma altitude_filter_idempotent_witness :
  refilter 800 examples.track = Ok (Some examples.low_track) ∧
  refilter 800 examples.low_track = Ok (Some examples.low_track).
Proof.
  split; [reflexivity|].
  apply (altitude_filter_idempotent 800 examples.track examples.low_track).
  reflexivity.
Defined.

(** ** The altitude filter inside the collection *)

(** C4. For a satellite that the propagator evaluates, the filtering round
    of [collect_satellite_data] keeps exactly the samples whose
    [altitude_km], the [elevation.km] of the geodetic subpoint, is [<=] the
    threshold, in their original order; when none is, nothing is stored.
    Altitudes [500, 900, 750, 1200, 600] with threshold 800 leave the
    samples at positions 0, 2 and 4, with altitudes [500, 750, 600]. *)
Theorem altitude_filter_keeps_qualifying (cfg : Config) (w : World)
    (instants : list skyfield.time) (times_datetime : list datetime.t)
    (sat : Satellite) (data : gmap string Entry) (log : list event)
    (at_ : skyfield.time → Subpoint) :
  propagate w sat = Ok at_ →
  length times_datetime = length instants →
  (∃ log' data',
     show_all.collect_one cfg w instants times_datetime true sat data log
       = (log', Ok data') ∧
     match filter (qualifies (MAX_ALTITUDE_KM cfg))
             (samples (full_entry at_ instants times_datetime)) with
     | [] => data' = data
     | kept => ∃ e, data' = <[name sat := e]> data ∧ samples e = kept
     end) ∧
  (∀ (l0 l1 l2 l3 l4 g0 g1 g2 g3 g4 m0 m1 m2 m3 m4 : float)
     (t0 t1 t2 t3 t4 : datetime.t),
     refilter 800 {| latitude := [l0; l1; l2; l3; l4];
                     longitude := [g0; g1; g2; g3; g4];
                     elevation_m := [m0; m1; m2; m3; m4];
                     altitude_km := [500; 900; 750; 1200; 600]%float;
                     times := [t0; t1; t2; t3; t4] |}
     = Ok (Some {| latitude := [l0; l2; l4];
                   longitude := [g0; g2; g4];
                   elevation_m := [m0; m2; m4];
                   altitude_km := [500; 750; 600]%float;
                   times := [t0; t2; t4] |})).
Proof.
  intros Hp Hlen. split; [|reflexivity].
  pose proof (aligned_full_entry instants times_datetime at_ Hlen) as Hu.
  set (u := full_entry at_ instants times_datetime) in *.
  set (thr := MAX_ALTITUDE_KM cfg).
  rewrite (collect_one_filtered cfg w instants times_datetime sat data log at_ Hp Hlen).
  fold u. fold thr.
  destruct (np_any (altitude_mask thr (altitude_km u))) eqn:Hany.
  - eexists _, _. split; [done|].
    rewrite <- (samples_masked_filter thr u Hu).
    destruct (samples (masked _ u)) as [|s kept] eqn:Hs.
    + exfalso. rewrite (samples_masked_filter thr u Hu) in Hs.
      apply (np_any_filter thr u Hu) in Hs. congruence.
    + eexists. split; [done|]. by rewrite Hs.
  - eexists _, _. split; [done|].
    apply (np_any_filter thr u Hu) in Hany. by rewrite Hany.
Qed.

Lemma altitude_filter_keeps_qualifying_witness :
  ∃ log' data',
    show_all.collect_one config examples.world examples.six_hourly
      examples.six_hourly_dt true examples.sat_59625 ∅ [] = (log', Ok data') ∧
    altitude_km <$> data' !! "59625"%string = Some [500; 750; 600]%float ∧
    times <$> data' !! "59625"%string =
      Some [datetime.make 2024 1 1 0 0 0 0; datetime.make 2024 1 1 12 0 0 0;
            datetime.make 2024 1 2 0 0 0 0].
Proof.
  destruct (altitude_filter_keeps_qualifying config examples.world
              examples.six_hourly examples.six_hourly_dt examples.sat_59625 ∅ []
              (examples.table_subpoint examples.altitude_table))
    as [(log' & data' & Hrun & _) _]; [reflexivity|reflexivity|].
  exists log', data'. split; [exact Hrun|].
  replace data' with
    (match (show_all.collect_one config examples.world examples.six_hourly
              examples.six_hourly_dt true examples.sat_59625 ∅ []).2 with
     | Ok d => d
     | Raise _ => ∅
     end) by (by rewrite Hrun).
  split; reflexivity.
Defined.

(** ** Satellites without a qualifying sample *)

Section no_entry.
Context (cfg : Config) (w : World).
Context (instants : list skyfield.time) (times_datetime : list datetime.t).

Lemma mask_of_all_false (at_ : skyfield.time → Subpoint) :
  Forall (λ t, PrimFloat.leb (elevation_km (at_ t)) (MAX_ALTITUDE_KM cfg) = false)
    instants →
  np_any (mask_of cfg instants at_) = false.
Proof.
  unfold mask_of, altitude_mask, np_any.
  induction 1 as [|t ts Ht _ IH]; simpl; [done|].
  rewrite Ht. exact IH.
Qed.

(** The filtering round, whatever the length of [times_datetime]: it stores
    nothing when the mask holds nowhere, and otherwise stores an entry or
    raises. *)
Lemma collect_one_filtered_cases sat data log at_ :
  propagate w sat = Ok at_ →
  ∃ log',
    (np_any (mask_of cfg instants at_) = false ∧
     show_all.collect_one cfg w instants times_datetime true sat data log
       = (log', Ok data)) ∨
    (np_any (mask_of cfg instants at_) = true ∧
     ((∃ e, show_all.collect_one cfg w instants times_datetime true sat data log
              = (log', Ok (<[name sat := e]> data))) ∨
      (∃ ex, show_all.collect_one cfg w instants times_datetime true sat data log
               = (log', Raise ex)))).
Proof.
  intros Hp. unfold show_all.collect_one, mbind, M_bind, emit, lift, print, emit.
  simpl. rewrite Hp. simpl. unfold filter_entry. fold (mask_of cfg instants at_).
  destruct (np_any (mask_of cfg instants at_)) eqn:Hany; simpl.
  - destruct (select_times 0 (mask_of cfg instants at_) times_datetime) as [kept|ex]; simpl.
    + eexists. right. split; [done|]. left. by eexists.
    + eexists. right. split; [done|]. right. by eexists.
  - eexists. left. by split.
Qed.

(** An entry of the filtered dictionary was stored for a satellite of that
    name whose mask holds somewhere. *)
Lemma collect_filtered_lookup (satellites : list Satellite) data log log' d n e :
  for_each satellites (show_all.collect_one cfg w instants times_datetime true)
    data log = (log', Ok d) →
  d !! n = Some e →
  data !! n = Some e ∨
  ∃ sat at_, sat ∈ satellites ∧ name sat = n ∧ propagate w sat = Ok at_ ∧
             np_any (mask_of cfg instants at_) = true.
Proof.
  revert data log. induction satellites as [|sat satellites IH]; intros data log; simpl.
  { unfold mret, M_ret. intros [= _ <-] Hd. by left. }
  unfold mbind, M_bind at 1.
  destruct (show_all.collect_one _ _ _ _ _ sat data log) as [log1 [d1|ex]] eqn:E;
    [|done].
  intros Hrest Hd.
  destruct (IH d1 log1 Hrest Hd) as [Hd1|(sat' & at_ & Hin & Hn & Hp & Hany)].
  - destruct (propagate w sat) as [at_|ex] eqn:Hp.
    + destruct (collect_one_filtered_cases sat data log at_ Hp)
        as (log2 & [[Hany E']|[Hany [[e' E']|[ex E']]]]);
        rewrite E in E'; try done.
      * injection E' as _ ->. by left.
      * injection E' as _ ->.
        destruct (decide (name sat = n)) as [Hn|Hn].
        -- right. exists sat, at_. split_and!; [left|done..].
        -- rewrite lookup_insert_ne in Hd1 by done. by left.
    + by rewrite (collect_one_Raise cfg w instants times_datetime true sat data log ex Hp)
        in E.
  - right. exists sat', at_. split_and!; [by right|done..].
Qed.

End no_entry.

(** C5. A satellite none of whose samples is at or below the threshold has
    no entry in the filtered dictionary: its name is not a key (the
    satellites of a run carry distinct names). *)
Theorem no_entry_without_qualifying_sample (cfg : Config) (w : World)
    (satellites : list Satellite) (instants : list skyfield.time)
    (times_datetime : list datetime.t) (log log' : list event)
    (filtered : gmap string Entry) (sat : Satellite)
    (at_ : skyfield.time → Subpoint) :
  show_all.collect_satellite_data cfg w satellites instants times_datetime true log
    = (log', Ok filtered) →
  NoDup (name <$> satellites) →
  sat ∈ satellites →
  propagate w sat = Ok at_ →
  Forall (λ t, PrimFloat.leb (elevation_km (at_ t)) (MAX_ALTITUDE_KM cfg) = false)
    instants →
  filtered !! name sat = None.
Proof.
  intros Hrun Hnd Hin Hp Hhigh.
  destruct (filtered !! name sat) as [e|] eqn:He; [|done]. exfalso.
  destruct (collect_filtered_lookup cfg w instants times_datetime satellites
              ∅ log log' filtered (name sat) e Hrun He)
    as [Hempty|(sat' & at' & Hin' & Hn & Hp' & Hany)].
  { by rewrite lookup_empty in Hempty. }
  assert (sat' = sat) as -> by (by eapply NoDup_names_inj).
  rewrite Hp in Hp'. injection Hp' as <-.
  by rewrite (mask_of_all_false cfg instants at_ Hhigh) in Hany.
Qed.

Lemma no_entry_without_qualifying_sample_witness :
  ∃ log' filtered,
    show_all.collect_satellite_data config examples.world
      [examples.sat_59625; examples.sat_59626]
      examples.six_hourly examples.six_hourly_dt true [] = (log', Ok filtered) ∧
    filtered !! "59626"%string = None ∧
    is_Some (filtered !! "59625"%string).
Proof.
  destruct (show_all.collect_satellite_data config examples.world
              [examples.sat_59625; examples.sat_59626]
              examples.six_hourly examples.six_hourly_dt true [])
    as [log' [filtered|ex]] eqn:Hrun; [|by vm_compute in Hrun].
  exists log', filtered. split; [reflexivity|]. split.
  - apply (no_entry_without_qualifying_sample config examples.world
             [examples.sat_59625; examples.sat_59626]
             examples.six_hourly examples.six_hourly_dt [] log' filtered
             examples.sat_59626 (examples.table_subpoint [])).
    + exact Hrun.
    + by apply (bool_decide_unpack _).
    + right. left.
    + reflexivity.
    + vm_compute. repeat constructor.
  - replace filtered with
      (match (show_all.collect_satellite_data config examples.world
                [examples.sat_59625; examples.sat_59626]
                examples.six_hourly examples.six_hourly_dt true []).2 with
       | Ok d => d
       | Raise _ => ∅
       end) by (by rewrite Hrun).
    vm_compute. by eexists.
Defined.

(** ** The two dictionaries of a run *)

Section two_calls.
Context (cfg : Config) (w : World).
Context (instants : list skyfield.time) (times_datetime : list datetime.t).
Context (Hlen : length times_datetime = length instants).

Lemma evaluated_or_not (satellites : list Satellite) :
  Forall (λ sat, is_Ok (propagate w sat)) satellites ∨
  Exists (λ sat, ¬ is_Ok (propagate w sat)) satellites.
Proof.
  induction satellites as [|sat satellites [IH|IH]].
  - left. constructor.
  - destruct (propagate w sat) as [at_|ex] eqn:Hp.
    + left. constructor; [|done]. rewrite Hp. by eexists.
    + right. left. rewrite Hp. by intros [? ?].
  - right. by right.
Qed.

(** A call that returns a dictionary has evaluated every satellite and
    returns the fold of [collect_step]. *)
Lemma collect_satellite_data_Ok_inv flag (satellites : list Satellite) log log' d :
  show_all.collect_satellite_data cfg w satellites instants times_datetime flag log
    = (log', Ok d) →
  Forall (λ sat, is_Ok (propagate w sat)) satellites ∧
  d = foldl (collect_step cfg w instants times_datetime flag) ∅ satellites.
Proof.
  unfold show_all.collect_satellite_data. intros Hrun.
  destruct (evaluated_or_not satellites) as [Hall|Hbad].
  - split; [done|].
    rewrite (collect_satellite_data_fold cfg w instants times_datetime flag
               satellites ∅ log Hlen Hall) in Hrun.
    by injection Hrun as _ <-.
  - destruct (collect_satellite_data_Raise cfg w instants times_datetime flag
                satellites ∅ log Hlen Hbad) as (log'' & ex & Hr).
    by rewrite Hr in Hrun.
Qed.

Lemma stored_entry_filtered (at_ : skyfield.time → Subpoint) e :
  stored_entry cfg true at_ instants times_datetime = Some e →
  e = masked (mask_of cfg instants at_) (full_entry at_ instants times_datetime).
Proof.
  unfold stored_entry, mask_of. simpl.
  destruct (np_any _); [|done]. by intros [= <-].
Qed.

Lemma length_mask_of (at_ : skyfield.time → Subpoint) :
  length (mask_of cfg instants at_) = length instants.
Proof. unfold mask_of, altitude_mask. by rewrite !length_fmap. Qed.

End two_calls.

(** C6. In a run over satellites of distinct names, every unfiltered entry
    has one sample per instant of the time grid, and every filtered entry
    is an order-preserving subsequence, sample for sample, of the unfiltered
    entry of the same satellite, although the two dictionaries come from two
    separate calls of [collect_satellite_data]. *)
Theorem filtered_is_subsequence_of_unfiltered (cfg : Config) (w : World)
    (satellites : list Satellite) (instants : list skyfield.time)
    (times_datetime : list datetime.t) (log1 log1' log2 log2' : list event)
    (filtered_satellite_data all_satellite_data : gmap string Entry) :
  length times_datetime = length instants →
  NoDup (name <$> satellites) →
  show_all.collect_satellite_data cfg w satellites instants times_datetime true log1
    = (log1', Ok filtered_satellite_data) →
  show_all.collect_satellite_data cfg w satellites instants times_datetime false log2
    = (log2', Ok all_satellite_data) →
  (∀ sat, sat ∈ satellites → is_Some (all_satellite_data !! name sat)) ∧
  (∀ n ue, all_satellite_data !! n = Some ue →
     length (samples ue) = length instants ∧
     length (times ue) = length instants) ∧
  (∀ n fe, filtered_satellite_data !! n = Some fe →
     ∃ ue, all_satellite_data !! n = Some ue ∧
           samples fe `sublist_of` samples ue).
Proof.
  intros Hlen Hnd Hf Ha.
  apply (collect_satellite_data_Ok_inv cfg w instants times_datetime Hlen) in Hf
    as [Hall ->].
  apply (collect_satellite_data_Ok_inv cfg w instants times_datetime Hlen) in Ha
    as [_ ->].
  assert (∀ n ue,
    foldl (collect_step cfg w instants times_datetime false) ∅ satellites !! n = Some ue →
    ∃ sat at_, sat ∈ satellites ∧ name sat = n ∧ propagate w sat = Ok at_ ∧
               ue = full_entry at_ instants times_datetime) as Hfull.
  { intros n ue [Hempty|(sat & at_ & Hin & Hn & Hp & Hs)]%collect_fold_lookup.
    - by rewrite lookup_empty in Hempty.
    - exists sat, at_. split_and!; try done. by injection Hs as <-. }
  split_and!.
  - intros sat Hin. apply collect_fold_all_present; [done|].
    rewrite Forall_forall in Hall. by apply Hall.
  - intros n ue (sat & at_ & _ & _ & _ & ->)%Hfull.
    pose proof (aligned_full_entry instants times_datetime at_ Hlen) as Hu.
    rewrite (aligned_length_samples _ Hu). simpl. by split.
  - intros n fe [Hempty|(sat & at_ & Hin & Hn & Hp & Hs)]%collect_fold_lookup.
    { by rewrite lookup_empty in Hempty. }
    destruct (collect_fold_all_present cfg w instants times_datetime satellites ∅ sat Hin)
      as [ue Hue].
    { rewrite Hp. by eexists. }
    rewrite Hn in Hue. exists ue. split; [done|].
    destruct (Hfull n ue Hue) as (sat' & at' & Hin' & Hn' & Hp' & ->).
    assert (sat' = sat) as -> by (eapply NoDup_names_inj; [done..|congruence]).
    rewrite Hp in Hp'. injection Hp' as <-.
    rewrite (stored_entry_filtered cfg instants times_datetime at_ fe Hs).
    rewrite samples_masked. apply compress_sublist.
Qed.

Lemma filtered_is_subsequence_of_unfiltered_witness :
  ∃ log1' log2' filtered_satellite_data all_satellite_data,
    show_all.collect_satellite_data config examples.world
      [examples.sat_59625; examples.sat_59626]
      examples.six_hourly examples.six_hourly_dt true [] =
      (log1', Ok filtered_satellite_data) ∧
    show_all.collect_satellite_data config examples.world
      [examples.sat_59625; examples.sat_59626]
      examples.six_hourly examples.six_hourly_dt false [] =
      (log2', Ok all_satellite_data) ∧
    (∀ n ue, all_satellite_data !! n = Some ue →
       length (samples ue) = 5%nat ∧ length (times ue) = 5%nat) ∧
    (∀ n fe, filtered_satellite_data !! n = Some fe →
       ∃ ue, all_satellite_data !! n = Some ue ∧
             samples fe `sublist_of` samples ue).
Proof.
  destruct (show_all.collect_satellite_data config examples.world
              [examples.sat_59625; examples.sat_59626]
              examples.six_hourly examples.six_hourly_dt true [])
    as [log1' [fd|ex]] eqn:Hf; [|by vm_compute in Hf].
  destruct (show_all.collect_satellite_data config examples.world
              [examples.sat_59625; examples.sat_59626]
              examples.six_hourly examples.six_hourly_dt false [])
    as [log2' [ad|ex]] eqn:Ha; [|by vm_compute in Ha].
  exists log1', log2', fd, ad. split; [done|]. split; [done|].
  destruct (filtered_is_subsequence_of_unfiltered config examples.world
              [examples.sat_59625; examples.sat_59626]
              examples.six_hourly examples.six_hourly_dt [] log1' [] log2' fd ad)
    as (_ & Hlen & Hsub); [reflexivity|by apply (bool_decide_unpack _)|done|done|].
  split; [exact Hlen|exact Hsub].
Defined.

(** C10. In every entry that [collect_satellite_data] stores, filtered or
    not, the five arrays have one length; in a filtered entry, moreover,
    position by position the five values come from one and the same
    position of the time grid, and these positions increase. *)
Theorem parallel_arrays_stay_aligned (cfg : Config) (w : World)
    (satellites : list Satellite) (instants : list skyfield.time)
    (times_datetime : list datetime.t) (filter_altitude : bool)
    (log log' : list event) (data : gmap string Entry) :
  length times_datetime = length instants →
  show_all.collect_satellite_data cfg w satellites instants times_datetime
    filter_altitude log = (log', Ok data) →
  ∀ n e, data !! n = Some e →
    aligned e ∧
    (filter_altitude = true →
     ∃ sat at_ idx,
       sat ∈ satellites ∧ name sat = n ∧ propagate w sat = Ok at_ ∧
       (∀ i j a b, (i < j)%nat → idx !! i = Some a → idx !! j = Some b →
                   (a < b)%nat) ∧
       Forall (λ i, (i < length instants)%nat) idx ∧
       gathered idx (latitude_degrees <$> (at_ <$> instants)) (latitude e) ∧
       gathered idx (longitude_degrees <$> (at_ <$> instants)) (longitude e) ∧
       gathered idx (elevation_in_m <$> (at_ <$> instants)) (elevation_m e) ∧
       gathered idx (elevation_km <$> (at_ <$> instants)) (altitude_km e) ∧
       gathered idx times_datetime (times e)).
Proof.
  intros Hlen Hrun n e He.
  apply (collect_satellite_data_Ok_inv cfg w instants times_datetime Hlen) in Hrun
    as [_ ->].
  apply collect_fold_lookup in He as [Hempty|(sat & at_ & Hin & Hn & Hp & Hs)].
  { by rewrite lookup_empty in Hempty. }
  pose proof (aligned_full_entry instants times_datetime at_ Hlen) as Hu.
  destruct filter_altitude.
  - apply stored_entry_filtered in Hs as ->. split; [by apply aligned_masked|].
    intros _. exists sat, at_, (where_true 0 (mask_of cfg instants at_)).
    pose proof (length_mask_of cfg instants at_) as Hm.
    split_and!; try done.
    + intros i j a b. apply where_true_increasing.
    + eapply Forall_impl; [apply where_true_bounds|]. simpl. lia.
    + apply (gathered_compress 0); rewrite !length_fmap; simpl; lia.
    + apply (gathered_compress 0); rewrite !length_fmap; simpl; lia.
    + apply (gathered_compress 0); rewrite !length_fmap; simpl; lia.
    + apply (gathered_compress 0); rewrite !length_fmap; simpl; lia.
    + apply (gathered_compress 0). simpl. lia.
  - injection Hs as <-. by split.
Qed.

Lemma parallel_arrays_stay_aligned_witness :
  ∃ log' data,
    show_all.collect_satellite_data config examples.world
      [examples.sat_59625; examples.sat_59626]
      examples.six_hourly examples.six_hourly_dt true [] = (log', Ok data) ∧
    ∀ n e, data !! n = Some e → aligned e.
Proof.
  destruct (show_all.collect_satellite_data config examples.world
              [examples.sat_59625; examples.sat_59626]
              examples.six_hourly examples.six_hourly_dt true [])
    as [log' [data|ex]] eqn:Hrun; [|by vm_compute in Hrun].
  exists log', data. split; [done|]. intros n e He.
  by destruct (parallel_arrays_stay_aligned config examples.world
                 [examples.sat_59625; examples.sat_59626]
                 examples.six_hourly examples.six_hourly_dt true [] log' data
                 eq_refl Hrun n e He) as [Ha _].
Defined.

(** ** Element sets that cannot be evaluated *)

(** A value that is not a number compares [<=] with nothing. *)
Lemma SFcompare_refl (s : SpecFloat.spec_float) :
  SpecFloat.SFcompare s s =
  match s with SpecFloat.S754_nan => None | _ => Some Eq end.
Proof.
  destruct s as [sg|sg| |sg m e]; simpl; try done; try by destruct sg.
  rewrite Z.compare_refl.
  change (PosDef.Pos.compare_cont Eq m m) with (Pos.compare m m).
  rewrite Pos.compare_refl. by destruct sg.
Qed.

Lemma nan_leb (a thr : float) :
  PrimFloat.is_nan a = true → PrimFloat.leb a thr = false.
Proof.
  unfold PrimFloat.is_nan. rewrite FloatAxioms.eqb_spec, FloatAxioms.leb_spec.
  unfold SpecFloat.SFeqb, SpecFloat.SFleb.
  rewrite SFcompare_refl. by destruct (FloatOps.Prim2SF a).
Qed.

Section unevaluated.
Context (cfg : Config) (w : World).
Context (instants : list skyfield.time) (times_datetime : list datetime.t).

(** Satellites of other names leave the entry of a name alone. *)
Lemma collect_fold_other_names flag (satellites : list Satellite) data n :
  n ∉ name <$> satellites →
  foldl (collect_step cfg w instants times_datetime flag) data satellites !! n
    = data !! n.
Proof.
  revert data. induction satellites as [|sat satellites IH]; intros data Hn;
    simpl; [done|].
  rewrite fmap_cons, not_elem_of_cons in Hn. destruct Hn as [Hn Hrest].
  rewrite IH by done. unfold collect_step.
  destruct (propagate w sat) as [at_|]; [|done].
  destruct (stored_entry _ _ _ _ _); [|done].
  by rewrite lookup_insert_ne.
Qed.

(** Among satellites of distinct names, the entry of a satellite is what
    its own round stores. *)
Lemma collect_fold_distinct flag (satellites : list Satellite) data sat at_ :
  NoDup (name <$> satellites) → sat ∈ satellites → propagate w sat = Ok at_ →
  foldl (collect_step cfg w instants times_datetime flag) data satellites
    !! name sat =
  match stored_entry cfg flag at_ instants times_datetime with
  | Some e => Some e
  | None => data !! name sat
  end.
Proof.
  revert data. induction satellites as [|s satellites IH]; intros data Hnd Hin Hp.
  { by apply elem_of_nil in Hin. }
  rewrite fmap_cons in Hnd. apply NoDup_cons in Hnd as [Hs Hnd].
  apply elem_of_cons in Hin as [->|Hin]; simpl.
  - rewrite collect_fold_other_names by done.
    unfold collect_step. rewrite Hp.
    destruct (stored_entry _ _ _ _ _); [|done]. by rewrite lookup_insert_eq.
  - rewrite (IH _ Hnd Hin Hp).
    destruct (stored_entry cfg flag at_ instants times_datetime); [done|].
    unfold collect_step. destruct (propagate w s) as [at'|]; [|done].
    destruct (stored_entry cfg flag at' _ _); [|done].
    rewrite lookup_insert_ne; [done|].
    intros Heq. apply Hs. rewrite Heq. by apply list_elem_of_fmap_2.
Qed.

End unevaluated.

(** C3, on a sample run: the element set of the second of three satellites
    cannot be evaluated and its positions are not numbers;
    [collect_satellite_data] stores them under the name of the satellite
    like any trajectory, and reports five points collected. *)
Lemma unevaluated_element_set_is_stored :
  propagate examples.world examples.sat_40115 = Ok examples.no_position ∧
  ∃ log' all_satellite_data e,
    show_all.collect_satellite_data config examples.world
      [examples.sat_59625; examples.sat_40115; examples.sat_59626]
      examples.six_hourly examples.six_hourly_dt false []
      = (log', Ok all_satellite_data) ∧
    all_satellite_data !! "40115"%string = Some e ∧
    length (altitude_km e) = 5%nat ∧
    Forall (λ a, PrimFloat.is_nan a = true) (altitude_km e) ∧
    Print (MsgTotalPoints "40115" 5) ∈ log'.
Proof.
  split; [reflexivity|].
  eexists _, _, _. split; [reflexivity|]. split; [reflexivity|].
  split; [reflexivity|]. split; [by repeat constructor|].
  apply list_elem_of_lookup_2 with 3%nat. reflexivity.
Qed.

(** C3, as the code has it. The propagator does not raise for an element
    set that it cannot evaluate: it returns positions that are not
    numbers, and [collect_satellite_data] has no test for them. Among
    satellites of distinct names, none of which makes the propagator
    raise, the unfiltered dictionary holds an entry for every satellite,
    for the unevaluated one the arrays of its positions, one per instant;
    the filtered dictionary has no entry under its name, and holds for
    every other satellite what the filter keeps of its trajectory. The
    only report is the count that every satellite gets: no point below the
    threshold with the filter, the number of instants without. *)
Theorem unevaluated_element_set_is_not_reported (cfg : Config) (w : World)
    (satellites : list Satellite) (instants : list skyfield.time)
    (times_datetime : list datetime.t) (bad : Satellite)
    (no_position : skyfield.time → Subpoint) (log1 log2 : list event) :
  length times_datetime = length instants →
  Forall (λ sat, is_Ok (propagate w sat)) satellites →
  NoDup (name <$> satellites) →
  bad ∈ satellites →
  propagate w bad = Ok no_position →
  (∀ t, PrimFloat.is_nan (elevation_km (no_position t)) = true) →
  ∃ filtered_satellite_data all_satellite_data,
    show_all.collect_satellite_data cfg w satellites instants times_datetime true log1
      = (log1 ++ (satellites ≫= collect_events cfg w instants times_datetime true),
         Ok filtered_satellite_data) ∧
    show_all.collect_satellite_data cfg w satellites instants times_datetime false log2
      = (log2 ++ (satellites ≫= collect_events cfg w instants times_datetime false),
         Ok all_satellite_data) ∧
    filtered_satellite_data !! name bad = None ∧
    all_satellite_data !! name bad
      = Some (full_entry no_position instants times_datetime) ∧
    collect_events cfg w instants times_datetime true bad
      = [Propagate bad; Print (MsgNoPointsBelow (name bad))] ∧
    collect_events cfg w instants times_datetime false bad
      = [Propagate bad;
         Print (MsgTotalPoints (name bad) (Z.of_nat (length instants)))] ∧
    (∀ sat at_, sat ∈ satellites → propagate w sat = Ok at_ →
       all_satellite_data !! name sat
         = Some (full_entry at_ instants times_datetime) ∧
       filtered_satellite_data !! name sat
         = stored_entry cfg true at_ instants times_datetime).
Proof.
  intros Hlen Hall Hnd Hbad Hp Hnan.
  assert (np_any (mask_of cfg instants no_position) = false) as Hmask.
  { apply mask_of_all_false, Forall_forall. intros t _. by apply nan_leb. }
  assert (stored_entry cfg true no_position instants times_datetime = None) as Hnone.
  { unfold stored_entry. cbv zeta. unfold mask_of in Hmask. simpl.
    by rewrite Hmask. }
  eexists _, _. unfold show_all.collect_satellite_data.
  split; [by apply collect_satellite_data_fold|].
  split; [by apply collect_satellite_data_fold|].
  split_and!.
  - by rewrite (collect_fold_distinct cfg w instants times_datetime true
                  satellites ∅ bad no_position Hnd Hbad Hp), Hnone, lookup_empty.
  - by rewrite (collect_fold_distinct cfg w instants times_datetime false
                  satellites ∅ bad no_position Hnd Hbad Hp).
  - unfold collect_events. rewrite Hp. simpl. unfold mask_of in Hmask.
    by rewrite Hmask.
  - unfold collect_events. by rewrite Hp.
  - intros sat at_ Hin Hsat. split.
    + by rewrite (collect_fold_distinct cfg w instants times_datetime false
                    satellites ∅ sat at_ Hnd Hin Hsat).
    + rewrite (collect_fold_distinct cfg w instants times_datetime true
                 satellites ∅ sat at_ Hnd Hin Hsat), lookup_empty.
      by destruct (stored_entry cfg true at_ instants times_datetime).
Qed.

Lemma unevaluated_element_set_is_not_reported_witness :
  ∃ filtered_satellite_data all_satellite_data e,
    show_all.collect_satellite_data config examples.world
      [examples.sat_59625; examples.sat_40115; examples.sat_59626]
      examples.six_hourly examples.six_hourly_dt true []
      = ([Propagate examples.sat_59625; Print (MsgPointsBelow "59625" 3);
          Propagate examples.sat_40115; Print (MsgNoPointsBelow "40115");
          Propagate examples.sat_59626; Print (MsgNoPointsBelow "59626")],
         Ok filtered_satellite_data) ∧
    show_all.collect_satellite_data config examples.world
      [examples.sat_59625; examples.sat_40115; examples.sat_59626]
      examples.six_hourly examples.six_hourly_dt false []
      = ([Propagate examples.sat_59625; Print (MsgTotalPoints "59625" 5);
          Propagate examples.sat_40115; Print (MsgTotalPoints "40115" 5);
          Propagate examples.sat_59626; Print (MsgTotalPoints "59626" 5)],
         Ok all_satellite_data) ∧
    filtered_satellite_data !! "40115"%string = None ∧
    all_satellite_data !! "40115"%string = Some e ∧
    is_Some (filtered_satellite_data !! "59625"%string) ∧
    is_Some (all_satellite_data !! "59626"%string).
Proof.
  destruct (unevaluated_element_set_is_not_reported config examples.world
              [examples.sat_59625; examples.sat_40115; examples.sat_59626]
              examples.six_hourly examples.six_hourly_dt examples.sat_40115
              examples.no_position [] [])
    as (fd & ad & Hf & Ha & Hfbad & Habad & _ & _ & Hothers).
  - reflexivity.
  - repeat constructor; by eexists.
  - by apply (bool_decide_unpack _).
  - right. left.
  - reflexivity.
  - intros t. reflexivity.
  - exists fd, ad, (full_entry examples.no_position examples.six_hourly
                       examples.six_hourly_dt).
    split_and!; [exact Hf|exact Ha|exact Hfbad|exact Habad| |].
    + change "59625"%string with (name examples.sat_59625).
      destruct (Hothers examples.sat_59625
                  (examples.table_subpoint examples.altitude_table))
        as [_ ->]; [left|reflexivity|]. by eexists.
    + change "59626"%string with (name examples.sat_59626).
      destruct (Hothers examples.sat_59626 (examples.table_subpoint []))
        as [-> _]; [do 2 right; left|reflexivity|]. by eexists.
Defined.

(** ** Parameters that are not positive *)

(** C2, on a sample input: with [days = 0] the time grid is built, and
    nothing is raised. *)
Lemma zero_days_builds_a_grid :
  show_all.generate_time_steps examples.world examples.new_year 0 10 =
  Ok ([instant_of examples.world examples.new_year], [examples.new_year]).
Proof. reflexivity. Qed.

Lemma main_stops_when_grid_raises (cfg : Config) (w : World) (ex : exn) :
  show_all.generate_time_steps w (utcnow w) (PREDICTION_DAYS cfg)
    (TIME_STEP_MINUTES cfg) = Raise ex →
  show_all.run (show_all.main cfg w) =
  ([Print (MsgGenerating (utcnow w) (PREDICTION_DAYS cfg))], Raise ex).
Proof.
  intros Hg. unfold show_all.run, show_all.main, mbind, M_bind, print, emit, lift.
  simpl. by rewrite Hg.
Qed.

(** C2, as the code has it. [generate_time_steps] checks nothing and has no
    configuration error of its own. With a window that fits the calendar,
    [step_minutes = 0] raises [ZeroDivisionError] and a [step_minutes]
    that does not fit [int64] raises [OverflowError]; with [days = 0] and a
    positive [step_minutes] that fits [int64] it raises nothing and returns
    the grid of the single instant [start_time]. When it raises, [main]
    stops with that exception after its first message: no element set has
    been fetched, nothing propagated, nothing rendered. *)
Theorem time_grid_checks_nothing (w : World) (start_time days step_minutes : Z) :
  datetime.valid start_time →
  (step_minutes = 0 →
   datetime.valid (start_time + days * datetime.US_PER_DAY) →
   show_all.generate_time_steps w start_time days step_minutes
     = Raise ZeroDivisionError) ∧
  (step_minutes < - 2 ^ 63 ∨ 2 ^ 63 ≤ step_minutes →
   datetime.valid (start_time + days * datetime.US_PER_DAY) →
   show_all.generate_time_steps w start_time days step_minutes
     = Raise OverflowError) ∧
  (days = 0 → 0 < step_minutes → step_minutes < 2 ^ 63 →
   show_all.generate_time_steps w start_time days step_minutes
     = Ok ([instant_of w start_time], [start_time])) ∧
  (∀ cfg ex,
     utcnow w = start_time → PREDICTION_DAYS cfg = days →
     TIME_STEP_MINUTES cfg = step_minutes →
     show_all.generate_time_steps w start_time days step_minutes = Raise ex →
     ∃ log, show_all.run (show_all.main cfg w) = (log, Raise ex) ∧
            Forall (λ e, is_collaborator_call e = false) log).
Proof.
  intros Hs.
  assert (datetime.valid (start_time + days * datetime.US_PER_DAY) →
          datetime.timedelta_days days = Ok (days * datetime.US_PER_DAY)) as Htd.
  { intros He.
    assert (- datetime.MAXORDINAL < days < datetime.MAXORDINAL) as Hlt.
    { unfold datetime.valid, datetime.US_PER_DAY, datetime.US_PER_HOUR,
        datetime.US_PER_MINUTE, datetime.US_PER_SECOND in *. lia. }
    apply timedelta_days_Ok.
    unfold datetime.MAX_DELTA_DAYS, datetime.MAXORDINAL in *. lia. }
  split_and!.
  - intros -> He. unfold show_all.generate_time_steps.
    rewrite Htd by done. simpl. by rewrite add_Ok.
  - intros Hbig He. unfold show_all.generate_time_steps.
    rewrite Htd by done. simpl. rewrite add_Ok by done. simpl.
    unfold int_truediv. rewrite bool_decide_eq_false_2 by lia. simpl.
    unfold np_int64. by rewrite bool_decide_eq_false_2 by lia.
  - intros -> Hst Hfit.
    rewrite show_all_grid; [|done|by rewrite Z.add_0_r|lia|done|done].
    unfold grid_size. rewrite Z.div_0_l by lia. simpl.
    do 4 f_equal; lia.
  - intros cfg ex <- <- <- Hg. eexists. split.
    + by apply main_stops_when_grid_raises.
    + by repeat constructor.
Qed.

Lemma time_grid_checks_nothing_witness :
  show_all.generate_time_steps examples.world examples.new_year 10 0
    = Raise ZeroDivisionError ∧
  show_all.generate_time_steps examples.world examples.new_year 0 (2 ^ 63)
    = Raise OverflowError ∧
  show_all.generate_time_steps examples.world examples.new_year 0 10
    = Ok ([instant_of examples.world examples.new_year], [examples.new_year]).
Proof.
  split_and!.
  - by apply (time_grid_checks_nothing examples.world examples.new_year 10 0).
  - apply (time_grid_checks_nothing examples.world examples.new_year 0 (2 ^ 63));
      [done|lia|done].
  - apply (time_grid_checks_nothing examples.world examples.new_year 0 10);
      [done|done|lia|lia].
Defined.

(** ** The two constructions of the time grid *)

(** For a window that fits the calendar and holds no leap second, the grid
    of [show_satellites_trajectories] is the grid of [show_all] moved back
    by the seconds of [start_time]. *)
Lemma time_grids_differ_by_seconds (w : World) (start_time days step_minutes : Z) :
  datetime.valid start_time →
  datetime.valid (start_time + days * datetime.US_PER_DAY) →
  0 < days → 0 < step_minutes → step_minutes < 2 ^ 63 →
  (∀ o, datetime.toordinal start_time ≤ o
          ≤ datetime.toordinal (start_time + days * datetime.US_PER_DAY) →
        leap_seconds w o = leap_seconds w (datetime.toordinal start_time)) →
  ∃ times times_datetime,
    show_all.generate_time_steps w start_time days step_minutes
      = Ok (times, times_datetime) ∧
    show_satellites_trajectories.generate_time_steps w start_time days step_minutes
      = Ok ((λ t, t - datetime.second start_time) <$> times).
Proof.
  intros Hs He Hd Hst Hfit Hleap. eexists _, _. split.
  { apply show_all_grid; [done|done|lia|done|done]. }
  rewrite show_satellites_trajectories_grid; [|done|done|lia|done|done].
  f_equal. rewrite <- list_fmap_compose. apply list_fmap_ext.
  intros i k Hk. simpl. apply lookup_arange in Hk as [-> Hi].
  pose proof (grid_offset_bound days step_minutes (Z.of_nat i)
                ltac:(lia) Hst ltac:(lia)) as Hb.
  unfold instant_of.
  rewrite (Hleap (datetime.toordinal
                    (start_time + step_minutes * Z.of_nat i
                                  * datetime.US_PER_MINUTE))); last first.
  { unfold datetime.toordinal.
    assert (0 < datetime.US_PER_DAY) as Hday by done.
    assert (start_time ≤ start_time
              + step_minutes * Z.of_nat i * datetime.US_PER_MINUTE
            ≤ start_time + days * datetime.US_PER_DAY) as [Hlo Hhi].
    { unfold datetime.US_PER_DAY, datetime.US_PER_HOUR, datetime.US_PER_MINUTE,
        datetime.US_PER_SECOND. lia. }
    pose proof (Z.div_le_mono _ _ _ Hday Hlo).
    pose proof (Z.div_le_mono _ _ _ Hday Hhi). lia. }
  replace (start_time + step_minutes * Z.of_nat i * datetime.US_PER_MINUTE)
    with (start_time + (step_minutes * Z.of_nat i * 60) * datetime.US_PER_SECOND)
    by (unfold datetime.US_PER_MINUTE; lia).
  rewrite Z.div_add by done.
  unfold datetime.second. rewrite div_minute.
  pose proof (Z.div_mod (start_time `div` datetime.US_PER_SECOND) 60). lia.
Qed.

(** C8, at a start time off the whole minute: from 2024-01-01T00:00:30,
    for one day in steps of 60 minutes, the grid of [show_all] starts at
    00:00:30 and the grid of [show_satellites_trajectories] at 00:00:00;
    the two sequences of instants differ. *)
Lemma time_grids_differ_off_the_minute :
  ∃ times times_datetime times',
    show_all.generate_time_steps examples.world
      (datetime.make 2024 1 1 0 0 30 0) 1 60 = Ok (times, times_datetime) ∧
    show_satellites_trajectories.generate_time_steps examples.world
      (datetime.make 2024 1 1 0 0 30 0) 1 60 = Ok times' ∧
    times !! 0%nat
      = Some (skyfield.utc1 (leap_seconds examples.world)
                (datetime.ymd2ord 2024 1 1) 0 0 30) ∧
    times' !! 0%nat
      = Some (skyfield.utc1 (leap_seconds examples.world)
                (datetime.ymd2ord 2024 1 1) 0 0 0) ∧
    times ≠ times'.
Proof.
  eexists _, _, _. split; [reflexivity|]. split; [reflexivity|].
  split; [reflexivity|]. split; [reflexivity|].
  intros Heq. apply (f_equal (λ l, l !! 0%nat)) in Heq.
  vm_compute in Heq. congruence.
Qed.

(** ** Admission of satellites and the whole run *)

Section admission.
Context (w : World).

Lemma omap_element_set_cons (sat_id : Z) (ids : list Z) :
  omap (element_set w) (sat_id :: ids) =
  option_list (element_set w sat_id) ++ omap (element_set w) ids.
Proof. simpl. by destruct (element_set w sat_id). Qed.

Lemma name_element_set (sat_id : Z) (sat : Satellite) :
  element_set w sat_id = Some sat → name sat = str sat_id.
Proof.
  unfold element_set. intros H.
  repeat (case_match; simplify_eq); done.
Qed.

(** One round of the admission loop: one request, no other collaborator.
    An id without a usable element set is reported as skipped; for a
    usable one the constructor decides between appending the satellite and
    leaving the loop with its exception. *)
Lemma admit_one_calls (sat_id : Z) (satellites : list Satellite) (log : list event) :
  ∃ evs r,
    show_all.admit_one w sat_id satellites log = (log ++ evs, r) ∧
    omap fetched evs = [sat_id] ∧ omap propagated evs = [] ∧
    omap rendered evs = [] ∧
    match element_set w sat_id with
    | None =>
        r = Ok satellites ∧
        (∀ id', Print (MsgSkipping id') ∈ evs ↔ id' = sat_id)
    | Some sat =>
        (∀ id', Print (MsgSkipping id') ∉ evs) ∧
        r = match init_of w sat with
            | Ok _ => Ok (satellites ++ [sat])
            | Raise e => Raise e
            end
    end.
Proof.
  unfold show_all.admit_one, show_all.fetch_tle, element_set, init_of, try_except,
    mbind, M_bind, mret, M_ret, print, emit, lift.
  simpl.
  destruct (http_json w sat_id) as [[tle|]|ex]; simpl;
    [destruct (nonempty tle); simpl;
     [destruct (splitlines w tle) as [|l0 [|l1 rest]]; simpl;
      [| |destruct (nonempty l0 && nonempty l1); simpl;
          [destruct (EarthSatellite_init w l0 l1 (str sat_id)); simpl|]]|]| |];
    rewrite <- ?app_assoc; eexists _, _; (split; [done|]);
    (split_and!; [done..| |]); try done; intros id'; set_solver.
Qed.

(** The admission loop, call by call. It calls no collaborator but the
    source of element sets and the constructor. When it returns, it has
    sent one request per id, in order, the constructor has accepted every
    usable element set, and the ids without one are those reported as
    skipped; when it raises, the exception is that of the constructor for
    the first usable element set that it rejects, and the requests stop
    with that id. *)
Lemma admission_calls (ids : list Z) (satellites : list Satellite) (log : list event) :
  ∃ evs r,
    for_each ids (show_all.admit_one w) satellites log = (log ++ evs, r) ∧
    omap propagated evs = [] ∧ omap rendered evs = [] ∧
    match r with
    | Ok admitted =>
        admitted = satellites ++ omap (element_set w) ids ∧
        omap fetched evs = ids ∧
        Forall (λ sat, is_Ok (init_of w sat)) (omap (element_set w) ids) ∧
        (∀ sat_id, Print (MsgSkipping sat_id) ∈ evs ↔
                   sat_id ∈ ids ∧ element_set w sat_id = None)
    | Raise e =>
        ∃ before sat_id after sat,
          ids = before ++ sat_id :: after ∧
          omap fetched evs = before ++ [sat_id] ∧
          Forall (λ sat, is_Ok (init_of w sat)) (omap (element_set w) before) ∧
          element_set w sat_id = Some sat ∧ init_of w sat = Raise e
    end.
Proof.
  revert satellites log. induction ids as [|sat_id ids IH]; intros satellites log.
  { exists [], (Ok satellites). simpl. unfold mret, M_ret. rewrite !app_nil_r.
    split_and!; try done. intros id'. set_solver. }
  destruct (admit_one_calls sat_id satellites log)
    as (evs1 & r1 & H1 & Hf1 & Hp1 & Hr1 & Hcase).
  cbn [for_each]. unfold mbind, M_bind at 1. rewrite H1.
  rewrite omap_element_set_cons.
  destruct (element_set w sat_id) as [sat|] eqn:Hsat.
  - destruct Hcase as [Hskip ->].
    destruct (init_of w sat) as [u|e] eqn:Hinit.
    + destruct (IH (satellites ++ [sat]) (log ++ evs1))
        as (evs2 & r2 & H2 & Hp2 & Hr2 & Hcase2).
      exists (evs1 ++ evs2), r2. rewrite H2, app_assoc, !omap_app, Hp1, Hp2, Hr1, Hr2.
      split_and!; [done..|].
      destruct r2 as [admitted|e].
      * destruct Hcase2 as (-> & Hf2 & Hall2 & Hskip2).
        rewrite Hf1, Hf2. split_and!.
        -- by rewrite <- app_assoc.
        -- done.
        -- simpl. constructor; [by eexists|done].
        -- intros id'. rewrite elem_of_app, Hskip2, elem_of_cons.
           split.
           ++ intros [Hin|[Hin Hnone]]; [by apply Hskip in Hin|by auto].
           ++ intros [[->|Hin] Hnone]; [congruence|by right].
      * destruct Hcase2 as (before & id2 & after & sat2 & -> & Hf2 & Hall2 & Hs2 & Hi2).
        exists (sat_id :: before), id2, after, sat2.
        rewrite Hf1, Hf2. split_and!; try done.
        rewrite omap_element_set_cons, Hsat. simpl.
        constructor; [by eexists|done].
    + exists evs1, (Raise e). split_and!; [done..|].
      exists [], sat_id, ids, sat. by split_and!.
  - destruct Hcase as [-> Hskip].
    destruct (IH satellites (log ++ evs1)) as (evs2 & r2 & H2 & Hp2 & Hr2 & Hcase2).
    exists (evs1 ++ evs2), r2. rewrite H2, app_assoc, !omap_app, Hp1, Hp2, Hr1, Hr2.
    split_and!; [done..|].
    destruct r2 as [admitted|e].
    + destruct Hcase2 as (-> & Hf2 & Hall2 & Hskip2).
      rewrite Hf1, Hf2. split_and!; try done.
      intros id'. rewrite elem_of_app, Hskip, Hskip2, elem_of_cons.
      split.
      * intros [->|[Hin Hnone]]; by auto.
      * intros [[->|Hin] Hnone]; [by left|by right].
    + destruct Hcase2 as (before & id2 & after & sat2 & -> & Hf2 & Hall2 & Hs2 & Hi2).
      exists (sat_id :: before), id2, after, sat2.
      rewrite Hf1, Hf2. split_and!; try done.
      by rewrite omap_element_set_cons, Hsat.
Qed.

End admission.



Section whole_run.
Context (cfg : Config) (w : World).
Context (instants : list skyfield.time) (times_datetime : list datetime.t).
Context (Hgrid : show_all.generate_time_steps w (utcnow w) (PREDICTION_DAYS cfg)
                   (TIME_STEP_MINUTES cfg) = Ok (instants, times_datetime)).
Context (Hlen : length times_datetime = length instants).
Context (Hsat : ∀ sat_id sat, sat_id ∈ SATELLITE_IDS cfg →
                  element_set w sat_id = Some sat →
                  is_Ok (init_of w sat) ∧ is_Ok (propagate w sat)).
Context (Hplot : ∀ data, is_Ok (plot_filtered_orbits w data) ∧
                         is_Ok (plot_all_orbits w data)).




End whole_run.






(** * Further properties *)

(** ** Fetching element sets in [show_all.py] *)





(** X4. Configured ids without duplicates give satellites with distinct
    names: the keys of the dictionaries of a run tell the satellites
    apart. *)
Theorem distinct_ids_give_distinct_names (w : World) (ids : list Z)
    (log log' : list event) (satellites : list Satellite) :
  NoDup ids →
  for_each ids (show_all.admit_one w) [] log = (log', Ok satellites) →
  NoDup (name <$> satellites).
Proof.
  intros Hnd Hrun.
  destruct (admission_calls w ids [] log) as (evs & r & Hloop & _ & _ & Hcase).
  rewrite Hloop in Hrun. injection Hrun as _ ->.
  destruct Hcase as (-> & _). simpl.
  clear Hloop. induction Hnd as [|sat_id ids Hnotin Hnd IH]; simpl; [constructor|].
  destruct (element_set w sat_id) as [sat|] eqn:Hsat; [|done].
  simpl. constructor; [|done].
  rewrite (name_element_set w sat_id sat Hsat).
  intros (sat' & Hn & (sat_id' & Hin & Hsat')%list_elem_of_omap)%list_elem_of_fmap.
  rewrite (name_element_set w sat_id' sat' Hsat') in Hn.
  apply (inj pretty) in Hn as ->. done.
Qed.

Lemma distinct_ids_give_distinct_names_witness :
  ∃ log' satellites,
    for_each (SATELLITE_IDS config) (show_all.admit_one examples.calm_world) [] []
      = (log', Ok satellites) ∧
    NoDup (name <$> satellites).
Proof.
  destruct (for_each (SATELLITE_IDS config) (show_all.admit_one examples.calm_world)
              [] []) as [log' [satellites|ex]] eqn:Hrun; [|by vm_compute in Hrun].
  exists log', satellites. split; [done|].
  apply (distinct_ids_give_distinct_names examples.calm_world (SATELLITE_IDS config)
           [] log' satellites); [|done].
  by apply (bool_decide_unpack _).
Defined.

(** ** More on the time grid *)

(** X5. A window that ends outside the calendar makes both constructions
    of the time grid raise [OverflowError], and this comes before the
    division: it is the error also when [step_minutes = 0]. *)
Theorem window_outside_calendar_overflows (w : World)
    (start_time days step_minutes : Z) :
  ¬ datetime.valid (start_time + days * datetime.US_PER_DAY) →
  show_all.generate_time_steps w start_time days step_minutes
    = Raise OverflowError ∧
  show_satellites_trajectories.generate_time_steps w start_time days step_minutes
    = Raise OverflowError.
Proof.
  intros Hout.
  unfold show_all.generate_time_steps,
    show_satellites_trajectories.generate_time_steps.
  unfold datetime.timedelta_days, datetime.timedelta_of_us.
  case_bool_decide; simpl; [|done].
  unfold datetime.add, datetime.in_range.
  by rewrite bool_decide_eq_false_2.
Qed.

Lemma window_outside_calendar_overflows_witness :
  show_all.generate_time_steps examples.world more_examples.last_day 1 0
    = Raise OverflowError ∧
  show_satellites_trajectories.generate_time_steps examples.world
    more_examples.last_day 1 0 = Raise OverflowError.
Proof.
  apply (window_outside_calendar_overflows examples.world more_examples.last_day 1 0).
  vm_compute. intros [_ H]. discriminate.
Defined.

(** X6. For a positive [step_minutes] that fits [int64], the grid stays
    inside its window: every instant lies between
    [start_time] and [start_time] plus [days] days, the last one is less
    than one step before the end of the window, and it is the end of the
    window exactly when [step_minutes] divides [days*24*60]. *)
Theorem grid_stays_inside_window (w : World) (start_time days step_minutes : Z) :
  datetime.valid start_time →
  datetime.valid (start_time + days * datetime.US_PER_DAY) →
  0 < days → 0 < step_minutes → step_minutes < 2 ^ 63 →
  ∃ times times_datetime last_instant,
    show_all.generate_time_steps w start_time days step_minutes
      = Ok (times, times_datetime) ∧
    Forall (λ t, start_time ≤ t ≤ start_time + days * datetime.US_PER_DAY)
      times_datetime ∧
    last times_datetime = Some last_instant ∧
    start_time + days * datetime.US_PER_DAY - last_instant
      < step_minutes * datetime.US_PER_MINUTE ∧
    (last_instant = start_time + days * datetime.US_PER_DAY ↔
     (days * 24 * 60) `mod` step_minutes = 0).
Proof.
  intros Hs He Hd Hst Hfit.
  pose proof (show_all_grid w start_time days step_minutes Hs He ltac:(lia) Hst Hfit)
    as Hgrid.
  pose proof (Z.div_mod (days * 24 * 60) step_minutes ltac:(lia)) as Hdm.
  pose proof (Z.mod_pos_bound (days * 24 * 60) step_minutes Hst) as Hmod.
  assert (0 ≤ (days * 24 * 60) `div` step_minutes) as Hq by (apply Z.div_pos; lia).
  eexists _, _, (start_time + step_minutes * ((days * 24 * 60) `div` step_minutes)
                              * datetime.US_PER_MINUTE).
  split; [exact Hgrid|]. split_and!.
  - apply Forall_fmap, Forall_forall. intros k Hk. simpl.
    unfold arange in Hk. apply elem_of_seqZ in Hk.
    pose proof (grid_offset_bound days step_minutes k ltac:(lia) Hst ltac:(lia)).
    unfold datetime.US_PER_DAY, datetime.US_PER_HOUR, datetime.US_PER_MINUTE,
      datetime.US_PER_SECOND. lia.
  - unfold arange, grid_size.
    replace ((days * 24 * 60) `div` step_minutes + 1)
      with (Z.of_nat (S (Z.to_nat ((days * 24 * 60) `div` step_minutes)))) by lia.
    rewrite seqZ_S, fmap_app. cbn [fmap list_fmap]. rewrite last_snoc.
    by replace (0 + Z.of_nat (Z.to_nat ((days * 24 * 60) `div` step_minutes)))
      with ((days * 24 * 60) `div` step_minutes) by lia.
  - unfold datetime.US_PER_DAY, datetime.US_PER_HOUR, datetime.US_PER_MINUTE,
      datetime.US_PER_SECOND. lia.
  - unfold datetime.US_PER_DAY, datetime.US_PER_HOUR, datetime.US_PER_MINUTE,
      datetime.US_PER_SECOND. lia.
Qed.

Lemma grid_stays_inside_window_witness :
  ∃ times times_datetime,
    show_all.generate_time_steps examples.world examples.new_year 1 420
      = Ok (times, times_datetime) ∧
    last times_datetime = Some (datetime.make 2024 1 1 21 0 0 0).
Proof.
  destruct (grid_stays_inside_window examples.world examples.new_year 1 420)
    as (times & times_datetime & last_instant & Hrun & _ & Hlast & _);
    [by vm_compute|by vm_compute|lia|lia|lia|].
  exists times, times_datetime. split; [exact Hrun|].
  vm_compute in Hrun. injection Hrun as _ <-. reflexivity.
Defined.

(** X7. Whenever [generate_time_steps] of [show_all] returns a non-empty
    grid, each Skyfield time is the datetime of the same position cut to
    its whole second (as an instant: that second plus the leap-second
    offset of its date): the microseconds of [start_time] are dropped from
    the instants at which positions are computed, but kept in the datetimes
    that label them. *)
Theorem skyfield_times_drop_microseconds (w : World)
    (start_time days step_minutes : Z)
    (times : list skyfield.time) (times_datetime : list datetime.t) :
  show_all.generate_time_steps w start_time days step_minutes
    = Ok (times, times_datetime) →
  times_datetime ≠ [] →
  times = (λ dt, dt `div` datetime.US_PER_SECOND
                 + leap_seconds w (datetime.toordinal dt)) <$> times_datetime ∧
  Forall2 (λ t dt, 0 ≤ dt - (t - leap_seconds w (datetime.toordinal dt))
                            * datetime.US_PER_SECOND < datetime.US_PER_SECOND)
    times times_datetime.
Proof.
  unfold show_all.generate_time_steps. intros Hrun Hne.
  destruct (datetime.timedelta_days days) as [td|]; simpl in Hrun; [|done].
  destruct (datetime.add start_time td) as [end_time|]; simpl in Hrun; [|done].
  destruct (int_truediv (days * 24 * 60) step_minutes) as [q|]; simpl in Hrun; [|done].
  destruct (np_int64 step_minutes) as [step|]; simpl in Hrun; [|done].
  destruct (traverse _ _) as [tdt|]; simpl in Hrun; [|done].
  destruct (ts_utc_lists w _ _ _ _) as [ts|] eqn:Hutc; simpl in Hrun; [|done].
  injection Hrun as -> ->.
  rewrite (ts_utc_lists_datetimes w times_datetime Hne) in Hutc.
  injection Hutc as <-. split; [done|].
  apply Forall2_fmap_l, Forall_Forall2_diag, Forall_forall. intros dt _.
  unfold instant_of.
  pose proof (Z.div_mod dt datetime.US_PER_SECOND ltac:(done)).
  pose proof (Z.mod_pos_bound dt datetime.US_PER_SECOND ltac:(done)).
  unfold datetime.US_PER_SECOND in *. simpl. lia.
Qed.

Lemma skyfield_times_drop_microseconds_witness :
  ∃ times times_datetime,
    show_all.generate_time_steps examples.world
      (datetime.make 2024 1 1 0 0 30 250000) 1 720 = Ok (times, times_datetime) ∧
    times_datetime = [datetime.make 2024 1 1 0 0 30 250000;
                      datetime.make 2024 1 1 12 0 30 250000;
                      datetime.make 2024 1 2 0 0 30 250000] ∧
    times = instant_of examples.world
              <$> [datetime.make 2024 1 1 0 0 30 0;
                   datetime.make 2024 1 1 12 0 30 0;
                   datetime.make 2024 1 2 0 0 30 0].
Proof.
  destruct (show_all.generate_time_steps examples.world
              (datetime.make 2024 1 1 0 0 30 250000) 1 720)
    as [[times times_datetime]|ex] eqn:Hrun; [|by vm_compute in Hrun].
  exists times, times_datetime. split; [done|].
  destruct (skyfield_times_drop_microseconds examples.world
              (datetime.make 2024 1 1 0 0 30 250000) 1 720 times times_datetime Hrun)
    as [Htimes _].
  { vm_compute in Hrun. by injection Hrun as _ <-. }
  vm_compute in Hrun. injection Hrun as <- <-. split; reflexivity.
Defined.

(** An offset of whole minutes back in time, inside a window that reaches
    [-days] days back. *)
Lemma add_minutes_back_Ok (start days m : Z) :
  datetime.valid start → datetime.valid (start + days * datetime.US_PER_DAY) →
  days ≤ 0 → days * 24 * 60 ≤ m ≤ 0 →
  (d ← datetime.timedelta_minutes m; datetime.add start d)
    = Ok (start + m * datetime.US_PER_MINUTE).
Proof.
  unfold datetime.valid. intros Hs He Hd Hm.
  assert (- datetime.MAXORDINAL < days) as Hlt.
  { unfold datetime.US_PER_DAY, datetime.US_PER_HOUR, datetime.US_PER_MINUTE,
      datetime.US_PER_SECOND in *. lia. }
  unfold datetime.timedelta_minutes, datetime.timedelta_of_us.
  assert (days ≤ (m * datetime.US_PER_MINUTE) `div` datetime.US_PER_DAY ≤ 0) as Hq.
  { split.
    - apply Z.div_le_lower_bound;
        unfold datetime.US_PER_DAY, datetime.US_PER_HOUR, datetime.US_PER_MINUTE,
          datetime.US_PER_SECOND; lia.
    - assert ((m * datetime.US_PER_MINUTE) `div` datetime.US_PER_DAY
              ≤ 0 `div` datetime.US_PER_DAY) as Hle; [|by rewrite Z.div_0_l in Hle].
      apply Z.div_le_mono; [done|].
      unfold datetime.US_PER_MINUTE, datetime.US_PER_SECOND. lia. }
  rewrite bool_decide_eq_true_2
    by (unfold datetime.MAX_DELTA_DAYS, datetime.MAXORDINAL in *; lia).
  simpl. apply add_Ok. unfold datetime.valid.
  unfold datetime.US_PER_DAY, datetime.US_PER_HOUR, datetime.US_PER_MINUTE,
    datetime.US_PER_SECOND in *. lia.
Qed.

(** X8. Negative parameters are not rejected: with [days < 0] and a
    negative [step_minutes] that fits [int64] (and a window that fits the
    calendar) [show_all]'s
    [generate_time_steps] returns a grid of [floor(days*24*60/step_minutes) + 1]
    instants that starts at [start_time] and runs backwards in time, each
    datetime [|step_minutes|] minutes before the previous one. *)
Theorem negative_parameters_run_backwards (w : World)
    (start_time days step_minutes : Z) :
  datetime.valid start_time →
  datetime.valid (start_time + days * datetime.US_PER_DAY) →
  days < 0 → step_minutes < 0 → - 2 ^ 63 ≤ step_minutes →
  ∃ times,
    show_all.generate_time_steps w start_time days step_minutes =
      Ok (times,
          (λ i, start_time + step_minutes * i * datetime.US_PER_MINUTE) <$>
            arange (grid_size days step_minutes)) ∧
    0 < grid_size days step_minutes ∧
    length times = Z.to_nat (grid_size days step_minutes).
Proof.
  intros Hs He Hd Hst Hfit. unfold show_all.generate_time_steps.
  assert (- datetime.MAXORDINAL < days) as Hlt.
  { unfold datetime.valid, datetime.US_PER_DAY, datetime.US_PER_HOUR,
      datetime.US_PER_MINUTE, datetime.US_PER_SECOND in *. lia. }
  rewrite timedelta_days_Ok
    by (unfold datetime.MAX_DELTA_DAYS, datetime.MAXORDINAL in *; lia).
  simpl. rewrite add_Ok by done. simpl.
  unfold int_truediv. rewrite bool_decide_eq_false_2 by lia. simpl.
  assert ((days * 24 * 60) `quot` step_minutes = (days * 24 * 60) `div` step_minutes)
    as ->.
  { rewrite <- (Z.quot_opp_opp (days * 24 * 60) step_minutes) by lia.
    rewrite Z.quot_div_nonneg by lia.
    rewrite Z.div_opp_opp by lia. done. }
  fold (grid_size days step_minutes).
  assert (0 ≤ (days * 24 * 60) `div` step_minutes) as Hq.
  { rewrite <- Z.div_opp_opp by lia. apply Z.div_pos; lia. }
  assert (0 < grid_size days step_minutes) as Hn by (unfold grid_size; lia).
  rewrite np_int64_Ok by lia. simpl.
  rewrite (traverse_Ok _ (λ m, start_time + m * datetime.US_PER_MINUTE)); last first.
  { apply Forall_fmap, Forall_forall. intros k Hk. simpl.
    apply (add_minutes_back_Ok start_time days); [done|done|lia|].
    unfold arange in Hk. apply elem_of_seqZ in Hk. unfold grid_size in Hk.
    split; [|nia].
    assert (- step_minutes * k ≤ - (days * 24 * 60)); [|lia].
    transitivity (- step_minutes * ((- (days * 24 * 60)) `div` (- step_minutes))).
    - apply Z.mul_le_mono_nonneg_l; [lia|]. rewrite Z.div_opp_opp by lia. lia.
    - apply Z.mul_div_le. lia. }
  simpl. rewrite ts_utc_lists_datetimes; last first.
  { intros E. apply fmap_nil_inv, fmap_nil_inv in E.
    by apply (arange_pos_ne_nil (grid_size days step_minutes)). }
  simpl. eexists. split_and!; [|done|].
  - do 2 f_equal. rewrite <- !list_fmap_compose. by apply list_fmap_ext.
  - unfold arange. by rewrite !length_fmap, length_seqZ.
Qed.

Lemma negative_parameters_run_backwards_witness :
  ∃ times,
    show_all.generate_time_steps examples.world examples.new_year (-1) (-720) =
      Ok (times, [datetime.make 2024 1 1 0 0 0 0; datetime.make 2023 12 31 12 0 0 0;
                  datetime.make 2023 12 31 0 0 0 0]).
Proof.
  destruct (negative_parameters_run_backwards examples.world examples.new_year
              (-1) (-720)) as (times & Hrun & _);
    [by vm_compute|by vm_compute|lia|lia|lia|].
  exists times. exact Hrun.
Defined.

(** X9. For a window that fits the calendar and a positive
    [step_minutes] that fits [int64], the grid of
    [show_satellites_trajectories] has the same number of instants as the
    grid of [show_all]; it starts at the whole minute of [start_time] and
    advances by [step_minutes] minutes of elapsed time under the
    leap-second offset of the date of [start_time]. The two grids are equal
    exactly when [start_time] has no seconds and the offset is the same on
    the date of every instant of the grid: not when a leap second falls
    inside the grid. *)
Theorem minute_grid_of_show_satellites_trajectories (w : World)
    (start_time days step_minutes : Z) :
  datetime.valid start_time →
  datetime.valid (start_time + days * datetime.US_PER_DAY) →
  0 < days → 0 < step_minutes → step_minutes < 2 ^ 63 →
  ∃ times times_datetime times',
    show_all.generate_time_steps w start_time days step_minutes
      = Ok (times, times_datetime) ∧
    show_satellites_trajectories.generate_time_steps w start_time days step_minutes
      = Ok times' ∧
    length times' = length times ∧
    (∀ i t, times' !! i = Some t →
            t = (start_time `div` datetime.US_PER_MINUTE) * 60
                + leap_seconds w (datetime.toordinal start_time)
                + Z.of_nat i * (step_minutes * 60)) ∧
    (times' = times ↔
     datetime.second start_time = 0 ∧
     Forall (λ dt, leap_seconds w (datetime.toordinal dt)
                   = leap_seconds w (datetime.toordinal start_time))
       times_datetime).
Proof.
  intros Hs He Hd Hst Hfit.
  pose proof (grid_size_pos days step_minutes ltac:(lia) Hst) as Hn.
  eexists _, _, _.
  split; [apply show_all_grid; [done|done|lia|done|done]|].
  split; [apply show_satellites_trajectories_grid; [done|done|lia|done|done]|].
  split_and!.
  - by rewrite !length_fmap.
  - intros i t Hi. rewrite list_lookup_fmap in Hi.
    apply fmap_Some in Hi as (k & [-> _]%lookup_arange & ->). lia.
  - assert (∀ k, instant_of w (start_time + step_minutes * k * datetime.US_PER_MINUTE)
                 = start_time `div` datetime.US_PER_MINUTE * 60
                   + step_minutes * k * 60 + datetime.second start_time
                   + leap_seconds w (datetime.toordinal
                       (start_time + step_minutes * k * datetime.US_PER_MINUTE)))
      as Hinst.
    { intros k. unfold instant_of.
      replace (start_time + step_minutes * k * datetime.US_PER_MINUTE)
        with (start_time + (step_minutes * k * 60) * datetime.US_PER_SECOND) at 1
        by (unfold datetime.US_PER_MINUTE; lia).
      rewrite Z.div_add by done. unfold datetime.second. rewrite div_minute.
      pose proof (Z.div_mod (start_time `div` datetime.US_PER_SECOND) 60). lia. }
    pose proof (Z.mod_pos_bound (start_time `div` datetime.US_PER_SECOND) 60
                  ltac:(lia)) as Hsec.
    fold (datetime.second start_time) in Hsec.
    rewrite <- Forall_fmap_ext, Forall_fmap. split.
    + intros Hall.
      assert (datetime.second start_time = 0) as H0.
      { rewrite Forall_forall in Hall. specialize (Hall 0).
        rewrite Hinst in Hall. unfold arange in Hall.
        rewrite elem_of_seqZ in Hall. specialize (Hall ltac:(lia)).
        replace (start_time + step_minutes * 0 * datetime.US_PER_MINUTE)
          with start_time in Hall by lia. lia. }
      split; [done|]. eapply Forall_impl; [exact Hall|].
      intros k Hk. cbn beta in Hk. unfold compose. rewrite Hinst in Hk. lia.
    + intros [H0 Hall]. eapply Forall_impl; [exact Hall|].
      intros k Hk. unfold compose in Hk. cbn beta. rewrite Hinst. lia.
Qed.

Lemma minute_grid_of_show_satellites_trajectories_witness :
  (∃ times times_datetime times',
     show_all.generate_time_steps examples.world examples.new_year 1 60
       = Ok (times, times_datetime) ∧
     show_satellites_trajectories.generate_time_steps examples.world
       examples.new_year 1 60 = Ok times' ∧
     times' = times) ∧
  (∃ times times_datetime times',
     show_all.generate_time_steps examples.world
       (datetime.make 2016 12 31 12 0 0 0) 1 720 = Ok (times, times_datetime) ∧
     show_satellites_trajectories.generate_time_steps examples.world
       (datetime.make 2016 12 31 12 0 0 0) 1 720 = Ok times' ∧
     times' ≠ times).
Proof.
  split.
  - destruct (minute_grid_of_show_satellites_trajectories examples.world
                examples.new_year 1 60)
      as (times & times_datetime & times' & Hall & Hsst & _ & _ & Hiff);
      [by vm_compute|by vm_compute|lia|lia|lia|].
    exists times, times_datetime, times'. split; [done|]. split; [done|].
    apply Hiff. split; [reflexivity|].
    vm_compute in Hall. injection Hall as _ <-.
    apply Forall_forall. intros dt Hdt.
    repeat (apply elem_of_cons in Hdt as [->|Hdt]; [reflexivity|]).
    by apply elem_of_nil in Hdt.
  - destruct (minute_grid_of_show_satellites_trajectories examples.world
                (datetime.make 2016 12 31 12 0 0 0) 1 720)
      as (times & times_datetime & times' & Hall & Hsst & _ & _ & Hiff);
      [by vm_compute|by vm_compute|lia|lia|lia|].
    exists times, times_datetime, times'. split; [done|]. split; [done|].
    intros [_ Hleap]%Hiff.
    vm_compute in Hall. injection Hall as _ <-.
    apply Forall_cons in Hleap as [_ Hleap].
    apply Forall_cons in Hleap as [Hleap _]. by vm_compute in Hleap.
Defined.

(** ** More on the collection *)

Lemma np_sum_compress {A} (mask : list bool) (l : list A) :
  length mask = length l → np_sum mask = Z.of_nat (length (compress mask l)).
Proof.
  unfold np_sum. revert l. induction mask as [|m mask IH]; intros [|x l] Hlen;
    simpl in *; try done.
  injection Hlen as Hlen. specialize (IH l Hlen).
  rewrite filter_cons. destruct m; simpl.
  - destruct (decide (true = true)); [|done]. simpl. lia.
  - destruct (decide (false = true)); [done|]. done.
Qed.

(** X10. The counts that [collect_satellite_data] prints are the lengths of
    what it stores: the number of points reported below the threshold is
    the (positive) number of samples of the entry stored for that
    satellite, the total reported without the filter is the number of
    samples of the stored entry, and after the message that no point is
    below the threshold the dictionary is unchanged. *)
Theorem printed_counts_match_stored (cfg : Config) (w : World)
    (instants : list skyfield.time) (times_datetime : list datetime.t)
    (filter_altitude : bool) (sat : Satellite) (data : gmap string Entry)
    (log : list event) (at_ : skyfield.time → Subpoint) :
  propagate w sat = Ok at_ →
  length times_datetime = length instants →
  ∃ m data',
    show_all.collect_one cfg w instants times_datetime filter_altitude sat data log
      = (log ++ [Propagate sat; Print m], Ok data') ∧
    match m with
    | MsgPointsBelow nm n =>
        nm = name sat ∧ filter_altitude = true ∧ 0 < n ∧
        ∃ e, data' !! nm = Some e ∧ n = Z.of_nat (length (samples e)) ∧
             n = Z.of_nat (length (altitude_km e))
    | MsgNoPointsBelow nm =>
        nm = name sat ∧ filter_altitude = true ∧ data' = data
    | MsgTotalPoints nm n =>
        nm = name sat ∧ filter_altitude = false ∧
        ∃ e, data' !! nm = Some e ∧ n = Z.of_nat (length (samples e)) ∧
             n = Z.of_nat (length instants)
    | _ => False
    end.
Proof.
  intros Hp Hlen.
  pose proof (aligned_full_entry instants times_datetime at_ Hlen) as Hu.
  destruct filter_altitude.
  - rewrite (collect_one_filtered cfg w instants times_datetime sat data log at_ Hp Hlen).
    set (u := full_entry at_ instants times_datetime) in *.
    set (mask := altitude_mask (MAX_ALTITUDE_KM cfg) (altitude_km u)).
    assert (length mask = length (altitude_km u)) as Hm
      by (unfold mask, altitude_mask; by rewrite length_fmap).
    destruct (np_any mask) eqn:Hany.
    + eexists _, _. split; [done|]. simpl.
      pose proof (aligned_masked mask u Hu) as Hmu.
      assert (length (altitude_km (masked mask u)) = length (samples (masked mask u)))
        as Hls.
      { rewrite (aligned_length_samples _ Hmu). by destruct Hmu as (_ & _ & _ & ->). }
      assert (np_sum mask = Z.of_nat (length (altitude_km (masked mask u)))) as Hsum
        by (by apply np_sum_compress).
      split_and!; [done|done| |].
      * rewrite Hsum.
        change (altitude_km (masked mask u)) with (compress mask (altitude_km u)).
        pose proof (np_any_true_compress mask (altitude_km u) Hany Hm) as Hne.
        assert (length (compress mask (altitude_km u)) ≠ 0%nat)
          by (by intros ?%nil_length_inv).
        lia.
      * exists (masked mask u). rewrite lookup_insert_eq.
        split_and!; [done| |done]. by rewrite Hsum, Hls.
    + eexists _, _. split; [done|]. done.
  - rewrite (collect_one_all cfg w instants times_datetime sat data log at_ Hp).
    eexists _, _. split; [done|]. simpl. split_and!; [done|done|].
    eexists. rewrite lookup_insert_eq. split_and!; [done| |done].
    rewrite (aligned_length_samples _ Hu). simpl. by rewrite Hlen.
Qed.

Lemma printed_counts_match_stored_witness :
  ∃ data',
    show_all.collect_one config examples.world examples.six_hourly
      examples.six_hourly_dt true examples.sat_59625 ∅ []
    = ([Propagate examples.sat_59625; Print (MsgPointsBelow "59625" 3)], Ok data').
Proof.
  destruct (printed_counts_match_stored config examples.world examples.six_hourly
              examples.six_hourly_dt true examples.sat_59625 ∅ []
              (examples.table_subpoint examples.altitude_table))
    as (m & data' & Hrun & Hm); [reflexivity|reflexivity|].
  exists data'. rewrite Hrun. simpl. do 3 f_equal.
  assert (Hm' := f_equal fst Hrun). vm_compute in Hm'.
  by injection Hm' as ->.
Defined.

(** The unfiltered call, whatever the length of [times_datetime]. *)
Lemma collect_all_inv (cfg : Config) (w : World) (instants : list skyfield.time)
    (times_datetime : list datetime.t) (satellites : list Satellite)
    (data : gmap string Entry) (log log' : list event) (d : gmap string Entry) :
  for_each satellites (show_all.collect_one cfg w instants times_datetime false)
    data log = (log', Ok d) →
  Forall (λ sat, is_Ok (propagate w sat)) satellites ∧
  d = foldl (collect_step cfg w instants times_datetime false) data satellites.
Proof.
  revert data log. induction satellites as [|sat satellites IH]; intros data log; simpl.
  { unfold mret, M_ret. intros [= _ <-]. by split. }
  unfold mbind, M_bind at 1.
  destruct (propagate w sat) as [at_|ex] eqn:Hp.
  - rewrite (collect_one_all cfg w instants times_datetime sat data log at_ Hp).
    intros [Hall ->]%IH. split.
    + constructor; [|done]. rewrite Hp. by eexists.
    + assert (collect_step cfg w instants times_datetime false data sat
              = <[name sat := full_entry at_ instants times_datetime]> data) as ->
        by (unfold collect_step; by rewrite Hp).
      done.
  - by rewrite (collect_one_Raise cfg w instants times_datetime false sat data log ex Hp).
Qed.

Lemma collect_fold_untouched (cfg : Config) (w : World)
    (instants : list skyfield.time) (times_datetime : list datetime.t)
    (flag : bool) (satellites : list Satellite) (data : gmap string Entry)
    (n : string) :
  Forall (λ sat, name sat = n →
                 ∀ at_, propagate w sat = Ok at_ →
                        stored_entry cfg flag at_ instants times_datetime = None)
    satellites →
  foldl (collect_step cfg w instants times_datetime flag) data satellites !! n
    = data !! n.
Proof.
  intros Hall. revert data. induction Hall as [|sat satellites Hsat _ IH];
    intros data; simpl; [done|].
  rewrite IH. unfold collect_step.
  destruct (propagate w sat) as [at_|] eqn:Hp; [|done].
  destruct (stored_entry _ _ _ _ _) as [e|] eqn:Hs; [|done].
  destruct (decide (name sat = n)) as [Hn|Hn].
  - by rewrite (Hsat Hn at_ eq_refl) in Hs.
  - by rewrite lookup_insert_ne.
Qed.

(** X11. Entries are keyed by name and a later satellite replaces an
    earlier one of the same name: without the filter, the entry found under
    a name is the trajectory of the last satellite of the list with that
    name. *)
Theorem last_satellite_of_a_name_wins (cfg : Config) (w : World)
    (instants : list skyfield.time) (times_datetime : list datetime.t)
    (before after : list Satellite) (sat : Satellite)
    (at_ : skyfield.time → Subpoint) (log log' : list event)
    (all_satellite_data : gmap string Entry) :
  show_all.collect_satellite_data cfg w (before ++ sat :: after) instants
    times_datetime false log = (log', Ok all_satellite_data) →
  propagate w sat = Ok at_ →
  Forall (λ s, name s ≠ name sat) after →
  all_satellite_data !! name sat = Some (full_entry at_ instants times_datetime).
Proof.
  unfold show_all.collect_satellite_data. intros [_ ->]%collect_all_inv Hp Hafter.
  rewrite foldl_app. simpl. rewrite collect_fold_untouched.
  - unfold collect_step. rewrite Hp. simpl. by rewrite lookup_insert_eq.
  - eapply Forall_impl; [exact Hafter|]. by intros s Hs Hn.
Qed.

Lemma last_satellite_of_a_name_wins_witness :
  ∃ log' all_satellite_data,
    show_all.collect_satellite_data config more_examples.twin_world
      [more_examples.twin_low; more_examples.twin_high]
      examples.six_hourly examples.six_hourly_dt false []
      = (log', Ok all_satellite_data) ∧
    altitude_km <$> all_satellite_data !! "59625"%string
      = Some [2000; 2000; 2000; 2000; 2000]%float.
Proof.
  destruct (show_all.collect_satellite_data config more_examples.twin_world
              [more_examples.twin_low; more_examples.twin_high]
              examples.six_hourly examples.six_hourly_dt false [])
    as [log' [all|ex]] eqn:Hrun; [|by vm_compute in Hrun].
  exists log', all. split; [done|].
  change "59625"%string with (name more_examples.twin_high).
  rewrite (last_satellite_of_a_name_wins config more_examples.twin_world
             examples.six_hourly examples.six_hourly_dt
             [more_examples.twin_low] [] more_examples.twin_high
             (examples.table_subpoint []) [] log' all Hrun eq_refl);
    [reflexivity|constructor].
Defined.

(** X12. Whatever the names of the satellites, the keys of the unfiltered
    dictionary are exactly the names of the satellites of the list, and
    every key of the filtered dictionary is also a key of the unfiltered
    one. *)
Theorem filtered_keys_are_unfiltered_keys (cfg : Config) (w : World)
    (satellites : list Satellite) (instants : list skyfield.time)
    (times_datetime : list datetime.t) (log1 log1' log2 log2' : list event)
    (filtered_satellite_data all_satellite_data : gmap string Entry) :
  length times_datetime = length instants →
  show_all.collect_satellite_data cfg w satellites instants times_datetime true log1
    = (log1', Ok filtered_satellite_data) →
  show_all.collect_satellite_data cfg w satellites instants times_datetime false log2
    = (log2', Ok all_satellite_data) →
  (∀ n, is_Some (all_satellite_data !! n) ↔ ∃ sat, sat ∈ satellites ∧ name sat = n) ∧
  (∀ n, is_Some (filtered_satellite_data !! n) → is_Some (all_satellite_data !! n)).
Proof.
  intros Hlen Hf Ha.
  apply (collect_satellite_data_Ok_inv cfg w instants times_datetime Hlen) in Hf
    as [Hall ->].
  apply (collect_satellite_data_Ok_inv cfg w instants times_datetime Hlen) in Ha
    as [_ ->].
  rewrite Forall_forall in Hall.
  assert (∀ n, (∃ sat, sat ∈ satellites ∧ name sat = n) →
    is_Some (foldl (collect_step cfg w instants times_datetime false) ∅ satellites !! n))
    as Hpresent.
  { intros n (sat & Hin & <-). apply collect_fold_all_present; [done|by apply Hall]. }
  split.
  - intros n. split; [|apply Hpresent].
    intros [e [Hempty|(sat & at_ & Hin & Hn & _)]%collect_fold_lookup].
    + by rewrite lookup_empty in Hempty.
    + by exists sat.
  - intros n [e [Hempty|(sat & at_ & Hin & Hn & _)]%collect_fold_lookup].
    + by rewrite lookup_empty in Hempty.
    + apply Hpresent. by exists sat.
Qed.

Lemma filtered_keys_are_unfiltered_keys_witness :
  ∃ log1' log2' filtered_satellite_data all_satellite_data,
    show_all.collect_satellite_data config more_examples.twin_world
      [more_examples.twin_low; more_examples.twin_high]
      examples.six_hourly examples.six_hourly_dt true [] =
      (log1', Ok filtered_satellite_data) ∧
    show_all.collect_satellite_data config more_examples.twin_world
      [more_examples.twin_low; more_examples.twin_high]
      examples.six_hourly examples.six_hourly_dt false [] =
      (log2', Ok all_satellite_data) ∧
    ∀ n, is_Some (filtered_satellite_data !! n) → is_Some (all_satellite_data !! n).
Proof.
  destruct (show_all.collect_satellite_data config more_examples.twin_world
              [more_examples.twin_low; more_examples.twin_high]
              examples.six_hourly examples.six_hourly_dt true [])
    as [log1' [fd|ex]] eqn:Hf; [|by vm_compute in Hf].
  destruct (show_all.collect_satellite_data config more_examples.twin_world
              [more_examples.twin_low; more_examples.twin_high]
              examples.six_hourly examples.six_hourly_dt false [])
    as [log2' [ad|ex]] eqn:Ha; [|by vm_compute in Ha].
  exists log1', log2', fd, ad. split; [done|]. split; [done|].
  by destruct (filtered_keys_are_unfiltered_keys config more_examples.twin_world
                 [more_examples.twin_low; more_examples.twin_high]
                 examples.six_hourly examples.six_hourly_dt [] log1' [] log2' fd ad
                 eq_refl Hf Ha) as [_ Hsub].
Defined.

(** X13. No entry of the filtered dictionary is empty, and every altitude
    stored in it is at or below the threshold (so none is a NaN). *)
Theorem filtered_entries_hold_qualifying_samples (cfg : Config) (w : World)
    (satellites : list Satellite) (instants : list skyfield.time)
    (times_datetime : list datetime.t) (log log' : list event)
    (filtered_satellite_data : gmap string Entry) :
  length times_datetime = length instants →
  show_all.collect_satellite_data cfg w satellites instants times_datetime true log
    = (log', Ok filtered_satellite_data) →
  ∀ n e, filtered_satellite_data !! n = Some e →
    samples e ≠ [] ∧
    Forall (λ a, PrimFloat.leb a (MAX_ALTITUDE_KM cfg) = true) (altitude_km e).
Proof.
  intros Hlen Hrun n e He.
  apply (collect_satellite_data_Ok_inv cfg w instants times_datetime Hlen) in Hrun
    as [_ ->].
  apply collect_fold_lookup in He as [Hempty|(sat & at_ & Hin & Hn & Hp & Hs)].
  { by rewrite lookup_empty in Hempty. }
  pose proof (aligned_full_entry instants times_datetime at_ Hlen) as Hu.
  unfold stored_entry in Hs. cbv zeta in Hs.
  set (u := full_entry at_ instants times_datetime) in *.
  set (mask := altitude_mask (MAX_ALTITUDE_KM cfg) (altitude_km u)) in *.
  destruct (np_any mask) eqn:Hany; [|done]. injection Hs as <-. split.
  - rewrite samples_masked. apply np_any_true_compress; [done|].
    unfold mask, altitude_mask. rewrite length_fmap.
    rewrite (aligned_length_samples u Hu). by destruct Hu as (_ & _ & _ & ->).
  - simpl. unfold mask, altitude_mask. rewrite compress_filter.
    apply Forall_forall. intros a Ha. by apply list_elem_of_filter in Ha as [Ha _].
Qed.

Lemma filtered_entries_hold_qualifying_samples_witness :
  ∃ log' filtered_satellite_data,
    show_all.collect_satellite_data config examples.world
      [examples.sat_59625; examples.sat_59626]
      examples.six_hourly examples.six_hourly_dt true [] =
      (log', Ok filtered_satellite_data) ∧
    ∀ n e, filtered_satellite_data !! n = Some e → samples e ≠ [].
Proof.
  destruct (show_all.collect_satellite_data config examples.world
              [examples.sat_59625; examples.sat_59626]
              examples.six_hourly examples.six_hourly_dt true [])
    as [log' [fd|ex]] eqn:Hf; [|by vm_compute in Hf].
  exists log', fd. split; [done|]. intros n e He.
  by destruct (filtered_entries_hold_qualifying_samples config examples.world
                 [examples.sat_59625; examples.sat_59626]
                 examples.six_hourly examples.six_hourly_dt [] log' fd
                 eq_refl Hf n e He) as [Hne _].
Defined.

Lemma collect_events_propagated (cfg : Config) (w : World)
    (instants : list skyfield.time) (times_datetime : list datetime.t)
    (flag : bool) (satellites : list Satellite) :
  omap propagated (satellites ≫= collect_events cfg w instants times_datetime flag)
    = satellites ∧
  omap fetched (satellites ≫= collect_events cfg w instants times_datetime flag) = [] ∧
  omap rendered (satellites ≫= collect_events cfg w instants times_datetime flag) = [].
Proof.
  induction satellites as [|sat satellites (IHp & IHf & IHr)]; [done|].
  rewrite bind_cons, !omap_app, IHp, IHf, IHr. unfold collect_events.
  destruct (propagate w sat); simpl; by rewrite ?app_nil_r.
Qed.

(** X14. [collect_satellite_data] calls the propagator once per satellite,
    in the order of the list; at the first satellite for which the
    propagator raises it stops with that exception, and the satellites
    after it are never evaluated. *)
Theorem collection_stops_at_first_failure (cfg : Config) (w : World)
    (instants : list skyfield.time) (times_datetime : list datetime.t)
    (filter_altitude : bool) (good rest : list Satellite) (bad : Satellite)
    (ex : exn) (log : list event) :
  length times_datetime = length instants →
  Forall (λ sat, is_Ok (propagate w sat)) good →
  propagate w bad = Raise ex →
  (∃ evs data,
     show_all.collect_satellite_data cfg w good instants times_datetime
       filter_altitude log = (log ++ evs, Ok data) ∧
     omap propagated evs = good) ∧
  (∃ evs,
     show_all.collect_satellite_data cfg w (good ++ bad :: rest) instants
       times_datetime filter_altitude log = (log ++ evs, Raise ex) ∧
     omap propagated evs = good ++ [bad]).
Proof.
  intros Hlen Hgood Hbad. unfold show_all.collect_satellite_data.
  pose proof (collect_events_propagated cfg w instants times_datetime filter_altitude
                good) as (Hp & _).
  split.
  - eexists _, _. split; [by apply collect_satellite_data_fold|done].
  - exists ((good ≫= collect_events cfg w instants times_datetime filter_altitude)
            ++ [Propagate bad]).
    split; [|by rewrite omap_app, Hp].
    clear Hp. generalize (∅ : gmap string Entry) as data. revert log.
    induction Hgood as [|sat good [at_ Hsat] _ IH]; intros log data; simpl.
    + unfold mbind, M_bind at 1.
      by rewrite (collect_one_Raise cfg w instants times_datetime filter_altitude
                    bad data log ex Hbad).
    + unfold mbind, M_bind at 1.
      rewrite (collect_one_Ok cfg w instants times_datetime filter_altitude sat
                 data log at_ Hsat Hlen).
      rewrite IH. by rewrite <- !app_assoc.
Qed.

Lemma collection_stops_at_first_failure_witness :
  ∃ evs,
    show_all.collect_satellite_data config more_examples.raising_world
      [examples.sat_59625; examples.sat_40115; examples.sat_59626]
      examples.six_hourly examples.six_hourly_dt false []
      = (evs, Raise (LibraryError "MemoryError")) ∧
    omap propagated evs = [examples.sat_59625; examples.sat_40115].
Proof.
  destruct (collection_stops_at_first_failure config more_examples.raising_world
              examples.six_hourly examples.six_hourly_dt false
              [examples.sat_59625] [examples.sat_59626] examples.sat_40115
              (LibraryError "MemoryError") [])
    as [_ (evs & Hrun & Hprop)]; [reflexivity| |reflexivity|].
  { constructor; [by eexists|constructor]. }
  exists evs. split; [exact Hrun|exact Hprop].
Defined.

(** ** Lists that do not correspond *)

Lemma select_times_cases {A} (start : nat) (mask : list bool) (l : list A) :
  (∃ r, select_times start mask l = Ok r) ∨
  select_times start mask l = Raise IndexError.
Proof.
  revert start. induction mask as [|m mask IH]; intros start; simpl.
  { left. by eexists. }
  destruct m; [|apply IH].
  destruct (l !! start) as [x|]; [|by right].
  destruct (IH (S start)) as [[r ->]| ->]; simpl; [left; by eexists|by right].
Qed.

Lemma select_times_Raise {A} (start : nat) (mask : list bool) (l : list A) :
  select_times start mask l = Raise IndexError ↔
  ∃ i, mask !! i = Some true ∧ (length l ≤ start + i)%nat.
Proof.
  revert start. induction mask as [|m mask IH]; intros start; simpl.
  { split; [done|]. by intros (i & Hi & _). }
  destruct m.
  - destruct (l !! start) as [x|] eqn:Hx.
    + apply lookup_lt_Some in Hx.
      destruct (select_times (S start) mask l) as [r|ex] eqn:E; simpl.
      * split; [done|]. intros ([|i] & Hi & Hle); simpl in *; [lia|].
        assert (select_times (S start) mask l = Raise IndexError) as E';
          [|congruence].
        apply IH. exists i. split; [done|lia].
      * destruct (select_times_cases (S start) mask l) as [[r' Hr]|Hr];
          rewrite E in Hr; [done|]. injection Hr as ->.
        split; [|done]. intros _. apply IH in E as (i & Hi & Hle).
        exists (S i). split; [done|lia].
    + apply lookup_ge_None in Hx. split; [|done]. intros _.
      exists 0%nat. split; [done|lia].
  - rewrite IH. split.
    + intros (i & Hi & Hle). exists (S i). split; [done|lia].
    + intros ([|i] & Hi & Hle); simpl in *; [done|]. exists i. split; [done|lia].
Qed.

(** [filter_entry] raises nothing but [IndexError], and raises it exactly
    when the altitude qualifies at a position beyond the end of
    [times_datetime]. *)
Lemma filter_entry_IndexError (max_altitude_km : float)
    (lat lon elev_m alt_km : list float) (times_datetime : list datetime.t) :
  ((∃ r, filter_entry max_altitude_km lat lon elev_m alt_km times_datetime = Ok r) ∨
   filter_entry max_altitude_km lat lon elev_m alt_km times_datetime
     = Raise IndexError) ∧
  (filter_entry max_altitude_km lat lon elev_m alt_km times_datetime
     = Raise IndexError ↔
   ∃ i a, alt_km !! i = Some a ∧ PrimFloat.leb a max_altitude_km = true ∧
          (length times_datetime ≤ i)%nat).
Proof.
  unfold filter_entry.
  set (mask := altitude_mask max_altitude_km alt_km).
  assert ((∃ i, mask !! i = Some true ∧ (length times_datetime ≤ 0 + i)%nat) ↔
          ∃ i a, alt_km !! i = Some a ∧ PrimFloat.leb a max_altitude_km = true ∧
                 (length times_datetime ≤ i)%nat) as Hmask.
  { unfold mask, altitude_mask. split.
    - intros (i & Hi & Hle). rewrite list_lookup_fmap in Hi.
      apply fmap_Some in Hi as (a & Ha & Hq). by exists i, a.
    - intros (i & a & Ha & Hq & Hle). exists i.
      rewrite list_lookup_fmap, Ha. simpl. by rewrite Hq. }
  destruct (np_any mask) eqn:Hany.
  - destruct (select_times_cases 0 mask times_datetime) as [[r Hr]|Hr].
    + rewrite Hr. simpl. split; [left; by eexists|].
      rewrite <- Hmask, <- select_times_Raise, Hr. done.
    + rewrite Hr. simpl. split; [by right|].
      rewrite <- Hmask, <- select_times_Raise. done.
  - split; [left; by eexists|]. split; [done|].
    rewrite <- Hmask. intros (i & Hi & _). exfalso.
    apply list_elem_of_lookup_2 in Hi. unfold np_any in Hany.
    assert (existsb id mask = true); [|congruence].
    apply existsb_exists. exists true. split; [|done].
    by apply list_elem_of_In.
Qed.

(** X15. With the filter, [collect_satellite_data] reads [times_datetime]
    at every position where the altitude qualifies, without checking its
    length: for a satellite that the propagator evaluates, the pass raises
    [IndexError] exactly when the altitude qualifies at an instant whose
    position lies beyond the end of [times_datetime], and raises nothing
    else. *)
Theorem short_times_datetime_raises_IndexError (cfg : Config) (w : World)
    (instants : list skyfield.time) (times_datetime : list datetime.t)
    (sat : Satellite) (data : gmap string Entry) (log : list event)
    (at_ : skyfield.time → Subpoint) :
  propagate w sat = Ok at_ →
  ((∃ log' data',
      show_all.collect_one cfg w instants times_datetime true sat data log
        = (log', Ok data')) ∨
   show_all.collect_one cfg w instants times_datetime true sat data log
     = (log ++ [Propagate sat], Raise IndexError)) ∧
  (show_all.collect_one cfg w instants times_datetime true sat data log
     = (log ++ [Propagate sat], Raise IndexError) ↔
   ∃ i t, instants !! i = Some t ∧
          PrimFloat.leb (elevation_km (at_ t)) (MAX_ALTITUDE_KM cfg) = true ∧
          (length times_datetime ≤ i)%nat).
Proof.
  intros Hp.
  unfold show_all.collect_one, mbind, M_bind, mret, M_ret, print, emit, lift.
  simpl. rewrite Hp. simpl.
  match goal with
  | |- context [filter_entry ?m ?lat ?lon ?el ?alt times_datetime] =>
      destruct (filter_entry_IndexError m lat lon el alt times_datetime)
        as [Hcases Hiff];
      destruct (filter_entry m lat lon el alt times_datetime) as [kept|ex] eqn:Hf
  end.
  - simpl. split.
    + left. destruct kept; by eexists _, _.
    + split.
      * destruct kept; simpl; intros [=].
      * intros (i & t & Hi & Hq & Hle).
        assert (@Ok (option Entry) kept = Raise IndexError); [|done].
        apply Hiff. exists i, (elevation_km (at_ t)).
        by rewrite !list_lookup_fmap, Hi.
  - simpl. destruct Hcases as [[r [=]]|[= ->]]. split; [by right|].
    split; [|done]. intros _.
    destruct (proj1 Hiff eq_refl) as (i & a & Hi & Hq & Hle).
    rewrite !list_lookup_fmap in Hi.
    destruct (instants !! i) as [t|] eqn:Ht; [|done].
    injection Hi as <-. by exists i, t.
Qed.

Lemma short_times_datetime_raises_IndexError_witness :
  show_all.collect_one config examples.world examples.six_hourly [] true
    examples.sat_59625 ∅ []
  = ([Propagate examples.sat_59625], Raise IndexError).
Proof.
  destruct (short_times_datetime_raises_IndexError config examples.world
              examples.six_hourly [] examples.sat_59625 ∅ []
              (examples.table_subpoint examples.altitude_table) eq_refl)
    as [_ Hiff].
  apply Hiff. exists 0%nat, (instant_of examples.world examples.new_year).
  split_and!; [reflexivity|by vm_compute|simpl; lia].
Defined.

(** ** The run of [show_all.py], whatever the collaborators do *)

Lemma rendered_nil_not_in (evs : list event) (flag : bool) (d : gmap string Entry) :
  omap rendered evs = [] → Render flag d ∉ evs.
Proof.
  intros Hnil Hin.
  assert ((flag, d) ∈ omap rendered evs) as Hd
    by (apply list_elem_of_omap; by exists (Render flag d)).
  rewrite Hnil in Hd. by apply elem_of_nil in Hd.
Qed.

(** One pass of the loop of [collect_satellite_data], whatever the
    propagator does: which collaborators it calls, and when the returned
    dictionary is not empty. *)
Lemma collect_one_calls (cfg : Config) (w : World)
    (instants : list skyfield.time) (times_datetime : list datetime.t)
    (flag : bool) (sat : Satellite) (data : gmap string Entry) (log : list event) :
  ∃ evs r,
    show_all.collect_one cfg w instants times_datetime flag sat data log
      = (log ++ evs, r) ∧
    omap fetched evs = [] ∧ omap propagated evs = [sat] ∧ omap rendered evs = [] ∧
    (∀ d, r = Ok d → flag = false ∨ data ≠ ∅ → d ≠ ∅).
Proof.
  unfold show_all.collect_one, mbind, M_bind, mret, M_ret, print, emit, lift.
  simpl. destruct (propagate w sat) as [at_|ex]; simpl.
  - destruct flag.
    + destruct (filter_entry _ _ _ _ _ _) as [[entry|]|ex]; simpl.
      * rewrite <- app_assoc. eexists _, _. split; [done|]. split_and!; [done..|].
        intros d [= <-] _. apply insert_non_empty.
      * rewrite <- app_assoc. eexists _, _. split; [done|]. split_and!; [done..|].
        intros d [= <-] [?|?]; done.
      * eexists _, _. split; [done|]. by split_and!.
    + rewrite <- app_assoc. eexists _, _. split; [done|]. split_and!; [done..|].
      intros d [= <-] _. apply insert_non_empty.
  - eexists _, _. split; [done|]. by split_and!.
Qed.

Lemma collect_calls (cfg : Config) (w : World)
    (instants : list skyfield.time) (times_datetime : list datetime.t)
    (flag : bool) (satellites : list Satellite) (data : gmap string Entry)
    (log : list event) :
  ∃ evs r,
    for_each satellites (show_all.collect_one cfg w instants times_datetime flag)
      data log = (log ++ evs, r) ∧
    omap fetched evs = [] ∧ omap rendered evs = [] ∧
    omap propagated evs `prefix_of` satellites ∧
    (∀ d, r = Ok d →
       omap propagated evs = satellites ∧
       ((flag = false ∧ satellites ≠ []) ∨ data ≠ ∅ → d ≠ ∅)).
Proof.
  revert data log. induction satellites as [|sat satellites IH]; intros data log.
  { exists [], (Ok data). simpl. unfold mret, M_ret. rewrite app_nil_r.
    split_and!; [done..|]. intros d [= <-]. split; [done|]. by intros [[_ ?]|?]. }
  destruct (collect_one_calls cfg w instants times_datetime flag sat data log)
    as (evs1 & r1 & H1 & Hf1 & Hp1 & Hr1 & Hd1).
  cbn [for_each]. unfold mbind, M_bind at 1. rewrite H1.
  destruct r1 as [data1|ex].
  - destruct (IH data1 (log ++ evs1)) as (evs2 & r2 & H2 & Hf2 & Hr2 & Hp2 & Hd2).
    exists (evs1 ++ evs2), r2. rewrite H2, app_assoc, !omap_app, Hf1, Hf2, Hr1, Hr2, Hp1.
    split_and!; [done..| |].
    + by apply (prefix_app [sat]).
    + intros d Hd. destruct (Hd2 d Hd) as [-> Hne]. split; [done|].
      intros Hor. apply Hne. right. apply Hd1; [done|].
      destruct Hor as [[-> _]|?]; [by left|by right].
  - exists evs1, (Raise ex). rewrite Hp1. split_and!; [done..| |done].
    by apply (prefix_app_r [sat] [sat] satellites).
Qed.


(** X16. [main] calls a plotting function only after both collections
    have returned, and never with an empty dictionary: if anything is
    rendered, the time grid was built, the admission loop and the two
    collections raised nothing, and what is rendered is the dictionary of
    the matching collection, with at least one entry; the filtered
    dictionary is handed to [plot_filtered_orbits] only when it has an
    entry. From then on the run can only end normally or with the
    exception of a plotting function. *)
Theorem rendering_needs_both_collections (cfg : Config) (w : World)
    (flag : bool) (d : gmap string Entry) :
  Render flag d ∈ (show_all.run (show_all.main cfg w)).1 →
  d ≠ ∅ ∧
  ∃ times times_datetime log1 log1' log2 log2'
    filtered_satellite_data all_satellite_data,
    show_all.generate_time_steps w (utcnow w) (PREDICTION_DAYS cfg)
      (TIME_STEP_MINUTES cfg) = Ok (times, times_datetime) ∧
    show_all.collect_satellite_data cfg w
      (omap (element_set w) (SATELLITE_IDS cfg)) times times_datetime true log1
      = (log1', Ok filtered_satellite_data) ∧
    show_all.collect_satellite_data cfg w
      (omap (element_set w) (SATELLITE_IDS cfg)) times times_datetime false log2
      = (log2', Ok all_satellite_data) ∧
    d = (if flag then filtered_satellite_data else all_satellite_data) ∧
    (flag = false →
     filtered_satellite_data = ∅ ∨
     is_Ok (plot_filtered_orbits w filtered_satellite_data)) ∧
    match (show_all.run (show_all.main cfg w)).2 with
    | Ok _ => True
    | Raise e =>
        plot_filtered_orbits w filtered_satellite_data = Raise e ∨
        plot_all_orbits w all_satellite_data = Raise e
    end.
Proof.
  unfold show_all.run, show_all.main, show_all.collect_satellite_data.
  unfold mbind, M_bind, mret, M_ret, print, emit, lift. simpl.
  destruct (show_all.generate_time_steps _ _ _ _) as [[times times_datetime]|ex];
    simpl.
  2:{ intros Hin. set_solver. }
  destruct (admission_calls w (SATELLITE_IDS cfg) []
              [Print (MsgGenerating (utcnow w) (PREDICTION_DAYS cfg));
               Print MsgFetching]) as (admission & r & Hadm & _ & Hnr & Hcase).
  rewrite Hadm. simpl.
  pose proof (rendered_nil_not_in admission flag d Hnr) as Hadm'.
  destruct r as [admitted|e]; [|simpl; set_solver].
  destruct Hcase as (-> & _). simpl.
  destruct (omap (element_set w) (SATELLITE_IDS cfg)) as [|sat rest] eqn:Hsats.
  { simpl. intros Hin. set_solver. }
  match goal with
  | |- context [for_each (sat :: rest)
                  (show_all.collect_one cfg w times times_datetime true) ∅ ?l] =>
      destruct (collect_calls cfg w times times_datetime true
                  (sat :: rest) ∅ l) as (evs1 & r1 & H1 & _ & Hr1 & _); rewrite H1
  end.
  pose proof (rendered_nil_not_in evs1 flag d Hr1) as Hevs1.
  destruct r1 as [filtered_satellite_data|ex]; [|simpl; set_solver].
  match goal with
  | |- context [for_each (sat :: rest)
                  (show_all.collect_one cfg w times times_datetime false) ∅ ?l] =>
      destruct (collect_calls cfg w times times_datetime false
                  (sat :: rest) ∅ l) as (evs2 & r2 & H2 & _ & Hr2 & _ & Hd2);
        rewrite H2
  end.
  pose proof (rendered_nil_not_in evs2 flag d Hr2) as Hevs2.
  destruct r2 as [all_satellite_data|ex]; [|simpl; set_solver].
  assert (all_satellite_data ≠ ∅) as Hall by (apply (Hd2 _ eq_refl); by left).
  case_bool_decide as Hempty; simpl;
    destruct (plot_filtered_orbits w filtered_satellite_data) as [[]|e1] eqn:Hpf;
    simpl;
    destruct (plot_all_orbits w all_satellite_data) as [[]|e2] eqn:Hpa; simpl;
    intros Hin;
    rewrite ?elem_of_cons, ?elem_of_app, ?list_elem_of_singleton in Hin;
    destruct_or!; try done;
    match goal with
    | H : Render _ _ = Render _ _ |- _ => injection H as -> ->
    end;
    (split; [done|]);
    exists times, times_datetime; eexists _, _, _, _;
    exists filtered_satellite_data, all_satellite_data;
    (split_and!; [done|exact H1|exact H2|done| |]);
    try done; try (by intros _; left); try (by intros _; right; eexists);
    try (by left); try (by right).
Qed.

Lemma rendering_needs_both_collections_witness :
  ∃ d,
    Render true d
      ∈ (show_all.run (show_all.main more_examples.one_day examples.calm_world)).1 ∧
    d ≠ ∅.
Proof.
  assert (∃ d, (show_all.run
                  (show_all.main more_examples.one_day examples.calm_world)).1
                 !! 15%nat = Some (Render true d)) as [d Hd].
  { vm_compute. by eexists. }
  apply list_elem_of_lookup_2 in Hd. exists d. split; [done|].
  by destruct (rendering_needs_both_collections more_examples.one_day
                 examples.calm_world true d Hd) as [Hne _].
Defined.

(** X17. A run of [main] has two phases. The first sends the requests, in
    the order of the configuration and at most one per configured id, and
    evaluates and renders nothing; it sends none when the time grid raises,
    and one per configured id whenever the run goes on to the second phase.
    The second sends no request and evaluates the admitted satellites in
    order, at most twice each: first for the filtered collection, then for
    the unfiltered one, and both times all of them in a run that ends
    normally. *)
Theorem main_calls_collaborators_in_phases (cfg : Config) (w : World) :
  let satellites := omap (element_set w) (SATELLITE_IDS cfg) in
  ∃ admission collection,
    (show_all.run (show_all.main cfg w)).1 = admission ++ collection ∧
    omap fetched admission `prefix_of` SATELLITE_IDS cfg ∧
    (¬ is_Ok (show_all.generate_time_steps w (utcnow w) (PREDICTION_DAYS cfg)
                (TIME_STEP_MINUTES cfg)) →
     omap fetched admission = []) ∧
    omap propagated admission = [] ∧ omap rendered admission = [] ∧
    omap fetched collection = [] ∧
    omap propagated collection `prefix_of` satellites ++ satellites ∧
    (collection ≠ [] → omap fetched admission = SATELLITE_IDS cfg) ∧
    ((show_all.run (show_all.main cfg w)).2 = Ok tt →
     omap fetched admission = SATELLITE_IDS cfg ∧
     omap propagated collection = satellites ++ satellites).
Proof.
  intros satellites.
  unfold show_all.run, show_all.main, show_all.collect_satellite_data.
  unfold mbind, M_bind, mret, M_ret, print, emit, lift. simpl.
  destruct (show_all.generate_time_steps _ _ _ _) as [[times times_datetime]|ex];
    simpl.
  2:{ eexists _, []. rewrite app_nil_r. split; [done|].
      split_and!; try done; [apply prefix_nil|apply prefix_nil]. }
  destruct (admission_calls w (SATELLITE_IDS cfg) []
              [Print (MsgGenerating (utcnow w) (PREDICTION_DAYS cfg));
               Print MsgFetching]) as (adm & r & Hadm & Hp & Hr & Hcase).
  rewrite Hadm. simpl.
  exists ([Print (MsgGenerating (utcnow w) (PREDICTION_DAYS cfg));
           Print MsgFetching] ++ adm).
  rewrite !omap_app, Hp, Hr.
  destruct r as [admitted|e].
  2:{ destruct Hcase as (before & sat_id & after & sat & Hids & Hf & _).
      exists []. rewrite app_nil_r, Hf, Hids. split; [done|].
      split_and!; try done.
      - exists after. simpl. by rewrite <- app_assoc.
      - intros []. by eexists.
      - apply prefix_nil. }
  destruct Hcase as (-> & Hf & _). rewrite Hf. simpl. fold satellites.
  clearbody satellites.
  destruct satellites as [|sat rest].
  { exists [Print MsgNoSatellites]. split_and!; try done. intros []. by eexists. }
  match goal with
  | |- context [for_each (sat :: rest)
                  (show_all.collect_one cfg w times times_datetime true) ∅ ?l] =>
      destruct (collect_calls cfg w times times_datetime true
                  (sat :: rest) ∅ l) as (evs1 & r1 & H1 & Hf1 & Hr1 & Hp1 & Hd1);
        rewrite H1
  end.
  destruct r1 as [filtered_satellite_data|ex1].
  2:{ exists ([Print MsgComputingFiltered] ++ evs1).
      rewrite !omap_app, Hf1. split; [by rewrite <- !app_assoc|].
      split_and!; try done.
      - intros []. by eexists.
      - by apply (prefix_app_r _ (sat :: rest) (sat :: rest)). }
  destruct (Hd1 _ eq_refl) as [Hp1' _].
  match goal with
  | |- context [for_each (sat :: rest)
                  (show_all.collect_one cfg w times times_datetime false) ∅ ?l] =>
      destruct (collect_calls cfg w times times_datetime false
                  (sat :: rest) ∅ l) as (evs2 & r2 & H2 & Hf2 & Hr2 & Hp2 & Hd2);
        rewrite H2
  end.
  destruct r2 as [all_satellite_data|ex2].
  2:{ exists ([Print MsgComputingFiltered] ++ evs1 ++ [Print MsgCollectingAll] ++ evs2).
      rewrite !omap_app, Hf1, Hf2, Hp1'. split; [by rewrite <- !app_assoc|].
      split_and!; try done.
      - intros []. by eexists.
      - by apply (prefix_app (sat :: rest)). }
  destruct (Hd2 _ eq_refl) as [Hp2' _].
  assert (∀ tail : list event,
    omap fetched tail = [] → omap propagated tail = [] →
    let collection := [Print MsgComputingFiltered] ++ evs1 ++
                      [Print MsgCollectingAll] ++ evs2 ++ tail in
    omap fetched collection = [] ∧
    omap propagated collection = (sat :: rest) ++ (sat :: rest)) as Htail.
  { intros tail Hft Hpt. cbv zeta.
    rewrite !omap_app, Hf1, Hf2, Hp1', Hp2', Hft, Hpt. simpl.
    by rewrite app_nil_r. }
  case_bool_decide as Hempty; simpl;
    destruct (plot_filtered_orbits w filtered_satellite_data) as [[]|e1]; simpl;
    destruct (plot_all_orbits w all_satellite_data) as [[]|e2]; simpl;
    (eexists ([Print MsgComputingFiltered] ++ evs1 ++
              [Print MsgCollectingAll] ++ evs2 ++ _));
    (split; [simpl; rewrite <- ?app_assoc; simpl; reflexivity|]);
    match goal with
    | |- context [evs2 ++ ?tail] =>
        destruct (Htail tail eq_refl eq_refl) as [Hfc Hpc]
    end;
    cbv zeta in Hfc, Hpc; rewrite Hfc, Hpc;
    split_and!; try done; intros []; by eexists.
Qed.

(** ** [show_satellites_trajectories.py]: fetching and collecting *)

(** The fields of [TLE_URL] are named, so that formatting it with
    positional arguments raises [KeyError], whatever the arguments. *)
Lemma format_TLE_URL (args : list string) :
  pyformat.format TLE_URL args = Raise (LibraryError "KeyError").
Proof. by vm_compute. Qed.

(** Templates with positional fields, for comparison. *)
Example format_positional_fields :
  pyformat.format "tle/{}&apiKey={}" ["59625"; "key"]
    = Ok "tle/59625&apiKey=key"%string ∧
  pyformat.format "tle/{1}&apiKey={0}" ["key"; "59625"]
    = Ok "tle/59625&apiKey=key"%string ∧
  pyformat.format "tle/{}&apiKey={}" ["59625"] = Raise IndexError ∧
  pyformat.format "tle/{}&apiKey={0}" ["59625"; "key"]
    = Raise (LibraryError "ValueError").
Proof. by vm_compute. Qed.

(** X18. [fetch_tle] of [show_satellites_trajectories] formats
    [config.TLE_URL], whose fields are named, with positional arguments:
    for every id, key and source it sends no request, reports a
    [KeyError] and returns three [None]. *)
Theorem fetch_tle_positional_format_raises (api_key : string) (w : World)
    (sat_id : Z) (log : list trajectories.event) :
  trajectories.fetch_tle TLE_URL api_key w sat_id log =
    (log ++ [trajectories.Print
               (trajectories.MsgFetchError sat_id (LibraryError "KeyError"))],
     Ok (None, None, None)).
Proof.
  unfold trajectories.fetch_tle, trajectories.try_except, mbind, trajectories.T_bind,
    trajectories.lift.
  by rewrite format_TLE_URL.
Qed.

Lemma trajectories_admission (api_key : string) (w : World) (ids : list Z)
    (satellites : list Satellite) (log : list trajectories.event) :
  trajectories.for_each ids (trajectories.admit_one TLE_URL api_key w) satellites log =
    (log ++ (ids ≫= λ sat_id,
               [trajectories.Print
                  (trajectories.MsgFetchError sat_id (LibraryError "KeyError"));
                trajectories.Print (trajectories.MsgSkipping sat_id)]),
     Ok satellites).
Proof.
  revert log. induction ids as [|sat_id ids IH]; intros log.
  { simpl. unfold mret, trajectories.T_ret. by rewrite app_nil_r. }
  cbn [trajectories.for_each]. unfold mbind, trajectories.T_bind at 1.
  unfold trajectories.admit_one at 1. unfold mbind, trajectories.T_bind at 1.
  unfold trajectories.fetch_tle, trajectories.try_except, mbind, trajectories.T_bind,
    trajectories.lift.
  rewrite format_TLE_URL. simpl. rewrite IH.
  by rewrite <- !app_assoc.
Qed.

(** X19. With [config.TLE_URL], [main] of [show_satellites_trajectories]
    tracks nothing, whatever the configuration, the key, the sources and
    the renderer:
    once the time grid is built, every configured id is reported with a
    [KeyError] and skipped, and the run ends with the message that there
    are no satellites to track; nothing is requested, evaluated or
    rendered. When the time grid raises, the run ends with that
    exception. *)
Theorem show_satellites_trajectories_tracks_nothing (api_key : string)
    (plot_satellite_paths : gmap string trajectories.Entry → result unit)
    (cfg : Config) (w : World) :
  trajectories.run
    (trajectories.main TLE_URL api_key plot_satellite_paths cfg w) =
    match show_satellites_trajectories.generate_time_steps w (utcnow w)
            (PREDICTION_DAYS cfg) (TIME_STEP_MINUTES cfg) with
    | Ok _ =>
        (trajectories.Print
           (trajectories.MsgGenerating (utcnow w) (PREDICTION_DAYS cfg))
         :: trajectories.Print trajectories.MsgFetching
         :: (SATELLITE_IDS cfg ≫= λ sat_id,
               [trajectories.Print
                  (trajectories.MsgFetchError sat_id (LibraryError "KeyError"));
                trajectories.Print (trajectories.MsgSkipping sat_id)])
         ++ [trajectories.Print trajectories.MsgNoSatellites],
         Ok tt)
    | Raise e =>
        ([trajectories.Print
            (trajectories.MsgGenerating (utcnow w) (PREDICTION_DAYS cfg))],
         Raise e)
    end.
Proof.
  unfold trajectories.run, trajectories.main.
  unfold mbind, trajectories.T_bind, trajectories.print, trajectories.emit,
    trajectories.lift.
  simpl.
  destruct (show_satellites_trajectories.generate_time_steps _ _ _ _) as [times|e];
    [|done].
  simpl. by rewrite trajectories_admission.
Qed.

Lemma trajectories_collect_agrees (cfg : Config) (w : World)
    (satellites : list Satellite) (times : list skyfield.time)
    (times_datetime : list datetime.t) (data : gmap string Entry)
    (log : list event) :
  trajectories.for_each satellites (trajectories.collect_one w times)
    (without_times <$> data) (trajectories.Propagate <$> omap propagated log) =
  let '(log', r) := for_each satellites
                      (show_all.collect_one cfg w times times_datetime false)
                      data log in
  (trajectories.Propagate <$> omap propagated log',
   match r with
   | Ok d => Ok (without_times <$> d)
   | Raise e => Raise e
   end).
Proof.
  revert data log. induction satellites as [|sat satellites IH]; intros data log.
  { done. }
  cbn [trajectories.for_each for_each].
  unfold mbind, trajectories.T_bind at 1. unfold mbind, M_bind at 1.
  unfold trajectories.collect_one, show_all.collect_one.
  unfold mbind, trajectories.T_bind, M_bind, trajectories.emit, emit,
    trajectories.lift, lift, print, emit, mret, M_ret, trajectories.T_ret.
  simpl. destruct (propagate w sat) as [at_|e]; simpl.
  - rewrite <- IH. rewrite fmap_insert. rewrite <- !app_assoc, !omap_app, !fmap_app.
    done.
  - by rewrite omap_app, fmap_app.
Qed.

(** X20. On the same satellites and instants, [collect_satellite_data] of
    [show_satellites_trajectories] and the unfiltered
    [collect_satellite_data] of [show_all] evaluate the same satellites in
    the same order and raise the same exception, and otherwise the
    dictionary of the first is that of the second without the ['times']
    of its entries. *)
Theorem both_programs_store_the_same_arrays (cfg : Config) (w : World)
    (satellites : list Satellite) (times : list skyfield.time)
    (times_datetime : list datetime.t) :
  trajectories.run (trajectories.collect_satellite_data w satellites times) =
  let '(log, r) :=
    show_all.run (show_all.collect_satellite_data cfg w satellites times
                    times_datetime false) in
  (trajectories.Propagate <$> omap propagated log,
   match r with
   | Ok all_satellite_data => Ok (without_times <$> all_satellite_data)
   | Raise e => Raise e
   end).
Proof.
  unfold trajectories.run, trajectories.collect_satellite_data, show_all.run,
    show_all.collect_satellite_data.
  rewrite <- (trajectories_collect_agrees cfg w satellites times times_datetime ∅ []).
  by rewrite fmap_empty.
Qed.
